(** * AiAbimees: the plant, reminder and health services over their SQL store

    A shallow embedding of [Server/db/plantService.js],
    [Server/db/reminderService.js] and [Server/db/healthService.js], of the
    routes of [Server/app.js] that call them, of the upload handler and of
    the reminders panel of the page.

    - A table is the list of its rows in insertion order; with
      AUTO_INCREMENT keys this is also primary-key order, the order in
      which an unordered [SELECT] hands the rows back.
    - Calendar dates ([DATE] columns, date strings) are day numbers; a
      JavaScript [Date] is a number of milliseconds since the epoch or the
      Invalid Date, and local time is what the zone of the server makes of
      it.
    - Every service function is a computation in a small monad that threads
      the database, the open transaction and a schedule of infrastructure
      faults, so that a round trip to the server may throw. *)

From Stdlib Require Import ZArith List String Bool Lia.
From Stdlib Require Import Sorting.Sorted Sorting.Permutation.
Import ListNotations.
Open Scope Z_scope.

(** ** JavaScript dates *)

Module JsDate.

Definition msPerDay : Z := 86400000.

(** The time value of a [Date] lies within 8.64e15 ms of the epoch. *)
Definition maxTime : Z := 8640000000000000.

(** A [Date] object by its time value; [None] is [NaN], the Invalid Date. *)
Definition Date : Type := option Z.

(** The zone of the server process: ECMAScript's [LocalTZA(t, isUTC)], the
    offset of local time in milliseconds, at the UTC time value [t] when
    [isUTC] and at the local time value [t] otherwise.  It is whatever the
    host says: a zone with clock changes has an offset that varies. *)
Definition Zone : Type := Z -> bool -> Z.

(** The readings that the successive [new Date()] of one call make of the
    clock. *)
Definition Clock : Type := nat -> Z.

Definition TimeClip (t : Z) : Date :=
  if Z.abs t <=? maxTime then Some t else None.

Definition LocalTime (tz : Zone) (t : Z) : Z := t + tz t true.
Definition UTC (tz : Zone) (t : Z) : Z := t - tz t false.
Definition Day (t : Z) : Z := t / msPerDay.
Definition TimeWithinDay (t : Z) : Z := t mod msPerDay.
Definition MakeDate (day time : Z) : Z := day * msPerDay + time.

(** The [startDate] strings that pass [isDate()], each by the calendar day
    it names: [YYYY-MM-DD] and [YYYY/MM/DD]. *)
Inductive DateString : Type :=
| Dashed (day : Z)
| Slashed (day : Z).

(** The day a [DATE] column takes from the string; MySQL reads both forms. *)
Definition dayOf (s : DateString) : Z :=
  match s with
  | Dashed day => day
  | Slashed day => day
  end.

(** [new Date(string)]: the date-only ISO form is UTC midnight; the form
    with slashes is not an ISO form and Node reads it as local midnight. *)
Definition parse (tz : Zone) (s : DateString) : Date :=
  match s with
  | Dashed day => TimeClip (MakeDate day 0)
  | Slashed day => TimeClip (UTC tz (MakeDate day 0))
  end.

(** [new Date()] at the clock reading [t] *)
Definition current (t : Z) : Date := Some t.

(** [d.setDate(d.getDate() + n)]: [MakeDay] of the local year, month and
    day of month plus [n] is the day [n] after the local day (the day of
    month overflows into the neighbouring months), the local time of day is
    kept, and the local time so made is taken back to UTC and clipped. *)
Definition addLocalDays (tz : Zone) (d : Date) (n : Z) : Date :=
  match d with
  | None => None
  | Some t =>
      let local := LocalTime tz t in
      TimeClip (UTC tz (MakeDate (Day local + n) (TimeWithinDay local)))
  end.

(** [d.toISOString().split('T')[0]]: the UTC calendar day; [None] is the
    [RangeError] that [toISOString] throws on an Invalid Date. *)
Definition toISODate (d : Date) : option Z :=
  match d with
  | Some t => Some (Day t)
  | None => None
  end.

(** The days of the years 0000 to 9999.  Beyond them [toISOString] writes
    the year with a sign and six digits, a string that is no [DATE] to
    MySQL; what the server does with it is outside this model. *)
Definition fourDigitYear (day : Z) : bool :=
  (-719528 <=? day) && (day <=? 2932896).

(** A zone that keeps one offset. *)
Definition fixed (offset : Z) : Zone := fun _ _ => offset.

(** A clock that reads [t] every time. *)
Definition still (t : Z) : Clock := fun _ => t.

End JsDate.

(** ** JavaScript truthiness, as far as the services rely on it *)

Module Js.

(** [s || null] on a string that may be absent: the empty string is falsy. *)
Definition truthyStr (o : option string) : bool :=
  match o with
  | Some s => negb (String.eqb s EmptyString)
  | None => false
  end.

Definition strOrNull (o : option string) : option string :=
  if truthyStr o then o else None.

(** [n || null] on a number that may be absent: zero is falsy. *)
Definition numOrNull (o : option Z) : option Z :=
  match o with
  | Some n => if n =? 0 then None else Some n
  | None => None
  end.

End Js.

(** ** The relational schema *)

Inductive ReminderType : Type :=
| watering
| fertilizing
| harvesting
| other.

Definition ReminderType_eqb (a b : ReminderType) : bool :=
  match a, b with
  | watering, watering => true
  | fertilizing, fertilizing => true
  | harvesting, harvesting => true
  | other, other => true
  | _, _ => false
  end.

(** [all_plants] *)
Record PlantType : Type := mkPlantType {
  plant_id : Z;
  plant_cultivar : string;
  plant_species : string;
  ap_is_deleted : bool
}.

(** [user_plants] *)
Record UserPlant : Type := mkUserPlant {
  user_plant_id : Z;
  user_id : Z;
  up_plant_id : Z;
  planting_time : Z;
  est_cropping : option Z;
  photo_url : option string;
  up_is_deleted : bool
}.

(** [plant_reminders] *)
Record Reminder : Type := mkReminder {
  reminder_id : Z;
  r_user_plant_id : Z;
  reminder_type : ReminderType;
  start_date : Z;
  interval_days : Z;
  next_reminder : Z;
  last_completed : option Z;
  notes : option string;
  is_active : bool
}.

(** [plant_health] *)
Record HealthRemark : Type := mkHealthRemark {
  health_id : Z;
  h_user_plant_id : Z;
  remarks : string;
  created_at : Z
}.

(** The four tables and their AUTO_INCREMENT counters. *)
Record DB : Type := mkDB {
  all_plants : list PlantType;
  user_plants : list UserPlant;
  plant_reminders : list Reminder;
  plant_health : list HealthRemark;
  ai_all_plants : Z;
  ai_user_plants : Z;
  ai_plant_reminders : Z;
  ai_plant_health : Z
}.

Definition set_all_plants (t : list PlantType) (n : Z) (d : DB) : DB :=
  mkDB t (user_plants d) (plant_reminders d) (plant_health d)
       n (ai_user_plants d) (ai_plant_reminders d) (ai_plant_health d).

Definition set_user_plants (t : list UserPlant) (n : Z) (d : DB) : DB :=
  mkDB (all_plants d) t (plant_reminders d) (plant_health d)
       (ai_all_plants d) n (ai_plant_reminders d) (ai_plant_health d).

Definition set_plant_reminders (t : list Reminder) (n : Z) (d : DB) : DB :=
  mkDB (all_plants d) (user_plants d) t (plant_health d)
       (ai_all_plants d) (ai_user_plants d) n (ai_plant_health d).

Definition set_plant_health (t : list HealthRemark) (n : Z) (d : DB) : DB :=
  mkDB (all_plants d) (user_plants d) (plant_reminders d) t
       (ai_all_plants d) (ai_user_plants d) (ai_plant_reminders d) n.

(** [ROLLBACK] gives the rows of the snapshot back; InnoDB does not give
    back the AUTO_INCREMENT values a rolled-back insert consumed. *)
Definition restore_rows (snapshot current : DB) : DB :=
  mkDB (all_plants snapshot) (user_plants snapshot)
       (plant_reminders snapshot) (plant_health snapshot)
       (ai_all_plants current) (ai_user_plants current)
       (ai_plant_reminders current) (ai_plant_health current).

(** The rows a reader sees. *)
Definition same_rows (a b : DB) : Prop :=
  all_plants a = all_plants b /\
  user_plants a = user_plants b /\
  plant_reminders a = plant_reminders b /\
  plant_health a = plant_health b.

(** ** SQL building blocks *)

Module Sql.

(** [UPDATE t SET ... WHERE cond]: the new table and the number of rows
    the condition matched (mysql2 connects with FOUND_ROWS, so
    [affectedRows] counts matched rows). *)
Definition update {A : Type} (cond : A -> bool) (set : A -> A)
    (t : list A) : list A :=
  map (fun row => if cond row then set row else row) t.

Definition affectedRows {A : Type} (cond : A -> bool) (t : list A) : Z :=
  Z.of_nat (List.length (filter cond t)).

(** [ORDER BY key ASC], by insertion. *)
Fixpoint insert_by {A : Type} (key : A -> Z) (x : A) (l : list A) : list A :=
  match l with
  | [] => [x]
  | y :: l' => if key x <? key y then x :: y :: l' else y :: insert_by key x l'
  end.

Fixpoint order_by_asc {A : Type} (key : A -> Z) (l : list A) : list A :=
  match l with
  | [] => []
  | x :: l' => insert_by key x (order_by_asc key l')
  end.

(** [ORDER BY key DESC] *)
Definition order_by_desc {A : Type} (key : A -> Z) (l : list A) : list A :=
  order_by_asc (fun x => - key x) l.

(** What [ORDER BY key ASC] promises of two neighbouring rows. *)
Definition ascending {A : Type} (key : A -> Z) (a b : A) : Prop :=
  key a <= key b.

(** [LIMIT 1] *)
Definition limit1 {A : Type} (l : list A) : list A := firstn 1 l.

End Sql.

(** ** Connections, transactions and faults *)

Inductive Outcome (A : Type) : Type :=
| Returned (a : A)
| Thrown.
Arguments Returned {A} a.
Arguments Thrown {A}.

(** [db] is what the server holds; [txn] is the snapshot taken by
    [beginTransaction] while a transaction is open; [connection] tells
    whether the local variable [connection] is set; [faults] tells, for
    each coming round trip to the server, whether it throws (connection
    loss, lock timeout, constraint failure). An exhausted schedule means
    no further fault. *)
Record World : Type := mkWorld {
  db : DB;
  txn : option DB;
  connection : bool;
  faults : list bool
}.

Definition M (A : Type) : Type := World -> Outcome A * World.

Definition ret {A : Type} (a : A) : M A := fun w => (Returned a, w).

Definition bind {A B : Type} (m : M A) (k : A -> M B) : M B :=
  fun w =>
    match m w with
    | (Returned a, w') => k a w'
    | (Thrown, w') => (Thrown, w')
    end.

(** [throw error] *)
Definition throw {A : Type} : M A := fun w => (Thrown, w).

Declare Scope service_scope.
Delimit Scope service_scope with service.
Notation "x <- m ;; k" := (bind m (fun x => k))
  (at level 61, m at next level, right associativity) : service_scope.
Notation "m ;;; k" := (bind m (fun _ => k))
  (at level 61, right associativity) : service_scope.
Open Scope service_scope.

(** [date.toISOString().split('T')[0]] in a service: the [RangeError] of an
    Invalid Date is thrown to the caller. *)
Definition toISODateString (date : JsDate.Date) : M Z :=
  match JsDate.toISODate date with
  | Some day => ret day
  | None => throw
  end.

(** Does the next round trip throw? *)
Definition next_fault (w : World) : bool :=
  match faults w with
  | f :: _ => f
  | [] => false
  end.

Definition spend_fault (w : World) : World :=
  mkWorld (db w) (txn w) (connection w) (tl (faults w)).

(** One statement sent to the server: it throws and changes nothing, or
    it runs as a whole. *)
Definition query {A : Type} (stmt : DB -> A * DB) : M A :=
  fun w =>
    if next_fault w then (Thrown, spend_fault w)
    else
      let (a, d) := stmt (db w) in
      (Returned a, mkWorld d (txn w) (connection w) (tl (faults w))).

(** A statement that only reads. *)
Definition select {A : Type} (rows : DB -> A) : DB -> A * DB :=
  fun d => (rows d, d).

(** [let connection;] *)
Definition letConnection : M unit :=
  fun w => (Returned tt, mkWorld (db w) (txn w) false (faults w)).

(** [connection = await pool.getConnection()]: a connection handed out by
    the pool has no transaction open. *)
Definition getConnection : M unit :=
  fun w =>
    if next_fault w then (Thrown, spend_fault w)
    else (Returned tt, mkWorld (db w) None true (tl (faults w))).

(** [connection.beginTransaction()] *)
Definition beginTransaction : M unit :=
  fun w =>
    if next_fault w then (Thrown, spend_fault w)
    else (Returned tt, mkWorld (db w) (Some (db w)) (connection w) (tl (faults w))).

(** [connection.commit()] *)
Definition commit : M unit :=
  fun w =>
    if next_fault w then (Thrown, spend_fault w)
    else (Returned tt, mkWorld (db w) None (connection w) (tl (faults w))).

(** [connection.rollback()]: without an open transaction it does nothing.
    A transaction whose connection is lost is rolled back by the server,
    so the rollback itself is not subject to faults. *)
Definition rollback : M unit :=
  fun w =>
    match txn w with
    | Some snapshot =>
        (Returned tt, mkWorld (restore_rows snapshot (db w)) None (connection w) (faults w))
    | None => (Returned tt, w)
    end.

(** [connection.release()] *)
Definition release : M unit :=
  fun w => (Returned tt, mkWorld (db w) (txn w) false (faults w)).

(** [if (connection) { await k }] *)
Definition ifConnection (k : M unit) : M unit :=
  fun w => if connection w then k w else (Returned tt, w).

(** [try { body } catch (error) { handler; throw error } finally { final }] *)
Definition tryCatchFinally {A : Type} (body : M A) (handler final : M unit) : M A :=
  fun w =>
    match body w with
    | (Returned a, w1) =>
        match final w1 with
        | (Returned _, w2) => (Returned a, w2)
        | (Thrown, w2) => (Thrown, w2)
        end
    | (Thrown, w1) =>
        match handler w1 with
        | (_, w2) => (Thrown, snd (final w2))
        end
    end.

(** ** plantService.js *)

Module PlantService.

(** The row shape every plant query selects. *)
Record PlantView : Type := mkPlantView {
  id : Z;
  name : string;
  species : string;
  plantingTime : Z;
  estCropping : option Z;
  photoUrl : option string
}.

Record PlantData : Type := mkPlantData {
  pd_cultivar : string;
  pd_species : string;
  pd_plantingTime : Z;
  pd_estCropping : option Z;
  pd_photoUrl : option string
}.

(** [FROM user_plants up JOIN all_plants ap ON up.plant_id = ap.plant_id] *)
Definition up_join_ap (d : DB) : list (UserPlant * PlantType) :=
  flat_map
    (fun up =>
       map (fun ap => (up, ap))
           (filter (fun ap => up_plant_id up =? plant_id ap) (all_plants d)))
    (user_plants d).

Definition view (j : UserPlant * PlantType) : PlantView :=
  let (up, ap) := j in
  mkPlantView (user_plant_id up) (plant_cultivar ap) (plant_species ap)
              (planting_time up) (est_cropping up) (photo_url up).

(** [WHERE up.user_id = ? AND up.is_deleted = 0] *)
Definition owned_visible (userId : Z) (up : UserPlant) : bool :=
  (user_id up =? userId) && negb (up_is_deleted up).

(** [WHERE user_plant_id = ? AND user_id = ? AND is_deleted = 0] *)
Definition is_visible_plant (plantId userId : Z) (up : UserPlant) : bool :=
  (user_plant_id up =? plantId) && (user_id up =? userId)
  && negb (up_is_deleted up).

Definition getUserPlants (userId : Z) : M (list PlantView) :=
  query (select (fun d =>
    map view
        (Sql.order_by_desc (fun j => planting_time (fst j))
           (filter (fun j => owned_visible userId (fst j)) (up_join_ap d))))).

Definition getPlantById (plantId userId : Z) : M (option PlantView) :=
  plants <- query (select (fun d =>
    map view
        (filter (fun j => is_visible_plant plantId userId (fst j))
                (up_join_ap d)))) ;;
  ret (match plants with
       | p :: _ => Some p
       | [] => None
       end).

(** Modelled from the spec: the declaration of [all_plants] is not part
    of the sources, so the comparison its text columns use in
    [plant_cultivar = ? AND plant_species = ?] is taken from the spec's
    words, "exactly (case-sensitive, whitespace-sensitive)"; likewise a
    new row starts with [is_deleted = 0]. *)
Definition matches_plant_type (cultivar species : string) (ap : PlantType) : bool :=
  String.eqb (plant_cultivar ap) cultivar
  && String.eqb (plant_species ap) species
  && negb (ap_is_deleted ap).

Definition insert_all_plants (cultivar species : string) (d : DB) : Z * DB :=
  let insertId := ai_all_plants d in
  (insertId,
   set_all_plants (all_plants d ++ [mkPlantType insertId cultivar species false])
                  (insertId + 1) d).

Definition findOrCreatePlantType (cultivar species : string) : M Z :=
  existingPlants <- query (select (fun d =>
    filter (matches_plant_type cultivar species) (all_plants d))) ;;
  match existingPlants with
  | ap :: _ => ret (plant_id ap)
  | [] => query (insert_all_plants cultivar species)
  end.

(** [INSERT INTO user_plants (user_id, plant_id, planting_time,
    est_cropping, photo_url)]; [is_deleted] takes its default. *)
Definition insert_user_plants (userId plantTypeId plantingTime : Z)
    (est : option Z) (photo : option string) (d : DB) : Z * DB :=
  let insertId := ai_user_plants d in
  (insertId,
   set_user_plants
     (user_plants d
      ++ [mkUserPlant insertId userId plantTypeId plantingTime est photo false])
     (insertId + 1) d).

(** The joined row of one plant, whoever owns it. *)
Definition select_plant (plantId : Z) (d : DB) : list PlantView :=
  map view (filter (fun j => user_plant_id (fst j) =? plantId) (up_join_ap d)).

Definition addPlant (plantData : PlantData) (userId : Z) : M (option PlantView) :=
  letConnection ;;;
  tryCatchFinally
    (getConnection ;;;
     beginTransaction ;;;
     plantTypeId <- findOrCreatePlantType (pd_cultivar plantData)
                                          (pd_species plantData) ;;
     insertId <- query (insert_user_plants userId plantTypeId
                          (pd_plantingTime plantData)
                          (Js.numOrNull (pd_estCropping plantData))
                          (pd_photoUrl plantData)) ;;
     commit ;;;
     newPlant <- query (select (select_plant insertId)) ;;
     ret (hd_error newPlant))
    (ifConnection rollback)
    (ifConnection release).

(** The assignments of [updateData]: [photo_url] is only among them when
    [photoUrl] is truthy. *)
Definition apply_updateData (plantTypeId plantingTime : Z) (est : option Z)
    (photo : option string) (up : UserPlant) : UserPlant :=
  mkUserPlant (user_plant_id up) (user_id up) plantTypeId plantingTime
              (Js.numOrNull est)
              (if Js.truthyStr photo then photo else photo_url up)
              (up_is_deleted up).

(** [UPDATE user_plants SET ... WHERE user_plant_id = ? AND user_id = ?] *)
Definition update_user_plants (plantId userId plantTypeId plantingTime : Z)
    (est : option Z) (photo : option string) (d : DB) : unit * DB :=
  (tt,
   set_user_plants
     (Sql.update
        (fun up => (user_plant_id up =? plantId) && (user_id up =? userId))
        (apply_updateData plantTypeId plantingTime est photo)
        (user_plants d))
     (ai_user_plants d) d).

Definition updatePlant (plantId : Z) (plantData : PlantData) (userId : Z)
    : M (option PlantView) :=
  letConnection ;;;
  tryCatchFinally
    (getConnection ;;;
     beginTransaction ;;;
     existingPlant <- query (select (fun d =>
       filter (is_visible_plant plantId userId) (user_plants d))) ;;
     match existingPlant with
     | [] => rollback ;;; ret None
     | _ :: _ =>
         plantTypeId <- findOrCreatePlantType (pd_cultivar plantData)
                                              (pd_species plantData) ;;
         query (update_user_plants plantId userId plantTypeId
                  (pd_plantingTime plantData) (pd_estCropping plantData)
                  (pd_photoUrl plantData)) ;;;
         commit ;;;
         updatedPlant <- query (select (select_plant plantId)) ;;
         ret (hd_error updatedPlant)
     end)
    (ifConnection rollback)
    (ifConnection release).

(** [UPDATE user_plants SET is_deleted = 1 WHERE user_plant_id = ? AND
    user_id = ?], answering [affectedRows > 0]. *)
Definition soft_delete (up : UserPlant) : UserPlant :=
  mkUserPlant (user_plant_id up) (user_id up) (up_plant_id up)
              (planting_time up) (est_cropping up) (photo_url up) true.

Definition deletePlant (plantId userId : Z) : M bool :=
  let cond := fun up => (user_plant_id up =? plantId) && (user_id up =? userId) in
  affected <- query (fun d =>
    (Sql.affectedRows cond (user_plants d),
     set_user_plants (Sql.update cond soft_delete (user_plants d))
                     (ai_user_plants d) d)) ;;
  ret (0 <? affected).

End PlantService.

(** ** reminderService.js *)

Module ReminderService.

(** The camel-cased reminder the service answers with. *)
Record ReminderView : Type := mkReminderView {
  id : Z;
  type : ReminderType;
  startDate : Z;
  intervalDays : Z;
  nextReminder : Z;
  lastCompleted : option Z;
  rv_notes : option string;
  isActive : bool
}.

Record ReminderData : Type := mkReminderData {
  rd_type : ReminderType;
  rd_intervalDays : Z;
  rd_startDate : JsDate.DateString;
  rd_notes : option string
}.

(** The row shape of the upcoming-reminders query. *)
Record UpcomingView : Type := mkUpcomingView {
  u_id : Z;
  u_type : ReminderType;
  u_nextReminder : Z;
  u_intervalDays : Z;
  u_notes : option string;
  u_plantId : Z;
  u_plantName : string;
  u_plantSpecies : string
}.

Definition format (r : Reminder) : ReminderView :=
  mkReminderView (reminder_id r) (reminder_type r) (start_date r)
                 (interval_days r) (next_reminder r) (last_completed r)
                 (notes r) (is_active r).

(** [SELECT * FROM user_plants WHERE user_plant_id = ? AND user_id = ?
    AND is_deleted = 0] *)
Definition select_plant (plantId userId : Z) (d : DB) : list UserPlant :=
  filter (PlantService.is_visible_plant plantId userId) (user_plants d).

(** [WHERE user_plant_id = ? AND reminder_type = ? AND is_active = 1] *)
Definition active_of (plantId : Z) (ty : ReminderType) (r : Reminder) : bool :=
  (r_user_plant_id r =? plantId) && ReminderType_eqb (reminder_type r) ty
  && is_active r.

(** [SELECT * FROM plant_reminders WHERE reminder_id = ?] *)
Definition select_reminder (reminderId : Z) (d : DB) : list Reminder :=
  filter (fun r => reminder_id r =? reminderId) (plant_reminders d).

Definition getPlantReminders (plantId userId : Z) : M (option (list ReminderView)) :=
  plant <- query (select (select_plant plantId userId)) ;;
  match plant with
  | [] => ret None
  | _ :: _ =>
      reminders <- query (select (fun d =>
        map format
            (Sql.order_by_asc next_reminder
               (filter (fun r => (r_user_plant_id r =? plantId) && is_active r)
                       (plant_reminders d))))) ;;
      ret (Some reminders)
  end.

(** [SET interval_days = ?, start_date = ?, next_reminder = ?, notes = ?] *)
Definition overwrite (intervalDays startDate nextReminder : Z)
    (notes' : option string) (r : Reminder) : Reminder :=
  mkReminder (reminder_id r) (r_user_plant_id r) (reminder_type r)
             startDate intervalDays nextReminder (last_completed r)
             notes' (is_active r).

Definition update_reminder (reminderId intervalDays startDate nextReminder : Z)
    (notes' : option string) (d : DB) : unit * DB :=
  (tt,
   set_plant_reminders
     (Sql.update (fun r => reminder_id r =? reminderId)
                 (overwrite intervalDays startDate nextReminder notes')
                 (plant_reminders d))
     (ai_plant_reminders d) d).

(** [INSERT INTO plant_reminders (user_plant_id, reminder_type,
    interval_days, start_date, next_reminder, notes)]; [last_completed]
    and [is_active] take their defaults, NULL and 1. *)
Definition insert_reminder (plantId : Z) (ty : ReminderType)
    (intervalDays startDate nextReminder : Z) (notes' : option string)
    (d : DB) : Z * DB :=
  let insertId := ai_plant_reminders d in
  (insertId,
   set_plant_reminders
     (plant_reminders d
      ++ [mkReminder insertId plantId ty startDate intervalDays nextReminder
                     None notes' true])
     (insertId + 1) d).

Definition saveReminder (tz : JsDate.Zone) (plantId : Z)
    (reminderData : ReminderData) (userId : Z) : M (option ReminderView) :=
  let ty := rd_type reminderData in
  let intervalDays := rd_intervalDays reminderData in
  let startDate := rd_startDate reminderData in
  let notes' := Js.strOrNull (rd_notes reminderData) in
  plant <- query (select (select_plant plantId userId)) ;;
  match plant with
  | [] => ret None
  | _ :: _ =>
      let nextReminder :=
        JsDate.addLocalDays tz (JsDate.parse tz startDate) intervalDays in
      nextReminderStr <- toISODateString nextReminder ;;
      existingReminders <- query (select (fun d =>
        filter (active_of plantId ty) (plant_reminders d))) ;;
      result <-
        match existingReminders with
        | existing :: _ =>
            let reminderId := reminder_id existing in
            query (update_reminder reminderId intervalDays
                     (JsDate.dayOf startDate) nextReminderStr notes') ;;;
            query (select (select_reminder reminderId))
        | [] =>
            insertId <- query (insert_reminder plantId ty intervalDays
                                 (JsDate.dayOf startDate) nextReminderStr
                                 notes') ;;
            query (select (select_reminder insertId))
        end ;;
      ret (match result with
           | reminder :: _ => Some (format reminder)
           | [] => None
           end)
  end.

(** [FROM plant_reminders r JOIN user_plants up ON r.user_plant_id =
    up.user_plant_id] *)
Definition r_join_up (d : DB) : list (Reminder * UserPlant) :=
  flat_map
    (fun r =>
       map (fun up => (r, up))
           (filter (fun up => r_user_plant_id r =? user_plant_id up)
                   (user_plants d)))
    (plant_reminders d).

(** [SELECT r.* ... WHERE r.reminder_id = ? AND up.user_id = ? AND
    up.is_deleted = 0] *)
Definition select_owned_reminder (reminderId userId : Z) (d : DB) : list Reminder :=
  map fst
      (filter (fun j => (reminder_id (fst j) =? reminderId)
                        && PlantService.owned_visible userId (snd j))
              (r_join_up d)).

(** [SET last_completed = ?, next_reminder = ?] *)
Definition complete (today nextReminder : Z) (r : Reminder) : Reminder :=
  mkReminder (reminder_id r) (r_user_plant_id r) (reminder_type r)
             (start_date r) (interval_days r) nextReminder (Some today)
             (notes r) (is_active r).

Definition completeReminder (tz : JsDate.Zone) (now : JsDate.Clock)
    (reminderId userId : Z) : M (option ReminderView) :=
  reminders <- query (select (select_owned_reminder reminderId userId)) ;;
  match reminders with
  | [] => ret None
  | reminder :: _ =>
      today <- toISODateString (JsDate.current (now 0%nat)) ;;
      let nextReminder :=
        JsDate.addLocalDays tz (JsDate.current (now 1%nat))
                            (interval_days reminder) in
      nextReminderStr <- toISODateString nextReminder ;;
      query (fun d =>
        (tt,
         set_plant_reminders
           (Sql.update (fun r => reminder_id r =? reminderId)
                       (complete today nextReminderStr)
                       (plant_reminders d))
           (ai_plant_reminders d) d)) ;;;
      updatedResult <- query (select (select_reminder reminderId)) ;;
      ret (match updatedResult with
           | updatedReminder :: _ => Some (format updatedReminder)
           | [] => None
           end)
  end.

(** [SET is_active = 0] *)
Definition deactivate (r : Reminder) : Reminder :=
  mkReminder (reminder_id r) (r_user_plant_id r) (reminder_type r)
             (start_date r) (interval_days r) (next_reminder r)
             (last_completed r) (notes r) false.

Definition deleteReminder (reminderId userId : Z) : M bool :=
  reminders <- query (select (select_owned_reminder reminderId userId)) ;;
  match reminders with
  | [] => ret false
  | _ :: _ =>
      let cond := fun r => reminder_id r =? reminderId in
      affected <- query (fun d =>
        (Sql.affectedRows cond (plant_reminders d),
         set_plant_reminders (Sql.update cond deactivate (plant_reminders d))
                             (ai_plant_reminders d) d)) ;;
      ret (0 <? affected)
  end.

(** [FROM plant_reminders r JOIN user_plants up ON ... JOIN all_plants ap
    ON up.plant_id = ap.plant_id] *)
Definition r_join_up_join_ap (d : DB) : list (Reminder * UserPlant * PlantType) :=
  flat_map
    (fun j =>
       map (fun ap => (j, ap))
           (filter (fun ap => up_plant_id (snd j) =? plant_id ap) (all_plants d)))
    (r_join_up d).

Definition upcoming_view (j : Reminder * UserPlant * PlantType) : UpcomingView :=
  match j with
  | (r, up, ap) =>
      mkUpcomingView (reminder_id r) (reminder_type r) (next_reminder r)
                     (interval_days r) (notes r) (user_plant_id up)
                     (plant_cultivar ap) (plant_species ap)
  end.

(** [WHERE up.user_id = ? AND up.is_deleted = 0 AND r.is_active = 1 AND
    r.next_reminder BETWEEN ? AND ?] *)
Definition upcoming_where (userId today futureDate : Z)
    (j : Reminder * UserPlant * PlantType) : bool :=
  match j with
  | (r, up, _) =>
      (user_id up =? userId) && negb (up_is_deleted up) && is_active r
      && ((today <=? next_reminder r) && (next_reminder r <=? futureDate))
  end.

Definition select_upcoming (userId today futureDate : Z) (d : DB)
    : list UpcomingView :=
  map upcoming_view
      (Sql.order_by_asc (fun j => next_reminder (fst (fst j)))
         (filter (upcoming_where userId today futureDate)
                 (r_join_up_join_ap d))).

(** [daysAhead = 7] when the caller passes none. *)
Definition getUpcomingReminders (tz : JsDate.Zone) (now : JsDate.Clock)
    (userId : Z) (daysAhead : option Z) : M (list UpcomingView) :=
  let daysAhead :=
    match daysAhead with
    | Some n => n
    | None => 7
    end in
  today <- toISODateString (JsDate.current (now 0%nat)) ;;
  let futureDate :=
    JsDate.addLocalDays tz (JsDate.current (now 1%nat)) daysAhead in
  futureDateStr <- toISODateString futureDate ;;
  query (select (select_upcoming userId today futureDateStr)).

End ReminderService.

(** ** healthService.js *)

Module HealthService.

Record RemarkView : Type := mkRemarkView {
  id : Z;
  hv_remarks : string;
  createdAt : Z
}.

Definition view (h : HealthRemark) : RemarkView :=
  mkRemarkView (health_id h) (remarks h) (created_at h).

(** [SELECT ... FROM plant_health WHERE user_plant_id = ? ORDER BY
    created_at DESC] *)
Definition select_remarks (plantId : Z) (d : DB) : list RemarkView :=
  map view
      (Sql.order_by_desc created_at
         (filter (fun h => h_user_plant_id h =? plantId) (plant_health d))).

Definition getPlantHealthRemarks (plantId userId : Z)
    : M (option (list RemarkView)) :=
  plant <- query (select (ReminderService.select_plant plantId userId)) ;;
  match plant with
  | [] => ret None
  | _ :: _ =>
      remarks' <- query (select (select_remarks plantId)) ;;
      ret (Some remarks')
  end.

(** [INSERT INTO plant_health (user_plant_id, remarks)]; [created_at]
    defaults to the server's clock, in seconds. *)
Definition insert_remark (now plantId : Z) (text : string) (d : DB) : Z * DB :=
  let insertId := ai_plant_health d in
  (insertId,
   set_plant_health
     (plant_health d ++ [mkHealthRemark insertId plantId text (now / 1000)])
     (insertId + 1) d).

Definition addHealthRemark (now : Z) (plantId : Z) (text : string)
    (userId : Z) : M (option RemarkView) :=
  plant <- query (select (ReminderService.select_plant plantId userId)) ;;
  match plant with
  | [] => ret None
  | _ :: _ =>
      insertId <- query (insert_remark now plantId text) ;;
      result <- query (select (fun d =>
        map view (filter (fun h => health_id h =? insertId) (plant_health d)))) ;;
      ret (hd_error result)
  end.

(** [FROM plant_health h JOIN user_plants up ON h.user_plant_id =
    up.user_plant_id WHERE h.health_id = ? AND up.user_id = ? AND
    up.is_deleted = 0] *)
Definition select_owned_remark (remarkId userId : Z) (d : DB) : list HealthRemark :=
  map fst
      (filter (fun j => (health_id (fst j) =? remarkId)
                        && PlantService.owned_visible userId (snd j))
         (flat_map
            (fun h =>
               map (fun up => (h, up))
                   (filter (fun up => h_user_plant_id h =? user_plant_id up)
                           (user_plants d)))
            (plant_health d))).

Definition updateHealthRemark (remarkId : Z) (text : string) (userId : Z)
    : M (option RemarkView) :=
  healthRemarks <- query (select (select_owned_remark remarkId userId)) ;;
  match healthRemarks with
  | [] => ret None
  | _ :: _ =>
      query (fun d =>
        (tt,
         set_plant_health
           (Sql.update (fun h => health_id h =? remarkId)
                       (fun h => mkHealthRemark (health_id h) (h_user_plant_id h)
                                                text (created_at h))
                       (plant_health d))
           (ai_plant_health d) d)) ;;;
      result <- query (select (fun d =>
        map view (filter (fun h => health_id h =? remarkId) (plant_health d)))) ;;
      ret (hd_error result)
  end.

Definition deleteHealthRemark (remarkId userId : Z) : M bool :=
  healthRemarks <- query (select (select_owned_remark remarkId userId)) ;;
  match healthRemarks with
  | [] => ret false
  | _ :: _ =>
      let cond := fun h => health_id h =? remarkId in
      affected <- query (fun d =>
        (Sql.affectedRows cond (plant_health d),
         set_plant_health (filter (fun h => negb (cond h)) (plant_health d))
                          (ai_plant_health d) d)) ;;
      ret (0 <? affected)
  end.

Definition getLatestHealthRemark (plantId userId : Z) : M (option RemarkView) :=
  plant <- query (select (ReminderService.select_plant plantId userId)) ;;
  match plant with
  | [] => ret None
  | _ :: _ =>
      remarks' <- query (select (fun d => Sql.limit1 (select_remarks plantId d))) ;;
      ret (match remarks' with
           | latest :: _ => Some latest
           | [] => None
           end)
  end.

End HealthService.

(** ** The transport layer of [app.js], where a claim depends on it *)

Module App.

Inductive Response : Type :=
| Json200 (body : HealthService.RemarkView)
| NotFound404 (message : string)
| Error500 (message : string).

(** [GET /api/plants/:id/health/latest] *)
Definition getHealthLatest (userId plantId : Z) (w : World) : Response * World :=
  match HealthService.getLatestHealthRemark plantId userId w with
  | (Returned None, w') =>
      (NotFound404 "No health remarks found for this plant", w')
  | (Returned (Some latestRemark), w') => (Json200 latestRemark, w')
  | (Thrown, w') => (Error500 "Error fetching latest health remark", w')
  end.

End App.

(** ** The services as a machine over the store *)

Module Machine.

Inductive Call : Type :=
| GetUserPlants (userId : Z)
| GetPlantById (plantId userId : Z)
| AddPlant (plantData : PlantService.PlantData) (userId : Z)
| UpdatePlant (plantId : Z) (plantData : PlantService.PlantData) (userId : Z)
| DeletePlant (plantId userId : Z)
| GetPlantReminders (plantId userId : Z)
| SaveReminder (tz : JsDate.Zone) (plantId : Z)
               (reminderData : ReminderService.ReminderData) (userId : Z)
| CompleteReminder (tz : JsDate.Zone) (now : JsDate.Clock) (reminderId userId : Z)
| DeleteReminder (reminderId userId : Z)
| GetUpcomingReminders (tz : JsDate.Zone) (now : JsDate.Clock) (userId : Z)
                       (daysAhead : option Z)
| GetPlantHealthRemarks (plantId userId : Z)
| AddHealthRemark (now plantId : Z) (text : string) (userId : Z)
| UpdateHealthRemark (remarkId : Z) (text : string) (userId : Z)
| DeleteHealthRemark (remarkId userId : Z)
| GetLatestHealthRemark (plantId userId : Z).

(** The world a call leaves behind, whatever it answered. *)
Definition run (c : Call) (w : World) : World :=
  match c with
  | GetUserPlants u => snd (PlantService.getUserPlants u w)
  | GetPlantById p u => snd (PlantService.getPlantById p u w)
  | AddPlant pd u => snd (PlantService.addPlant pd u w)
  | UpdatePlant p pd u => snd (PlantService.updatePlant p pd u w)
  | DeletePlant p u => snd (PlantService.deletePlant p u w)
  | GetPlantReminders p u => snd (ReminderService.getPlantReminders p u w)
  | SaveReminder tz p rd u => snd (ReminderService.saveReminder tz p rd u w)
  | CompleteReminder tz now r u => snd (ReminderService.completeReminder tz now r u w)
  | DeleteReminder r u => snd (ReminderService.deleteReminder r u w)
  | GetUpcomingReminders tz now u n =>
      snd (ReminderService.getUpcomingReminders tz now u n w)
  | GetPlantHealthRemarks p u => snd (HealthService.getPlantHealthRemarks p u w)
  | AddHealthRemark now p text u => snd (HealthService.addHealthRemark now p text u w)
  | UpdateHealthRemark r text u => snd (HealthService.updateHealthRemark r text u w)
  | DeleteHealthRemark r u => snd (HealthService.deleteHealthRemark r u w)
  | GetLatestHealthRemark p u => snd (HealthService.getLatestHealthRemark p u w)
  end.

(** A request starts with no transaction open and [connection] unset;
    its fault schedule is arbitrary. *)
Definition request (d : DB) (schedule : list bool) : World :=
  mkWorld d None false schedule.

(** The stores the services reach, one call after the other, from a
    deployment whose [plant_reminders] table has just been created. *)
Inductive reachable : DB -> Prop :=
| reachable_deployed (d : DB) :
    plant_reminders d = [] -> reachable d
| reachable_call (d : DB) (c : Call) (schedule : list bool) :
    reachable d -> reachable (db (run c (request d schedule))).

End Machine.

(** ** Reasoning about runs under any fault schedule *)

Module Hoare.

(** [wp m Q w]: running [m] in [w] ends in an outcome and a world that
    satisfy [Q]. *)
Definition wp {A : Type} (m : M A) (Q : Outcome A -> World -> Prop)
    (w : World) : Prop :=
  Q (fst (m w)) (snd (m w)).

End Hoare.

(** ** Well-formed stores, calm runs and the reference reading of a query *)

Module Inv.

(** No value occurs twice: a PRIMARY KEY column. *)
Fixpoint distinct (l : list Z) : bool :=
  match l with
  | [] => true
  | x :: l' => negb (existsb (Z.eqb x) l') && distinct l'
  end.

Definition reminder_keys (d : DB) : bool :=
  distinct (map reminder_id (plant_reminders d)).

Definition user_plant_keys (d : DB) : bool :=
  distinct (map user_plant_id (user_plants d)).

Definition plant_type_keys (d : DB) : bool :=
  distinct (map plant_id (all_plants d)).

(** The foreign key of [user_plants.plant_id] into [all_plants]. *)
Definition plant_types_exist (d : DB) : bool :=
  forallb (fun up => existsb (fun ap => up_plant_id up =? plant_id ap)
                             (all_plants d))
          (user_plants d).

(** At most one active reminder for each plant and type. *)
Definition one_active (t : list Reminder) : Prop :=
  forall plantId ty,
    (List.length (filter (ReminderService.active_of plantId ty) t) <= 1)%nat.

(** No round trip of the schedule throws. *)
Definition quiet (schedule : list bool) : bool := forallb negb schedule.
Definition calm (w : World) : bool := quiet (faults w).

End Inv.

Module Reference.

(** The user owns a plant with this id that is not soft-deleted. *)
Definition owns_visible (d : DB) (userId plantId : Z) : bool :=
  existsb (PlantService.is_visible_plant plantId userId) (user_plants d).

(** An active reminder of one of the user's visible plants that falls due
    in the closed interval from [first] to [last]. *)
Definition due_between (d : DB) (userId first last : Z) (r : Reminder) : bool :=
  is_active r
  && owns_visible d userId (r_user_plant_id r)
  && (first <=? next_reminder r)
  && (next_reminder r <=? last).

(** An active reminder of one of the user's visible plants that falls due
    in the closed interval from [today] to [today + windowDays]. *)
Definition is_upcoming (d : DB) (userId today windowDays : Z) (r : Reminder) : bool :=
  due_between d userId today (today + windowDays) r.

(** The store as it would be had the plant never existed. *)
Definition forget_plant (plantId : Z) (w : World) : World :=
  mkWorld
    (set_user_plants
       (filter (fun up => negb (user_plant_id up =? plantId)) (user_plants (db w)))
       (ai_user_plants (db w)) (db w))
    (txn w) (connection w) (faults w).

(** The answer of a call that finds nothing: [deny] unless one of its
    [roundTrips] round trips throws. *)
Definition outcome_of {A : Type} (deny : A) (roundTrips : nat) (w : World)
    : Outcome A :=
  if Inv.quiet (firstn roundTrips (faults w)) then Returned deny else Thrown.

(** A call on a plant is refused when it answers [deny] or throws, never
    anything else; answers [deny] on a calm schedule; changes no row; and
    answers as it would had the plant never existed. *)
Definition refused {A : Type} (deny : A) (m : M A) (plantId : Z) (w : World)
    : Prop :=
  (fst (m w) = Returned deny \/ fst (m w) = Thrown)
  /\ (Inv.calm w = true -> fst (m w) = Returned deny)
  /\ same_rows (db (snd (m w))) (db w)
  /\ fst (m w) = fst (m (forget_plant plantId w)).

(** How the catalog [t'] and the type id arise from the catalog [t] when
    a cultivar and species are resolved: the id of the first active row
    with exactly that cultivar and species, or a new row with the next id. *)
Definition resolved (cultivar species : string) (fresh : Z)
    (t : list PlantType) (typeId : Z) (t' : list PlantType) : Prop :=
  match filter (PlantService.matches_plant_type cultivar species) t with
  | ap :: _ => typeId = plant_id ap /\ t' = t
  | [] => typeId = fresh /\ t' = t ++ [mkPlantType fresh cultivar species false]
  end.

(** Two stores that differ in the catalog only. *)
Definition same_but_catalog (a b : DB) : Prop :=
  user_plants a = user_plants b
  /\ plant_reminders a = plant_reminders b
  /\ plant_health a = plant_health b
  /\ ai_user_plants a = ai_user_plants b.

(** How the reminders [t'] arise from the reminders [t] by one save:
    the first active reminder of the type is overwritten, or a row is
    appended. *)
Definition saved (plantId : Z) (ty : ReminderType) (n d next : Z)
    (notes' : option string) (fresh : Z) (t t' : list Reminder) : Prop :=
  match filter (ReminderService.active_of plantId ty) t with
  | existing :: _ =>
      t' = Sql.update (fun r => reminder_id r =? reminder_id existing)
                      (ReminderService.overwrite n d next notes') t
  | [] =>
      t' = t ++ [mkReminder fresh plantId ty d n next None notes' true]
  end.

End Reference.

(** ** Sample stores

    User 7 grows one tomato, planted on day 20148 (2025-03-01). *)

Module Sample.

Definition roma : PlantType := mkPlantType 1 "Roma" "Tomato" false.

Definition tomato : UserPlant := mkUserPlant 1 7 1 20148 (Some 60) None false.

Definition store (reminders : list Reminder) (health : list HealthRemark) : DB :=
  mkDB [roma] [tomato] reminders health 2 2 10 10.

Definition world (d : DB) : World := mkWorld d None false [].

(** A watering reminder that fell due on day 20151. *)
Definition overdue : Reminder :=
  mkReminder 1 1 watering 20148 3 20151 None None true.

(** The same reminder after it was deleted. *)
Definition inactive : Reminder :=
  mkReminder 1 1 watering 20148 3 20151 None None false.

(** Three reminders, due on days 20167, 20168 and 20160. *)
Definition week : list Reminder :=
  [ mkReminder 1 1 watering 20160 7 20167 None None true;
    mkReminder 2 1 fertilizing 20160 8 20168 None None true;
    mkReminder 3 1 harvesting 20100 60 20160 None None true ].

Definition week_world : World := world (store week []).

(** Two remarks on the tomato, the second the later one. *)
Definition remarks_world : World :=
  world (store [] [ mkHealthRemark 1 1 "yellow leaves" 1741000000;
                    mkHealthRemark 2 1 "recovered" 1741600000 ]).

(** The tomato with a photo. *)
Definition pictured : UserPlant :=
  mkUserPlant 1 7 1 20148 (Some 60) (Some "/uploads/roma.jpg"%string) false.

Definition photo_world : World :=
  world (mkDB [roma] [pictured] [] [] 2 2 10 10).

(** Two active watering reminders for the tomato: a store no sequence of
    calls produces, only two saves that race each other. *)
Definition duplicate_world : World :=
  world (store [ mkReminder 1 1 watering 20148 3 20151 None None true;
                 mkReminder 2 1 watering 20148 3 20151 None None true ] []).

(** A deployment without any row. *)
Definition empty_world : World := world (mkDB [] [] [] [] 1 1 1 1).

(** A zone that goes from UTC+2 to UTC+3 at 2025-03-30T01:00Z, as
    Europe/Tallinn did; a local time of the hour that was skipped is read
    with the offset before the change. *)
Definition tallinn : JsDate.Zone :=
  fun t isUTC =>
    if isUTC
    then if t <? 1743296400000 then 7200000 else 10800000
    else if t <? 1743296400000 + 10800000 then 7200000 else 10800000.

(** The clock at 2025-03-29T00:30Z, day 20176. *)
Definition half_past_midnight : JsDate.Clock :=
  JsDate.still (20176 * 86400000 + 1800000).

(** A weekly watering reminder, started on day 20160, 2025-03-13, and
    completed on day 20172, 2025-03-25: it is due on day 20179,
    2025-04-01. *)
Definition april_world : World :=
  world (store [mkReminder 1 1 watering 20160 7 20179 (Some 20172) None true] []).

Definition overdue_world : World := world (store [overdue] []).
Definition inactive_world : World := world (store [inactive] []).
Definition fresh_world : World := world (store [] []).

End Sample.

(** ** Further properties of the reminder table *)

Module Schedule.

(** Every reminder id lies below the AUTO_INCREMENT counter. *)
Definition ids_below_counter (d : DB) : bool :=
  forallb (fun r => reminder_id r <? ai_plant_reminders d) (plant_reminders d).

(** The rows of a plant the owner is shown. *)
Definition active_of_plant (plantId : Z) (r : Reminder) : bool :=
  (r_user_plant_id r =? plantId) && is_active r.

End Schedule.


(** ** Keys of the other tables *)

Module Keys.

(** [health_id] is the primary key of [plant_health]. *)
Definition remark_keys (d : DB) : bool :=
  Inv.distinct (map health_id (plant_health d)).

(** Every id in use lies below the AUTO_INCREMENT counter of its table. *)
Definition remark_ids_below_counter (d : DB) : bool :=
  forallb (fun h => health_id h <? ai_plant_health d) (plant_health d).

Definition user_plant_ids_below_counter (d : DB) : bool :=
  forallb (fun up => user_plant_id up <? ai_user_plants d) (user_plants d).

Definition plant_type_ids_below_counter (d : DB) : bool :=
  forallb (fun ap => plant_id ap <? ai_all_plants d) (all_plants d).

End Keys.

(** ** fileUploadHandler.js *)

Module Upload.

(** A JavaScript string as the list of its UTF-16 code units: the regular
    expression below has no [u] flag and works unit by unit. *)
Definition JsString : Type := list Z.

(** The class [[a-zA-Z0-9\._-]]. *)
Definition safe_unit (c : Z) : bool :=
  ((97 <=? c) && (c <=? 122))
  || ((65 <=? c) && (c <=? 90))
  || ((48 <=? c) && (c <=? 57))
  || (c =? 46) || (c =? 95) || (c =? 45).

(** [name.replace(/[^a-zA-Z0-9\._-]/g, '_')] *)
Definition sanitize (name : JsString) : JsString :=
  map (fun c => if safe_unit c then c else 95) name.

(** The decimal digits of a number in a template literal. *)
Fixpoint uint_units (d : Decimal.uint) : JsString :=
  match d with
  | Decimal.Nil => []
  | Decimal.D0 d' => 48 :: uint_units d'
  | Decimal.D1 d' => 49 :: uint_units d'
  | Decimal.D2 d' => 50 :: uint_units d'
  | Decimal.D3 d' => 51 :: uint_units d'
  | Decimal.D4 d' => 52 :: uint_units d'
  | Decimal.D5 d' => 53 :: uint_units d'
  | Decimal.D6 d' => 54 :: uint_units d'
  | Decimal.D7 d' => 55 :: uint_units d'
  | Decimal.D8 d' => 56 :: uint_units d'
  | Decimal.D9 d' => 57 :: uint_units d'
  end.

Definition number_units (n : Z) : JsString :=
  match Z.to_int n with
  | Decimal.Pos d => uint_units d
  | Decimal.Neg d => 45 :: uint_units d
  end.

(** ["/uploads/"] *)
Definition uploads_prefix : JsString := [47; 117; 112; 108; 111; 97; 100; 115; 47].

(** [req.files.photo], and whether [mv] throws. *)
Record UploadedPhoto : Type := mkUploadedPhoto {
  name : JsString;
  mimetype : string;
  size : Z;
  mv_throws : bool
}.

Definition allowedTypes : list string :=
  ["image/jpeg"; "image/png"; "image/gif"]%string.

Definition MAX_FILE_SIZE : Z := 5 * 1024 * 1024.

(** [allowedTypes.includes(uploadedPhoto.mimetype)] *)
Definition includes (l : list string) (s : string) : bool :=
  existsb (String.eqb s) l.

(** How the middleware hands over: [next()] with [req.photoUrl] set or
    not, or [next(err)] with an [AppError]. *)
Inductive Handover : Type :=
| Next (photoUrl : option JsString)
| NextError (message : string) (statusCode : Z).

(** [`${Date.now()}-${safeFileName}`] *)
Definition fileName (now : Z) (photo : UploadedPhoto) : JsString :=
  number_units now ++ [45] ++ sanitize (name photo).

Definition fileUploadHandler (now : Z) (photo : option UploadedPhoto) : Handover :=
  match photo with
  | None => Next None
  | Some uploadedPhoto =>
      if negb (includes allowedTypes (mimetype uploadedPhoto)) then
        NextError "Invalid file type. Only JPEG, PNG, and GIF are allowed." 400
      else if MAX_FILE_SIZE <? size uploadedPhoto then
        NextError "File size exceeds the 5MB limit." 400
      else if mv_throws uploadedPhoto then
        NextError "Photo upload failed" 500
      else
        Next (Some (uploads_prefix ++ fileName now uploadedPhoto))
  end.

End Upload.

(** ** errorHandler.js and the routes of app.js

    The routes that take JSON or no body. A request is taken after
    parsing: the session's user, the ids of the path, and the fields of
    the body as the validators read them. The CSRF check and the rate
    limit stand in front of the routes with verdicts that are given;
    logging is outside the model. *)

Module Http.

Inductive Body : Type :=
| Message (message : string)
| Failure (message : string)
| ValidationErrors
| Plants (plants : list PlantService.PlantView)
| Plant (plant : PlantService.PlantView)
| Reminders (reminders : list ReminderService.ReminderView)
| SavedReminder (message : string) (reminder : ReminderService.ReminderView)
| Upcoming (reminders : list ReminderService.UpcomingView)
| Remarks (remarks : list HealthService.RemarkView)
| Remark (remark : HealthService.RemarkView).

Record Response : Type := mkResponse {
  status : Z;
  body : Body
}.

(** An error as [handleError] reads it; [statusCode] and [isOperational]
    are undefined on an error that is not an [AppError]. *)
Record Error : Type := mkError {
  message : string;
  statusCode : option Z;
  isOperational : bool
}.

(** [new AppError(message, statusCode)] *)
Definition AppError (message : string) (statusCode : Z) : Error :=
  mkError message (Some statusCode) true.

(** [handleError]: [err.statusCode || 500], and the message of an
    operational error only. *)
Definition handleError (err : Error) : Response :=
  mkResponse
    (match statusCode err with
     | Some code => if code =? 0 then 500 else code
     | None => 500
     end)
    (Failure (if isOperational err then message err
              else "Something went wrong!")).

(** [res.json(body)] *)
Definition json (b : Body) : Response := mkResponse 200 b.

(** [requireAuth], in front of a handler that reads [req.session.user.id] *)
Definition requireAuth (session : option Z)
    (handler : Z -> World -> Response * World) (w : World) : Response * World :=
  match session with
  | None => (mkResponse 401 (Message "Unauthorized"), w)
  | Some userId => handler userId w
  end.

(** [try { ... } catch (error) { next(new AppError(failure, 500)) }] around
    one service call *)
Definition attempt {A : Type} (failure : string) (call : M A)
    (respond : A -> Response) (w : World) : Response * World :=
  match call w with
  | (Returned a, w') => (respond a, w')
  | (Thrown, w') => (handleError (AppError failure 500), w')
  end.

Definition notFound (message : string) : Response :=
  mkResponse 404 (Message message).

(** The body of [POST /api/plants/:id/reminders] as the validators see it:
    [None] is a field that is missing or is not of its kind (one of the
    four types, an integer, a date with dashes or with slashes). *)
Record ReminderBody : Type := mkReminderBody {
  b_type : option ReminderType;
  b_intervalDays : option Z;
  b_startDate : option JsDate.DateString;
  b_notes : option string
}.

(** [isIn([...])], [isInt({ min: 1 })], [isDate()] *)
Definition validated (b : ReminderBody) : option ReminderService.ReminderData :=
  match b_type b, b_intervalDays b, b_startDate b with
  | Some ty, Some n, Some date =>
      if 1 <=? n then Some (ReminderService.mkReminderData ty n date (b_notes b))
      else None
  | _, _, _ => None
  end.

(** The requests of ten routes.  The routes that take a form with a photo
    ([POST /api/plants], [PUT /api/plants/:id]), the one that sanitises its
    text ([POST /api/plants/:id/health]) and the routes of sign-up, sign-in
    and logout are not among them. *)
Inductive Request : Type :=
| GetPlants
| GetPlant (id : Z)
| DeletePlant (id : Z)
| GetReminders (id : Z)
| PostReminder (id : Z) (b : ReminderBody)
| PutComplete (id : Z)
| DeleteReminder (id : Z)
| GetUpcoming (days : option Z)
| GetHealth (id : Z)
| GetHealthLatest (id : Z).

(** [parseInt(req.query.days) || 7]; [None] is [NaN]. *)
Definition daysAhead (days : option Z) : Z :=
  match days with
  | Some n => if n =? 0 then 7 else n
  | None => 7
  end.

(** The handler of each route, behind [requireAuth]; [tz] and [now] are
    the server's zone and clock. *)
Definition handle (tz : JsDate.Zone) (now : JsDate.Clock) (session : option Z)
    (req : Request) : World -> Response * World :=
  requireAuth session (fun userId =>
    match req with
    | GetPlants =>
        attempt "Error fetching plants" (PlantService.getUserPlants userId)
          (fun plants => json (Plants plants))
    | GetPlant plantId =>
        attempt "Error fetching plant details"
          (PlantService.getPlantById plantId userId)
          (fun plant =>
             match plant with
             | None => notFound "Plant not found or unauthorized"
             | Some p => json (Plant p)
             end)
    | DeletePlant plantId =>
        attempt "Error deleting plant" (PlantService.deletePlant plantId userId)
          (fun success =>
             if success then json (Message "Plant deleted successfully")
             else notFound "Plant not found or unauthorized")
    | GetReminders plantId =>
        attempt "Error fetching reminders"
          (ReminderService.getPlantReminders plantId userId)
          (fun reminders =>
             match reminders with
             | None => notFound "Plant not found or unauthorized"
             | Some l => json (Reminders l)
             end)
    | PostReminder plantId b =>
        match validated b with
        | None => fun w => (mkResponse 400 ValidationErrors, w)
        | Some reminderData =>
            attempt "Error saving reminder"
              (ReminderService.saveReminder tz plantId reminderData userId)
              (fun reminder =>
                 match reminder with
                 | None => notFound "Plant not found or unauthorized"
                 | Some r =>
                     mkResponse 201 (SavedReminder "Reminder saved successfully" r)
                 end)
        end
    | PutComplete reminderId =>
        attempt "Error completing reminder"
          (ReminderService.completeReminder tz now reminderId userId)
          (fun reminder =>
             match reminder with
             | None => notFound "Reminder not found or unauthorized"
             | Some r => json (SavedReminder "Reminder marked as completed" r)
             end)
    | DeleteReminder reminderId =>
        attempt "Error deleting reminder"
          (ReminderService.deleteReminder reminderId userId)
          (fun success =>
             if success then json (Message "Reminder deleted successfully")
             else notFound "Reminder not found or unauthorized")
    | GetUpcoming days =>
        attempt "Error fetching upcoming reminders"
          (ReminderService.getUpcomingReminders tz now userId
             (Some (daysAhead days)))
          (fun reminders => json (Upcoming reminders))
    | GetHealth plantId =>
        attempt "Error fetching health remarks"
          (HealthService.getPlantHealthRemarks plantId userId)
          (fun remarks =>
             match remarks with
             | None => notFound "Plant not found or unauthorized"
             | Some l => json (Remarks l)
             end)
    | GetHealthLatest plantId =>
        attempt "Error fetching latest health remark"
          (HealthService.getLatestHealthRemark plantId userId)
          (fun latestRemark =>
             match latestRemark with
             | None => notFound "No health remarks found for this plant"
             | Some r => json (Remark r)
             end)
    end).

Inductive Method : Type := GET | POST | PUT | DELETE.

Definition method (req : Request) : Method :=
  match req with
  | GetPlants | GetPlant _ | GetReminders _ | GetUpcoming _ | GetHealth _
  | GetHealthLatest _ => GET
  | PostReminder _ _ => POST
  | PutComplete _ => PUT
  | DeletePlant _ | DeleteReminder _ => DELETE
  end.

(** What the middleware in front of the routes finds: whether the request
    carries the CSRF token [csurf] expects, and whether [apiLimiter] has
    the client over its limit.  Both come from libraries outside the
    sources and are taken as given. *)
Record Middleware : Type := mkMiddleware {
  csrfValid : bool;
  overLimit : bool
}.

(** The error [csurf] passes to [next]: a 403 that is not an [AppError]. *)
Definition csrfError : Error := mkError "invalid csrf token" (Some 403) false.

(** A request on its way through [app]: the CSRF check for every method
    but GET, HEAD and OPTIONS, then the rate limit of [/api], then the
    route. *)
Definition serve (m : Middleware) (tz : JsDate.Zone) (now : JsDate.Clock)
    (session : option Z) (req : Request) : World -> Response * World :=
  fun w =>
    match method req with
    | GET =>
        if overLimit m
        then (mkResponse 429 (Message "Too many requests, please try again later"), w)
        else handle tz now session req w
    | _ =>
        if negb (csrfValid m) then (handleError csrfError, w)
        else if overLimit m
        then (mkResponse 429 (Message "Too many requests, please try again later"), w)
        else handle tz now session req w
    end.

(** The stores the routes reach, request after request, from a deployment
    whose [plant_reminders] table has just been created. *)
Inductive reachable : DB -> Prop :=
| reachable_deployed (d : DB) :
    plant_reminders d = [] -> reachable d
| reachable_request (d : DB) (m : Middleware) (tz : JsDate.Zone)
    (now : JsDate.Clock) (session : option Z) (req : Request)
    (schedule : list bool) :
    reachable d ->
    reachable (db (snd (serve m tz now session req (Machine.request d schedule)))).

(** The plant a request names in its path, if it names one. *)
Definition plant_of (req : Request) : option Z :=
  match req with
  | GetPlant id | DeletePlant id | GetReminders id | PostReminder id _
  | GetHealth id | GetHealthLatest id => Some id
  | _ => None
  end.

End Http.

(** ** The reminders panel of the page *)

Module Panel.

(** The object [grouped]: an array of reminders under each date, the dates
    in the order they were first met.  A date is the day number that stands
    for the [nextReminder] string; all the strings have the one format of
    the serialised [DATE] column, so that their order as strings is the
    order of the days. *)
Definition Grouped : Type := list (Z * list ReminderService.UpcomingView).

(** [grouped[date]], [[]] standing for [undefined] *)
Fixpoint get (date : Z) (grouped : Grouped) : list ReminderService.UpcomingView :=
  match grouped with
  | [] => []
  | (k, rs) :: rest => if k =? date then rs else get date rest
  end.

(** [if (!grouped[date]) grouped[date] = []; grouped[date].push(reminder)] *)
Fixpoint push (date : Z) (reminder : ReminderService.UpcomingView)
    (grouped : Grouped) : Grouped :=
  match grouped with
  | [] => [(date, [reminder])]
  | (k, rs) :: rest =>
      if k =? date then (k, rs ++ [reminder]) :: rest
      else (k, rs) :: push date reminder rest
  end.

Definition groupRemindersByDate (reminders : list ReminderService.UpcomingView)
    : Grouped :=
  fold_left
    (fun grouped reminder =>
       push (ReminderService.u_nextReminder reminder) reminder grouped)
    reminders [].

(** [Object.keys(grouped)] *)
Definition keys (grouped : Grouped) : list Z := map fst grouped.

(** The date groups [renderReminders] appends to the list, in document
    order: [Object.keys(groupedReminders).sort()], and under each date
    [groupedReminders[date]].  Of no reminders there is no group. *)
Definition renderReminders (reminders : list ReminderService.UpcomingView)
    : list (Z * list ReminderService.UpcomingView) :=
  let groupedReminders := groupRemindersByDate reminders in
  map (fun date => (date, get date groupedReminders))
      (Sql.order_by_asc (fun date => date) (keys groupedReminders)).

(** The reminder items of the panel in document order: [createDateGroup]
    appends one item for each reminder of its group. *)
Definition items (reminders : list ReminderService.UpcomingView)
    : list ReminderService.UpcomingView :=
  List.concat (map snd (renderReminders reminders)).

End Panel.

(** ** Further sample stores *)

Module Sample2.

(** The tomato's watering reminder after it was completed on day 20151. *)
Definition completed : Reminder :=
  mkReminder 1 1 watering 20148 3 20154 (Some 20151) (Some "mornings"%string) true.


(** Three plants: two of user 7, planted on days 20148 and 20160, and one
    of user 8; a pepper type beside the tomato type. *)
Definition garden_world : World :=
  Sample.world
    (mkDB [ Sample.roma; mkPlantType 2 "Cayenne" "Pepper" false ]
          [ Sample.tomato;
            mkUserPlant 2 8 1 20150 None None false;
            mkUserPlant 3 7 2 20160 (Some 90) None false;
            mkUserPlant 4 7 2 20170 None None true ]
          [] [] 3 5 1 1).

(** A 5 MiB PNG whose name is [../../etc/passwd]. *)
Definition traversal : Upload.UploadedPhoto :=
  Upload.mkUploadedPhoto
    [46; 46; 47; 46; 46; 47; 101; 116; 99; 47; 112; 97; 115; 115; 119; 100]
    "image/png" 5242880 false.

End Sample2.

(** * Properties *)

(** ** Dates *)

Section DateFacts.

Import JsDate.

Lemma msPerDay_pos : 0 < msPerDay.
Proof. unfold msPerDay. lia. Qed.

(** The local time made by [setDate] is the old one moved by whole days. *)
Lemma MakeDate_moved (local n : Z) :
  MakeDate (Day local + n) (TimeWithinDay local) = local + n * msPerDay.
Proof.
  unfold MakeDate, Day, TimeWithinDay.
  pose proof (Z.div_mod local msPerDay) as E.
  assert (msPerDay <> 0) as NZ by (unfold msPerDay; lia).
  specialize (E NZ). nia.
Qed.

Lemma addLocalDays_value (tz : Zone) (t n : Z) :
  addLocalDays tz (Some t) n
  = TimeClip (UTC tz (LocalTime tz t + n * msPerDay)).
Proof. unfold addLocalDays. cbv zeta. rewrite MakeDate_moved. reflexivity. Qed.

Lemma Day_moved (t n : Z) : Day (t + n * msPerDay) = Day t + n.
Proof. unfold Day. apply Z.div_add. unfold msPerDay; lia. Qed.


(** When the zone has the same offset at the date and at the local time
    [n] days later, the date moves by [n] times 24 hours. *)
Lemma addLocalDays_same_offset (tz : Zone) (t n : Z) :
  tz (LocalTime tz t + n * msPerDay) false = tz t true ->
  addLocalDays tz (Some t) n = TimeClip (t + n * msPerDay).
Proof.
  intros E. rewrite addLocalDays_value. unfold UTC. rewrite E.
  unfold LocalTime. f_equal. lia.
Qed.

Lemma toISODate_TimeClip (t day : Z) :
  toISODate (TimeClip t) = Some day -> day = Day t.
Proof.
  unfold TimeClip. destruct (Z.abs t <=? maxTime); simpl; congruence.
Qed.

(** In a zone whose offset is the same at both ends, a valid result names
    the UTC day [n] days after the UTC day of the date. *)
Lemma toISODate_same_offset (tz : Zone) (t n day : Z) :
  tz (LocalTime tz t + n * msPerDay) false = tz t true ->
  toISODate (addLocalDays tz (Some t) n) = Some day ->
  day = Day t + n.
Proof.
  intros E H. rewrite (addLocalDays_same_offset tz t n E) in H.
  apply toISODate_TimeClip in H. rewrite H. apply Day_moved.
Qed.


End DateFacts.

(** ** Lists as tables *)

Section TableFacts.

Context {A : Type}.

Lemma distinct_NoDup (l : list Z) : Inv.distinct l = true <-> NoDup l.
Proof.
  induction l as [|x l IH]; simpl.
  - split; [constructor | reflexivity].
  - rewrite andb_true_iff, negb_true_iff, IH. split.
    + intros [Hx Hl]. constructor; [|exact Hl].
      intros Hin.
      assert (existsb (Z.eqb x) l = true) as E
        by (apply existsb_exists; exists x; split; [exact Hin | apply Z.eqb_refl]).
      congruence.
    + intros Hnd. inversion Hnd as [|? ? Hx Hl]; subst. split; [|exact Hl].
      destruct (existsb (Z.eqb x) l) eqn:E; [|reflexivity].
      apply existsb_exists in E as (y & Hy & Exy).
      apply Z.eqb_eq in Exy. subst y. contradiction.
Qed.

Variable key : A -> Z.

(** A key that no row carries selects nothing. *)
Lemma filter_key_absent (k : Z) (t : list A) :
  ~ In k (map key t) -> filter (fun row => key row =? k) t = [].
Proof.
  induction t as [|y t IH]; simpl; intros Hk; [reflexivity|].
  destruct (Z.eqb_spec (key y) k) as [E|_].
  - exfalso. apply Hk. left. exact E.
  - apply IH. intros Hin. apply Hk. right. exact Hin.
Qed.

(** Under a primary key, selecting by the key of a row yields that row. *)
Lemma filter_key_unique (x : A) (t : list A) :
  NoDup (map key t) -> In x t ->
  filter (fun row => key row =? key x) t = [x].
Proof.
  induction t as [|y t IH]; simpl; intros Hnd Hin; [contradiction|].
  inversion Hnd as [|? ? Hy Ht]; subst.
  destruct Hin as [->|Hin].
  - rewrite Z.eqb_refl. f_equal. apply filter_key_absent. exact Hy.
  - destruct (Z.eqb_spec (key y) (key x)) as [E|_].
    + exfalso. apply Hy. rewrite E. apply in_map. exact Hin.
    + apply IH; assumption.
Qed.

Lemma update_length (cond : A -> bool) (set : A -> A) (t : list A) :
  List.length (Sql.update cond set t) = List.length t.
Proof. unfold Sql.update. apply length_map. Qed.

(** An update that leaves a condition alone commutes with selecting by it. *)
Lemma filter_update (sel cond : A -> bool) (set : A -> A) (t : list A) :
  (forall row, sel (set row) = sel row) ->
  filter sel (Sql.update cond set t) = Sql.update cond set (filter sel t).
Proof.
  intros Hsel. unfold Sql.update.
  induction t as [|y t IH]; simpl; [reflexivity|].
  assert (sel (if cond y then set y else y) = sel y) as ->
    by (destruct (cond y); [apply Hsel | reflexivity]).
  destruct (sel y); simpl; rewrite IH; reflexivity.
Qed.

Lemma update_In (cond : A -> bool) (set : A -> A) (t : list A) (x : A) :
  In x t -> cond x = true -> In (set x) (Sql.update cond set t).
Proof.
  intros Hin Hc. unfold Sql.update.
  apply in_map_iff. exists x. rewrite Hc. split; [reflexivity | exact Hin].
Qed.

Lemma update_untouched (cond : A -> bool) (set : A -> A) (t : list A) :
  (forall row, In row t -> cond row = false) -> Sql.update cond set t = t.
Proof.
  unfold Sql.update. induction t as [|y t IH]; simpl; intros H; [reflexivity|].
  rewrite (H y (or_introl eq_refl)). f_equal. apply IH.
  intros row Hrow. apply H. right. exact Hrow.
Qed.

Lemma filter_none (sel : A -> bool) (t : list A) :
  (forall row, In row t -> sel row = false) <-> filter sel t = [].
Proof.
  induction t as [|y t IH]; simpl.
  - split; [reflexivity | contradiction].
  - split.
    + intros H. rewrite (H y (or_introl eq_refl)). apply IH.
      intros row Hrow. apply H. right. exact Hrow.
    + intros H row [<-|Hrow].
      * destruct (sel y); [discriminate | reflexivity].
      * destruct (sel y); [discriminate|]. apply IH; assumption.
Qed.

(** *** ORDER BY *)

Lemma insert_by_perm (x : A) (l : list A) :
  Permutation (Sql.insert_by key x l) (x :: l).
Proof.
  induction l as [|y l IH]; simpl; [reflexivity|].
  destruct (key x <? key y); [reflexivity|].
  rewrite IH. apply perm_swap.
Qed.

Lemma order_by_asc_perm (l : list A) :
  Permutation (Sql.order_by_asc key l) l.
Proof.
  induction l as [|x l IH]; simpl; [reflexivity|].
  rewrite insert_by_perm. constructor. exact IH.
Qed.

Let key_le := Sql.ascending key.

Lemma insert_by_sorted (x : A) (l : list A) :
  Sorted key_le l -> Sorted key_le (Sql.insert_by key x l).
Proof.
  induction l as [|y l IH]; simpl; intros Hs.
  - repeat constructor.
  - destruct (Z.ltb_spec (key x) (key y)) as [Hlt|Hge].
    + constructor; [exact Hs|]. constructor. unfold key_le, Sql.ascending. lia.
    + inversion Hs as [|? ? Hl Hhd]; subst.
      constructor; [apply IH; exact Hl|].
      destruct l as [|z l]; simpl.
      * constructor. unfold key_le, Sql.ascending. lia.
      * destruct (key x <? key z).
        -- constructor. unfold key_le, Sql.ascending. lia.
        -- inversion Hhd; subst. constructor. assumption.
Qed.

Lemma order_by_asc_sorted (l : list A) :
  Sorted key_le (Sql.order_by_asc key l).
Proof.
  induction l as [|x l IH]; simpl; [constructor|].
  apply insert_by_sorted. exact IH.
Qed.

(** The first row of an ascending order carries a least key. *)
Lemma order_by_asc_head (l : list A) (x : A) (rest : list A) :
  Sql.order_by_asc key l = x :: rest ->
  In x l /\ forall y, In y l -> key x <= key y.
Proof.
  intros E.
  pose proof (order_by_asc_perm l) as P.
  pose proof (order_by_asc_sorted l) as S.
  rewrite E in P, S. split.
  - apply (Permutation_in _ P). left. reflexivity.
  - intros y Hy.
    apply Sorted_StronglySorted in S;
      [|intros a b c; unfold key_le, Sql.ascending; lia].
    inversion S as [|? ? _ Hall]; subst.
    apply (Permutation_in _ (Permutation_sym P)) in Hy.
    destruct Hy as [<-|Hy]; [lia|].
    rewrite Forall_forall in Hall. apply Hall. exact Hy.
Qed.

End TableFacts.

Lemma sorted_map {A B : Type} (f : A -> B) (R : B -> B -> Prop) (l : list A) :
  Sorted (fun a b => R (f a) (f b)) l -> Sorted R (map f l).
Proof.
  induction 1 as [|x l Hl IH Hhd]; simpl; constructor; [exact IH|].
  destruct Hhd; simpl; constructor. assumption.
Qed.

(** ** Running a service on a calm schedule *)

Section RunFacts.

Lemma calm_next (w : World) : Inv.calm w = true -> next_fault w = false.
Proof.
  unfold Inv.calm, Inv.quiet, next_fault.
  destruct (faults w) as [|f fs]; simpl; [reflexivity|].
  rewrite andb_true_iff, negb_true_iff. tauto.
Qed.

Lemma quiet_tl (schedule : list bool) :
  Inv.quiet schedule = true -> Inv.quiet (tl schedule) = true.
Proof.
  unfold Inv.quiet. destruct schedule as [|f fs]; simpl; [reflexivity|].
  rewrite andb_true_iff. tauto.
Qed.

Lemma query_calm {A : Type} (stmt : DB -> A * DB) (w : World) :
  Inv.calm w = true ->
  query stmt w =
  (Returned (fst (stmt (db w))),
   mkWorld (snd (stmt (db w))) (txn w) (connection w) (tl (faults w))).
Proof.
  intros H. unfold query. rewrite (calm_next w H).
  destruct (stmt (db w)); reflexivity.
Qed.

Lemma bind_returned {A B : Type} (m : M A) (k : A -> M B) (w w' : World) (a : A) :
  m w = (Returned a, w') -> bind m k w = k a w'.
Proof. intros E. unfold bind. rewrite E. reflexivity. Qed.

Lemma bind_assoc {A B C : Type} (m : M A) (k : A -> M B) (h : B -> M C)
    (w : World) :
  bind (bind m k) h w = bind m (fun a => bind (k a) h) w.
Proof. unfold bind. destruct (m w) as [[a|] w']; reflexivity. Qed.

Lemma toISODateString_some (date : JsDate.Date) (day : Z) (w : World) :
  JsDate.toISODate date = Some day ->
  toISODateString date w = (Returned day, w).
Proof. intros E. unfold toISODateString. rewrite E. reflexivity. Qed.

Lemma toISODateString_none (date : JsDate.Date) (w : World) :
  JsDate.toISODate date = None ->
  toISODateString date w = (Thrown, w).
Proof. intros E. unfold toISODateString. rewrite E. reflexivity. Qed.

Lemma getConnection_calm (w : World) :
  Inv.calm w = true ->
  getConnection w = (Returned tt, mkWorld (db w) None true (tl (faults w))).
Proof. intros H. unfold getConnection. rewrite (calm_next w H). reflexivity. Qed.

Lemma beginTransaction_calm (w : World) :
  Inv.calm w = true ->
  beginTransaction w
  = (Returned tt, mkWorld (db w) (Some (db w)) (connection w) (tl (faults w))).
Proof. intros H. unfold beginTransaction. rewrite (calm_next w H). reflexivity. Qed.

Lemma commit_calm (w : World) :
  Inv.calm w = true ->
  commit w = (Returned tt, mkWorld (db w) None (connection w) (tl (faults w))).
Proof. intros H. unfold commit. rewrite (calm_next w H). reflexivity. Qed.

Lemma tryCatchFinally_returned {A : Type} (body : M A) (handler final : M unit)
    (w w1 w2 : World) (a : A) :
  body w = (Returned a, w1) ->
  final w1 = (Returned tt, w2) ->
  tryCatchFinally body handler final w = (Returned a, w2).
Proof. intros Eb Ef. unfold tryCatchFinally. rewrite Eb, Ef. reflexivity. Qed.

End RunFacts.

(** One round trip of a calm run. *)
Ltac calm_solve :=
  unfold Inv.calm in *; cbn [faults] in *; repeat apply quiet_tl; assumption.

Ltac calm_step :=
  rewrite ?bind_assoc;
  erewrite bind_returned;
  [| first [ apply query_calm | apply getConnection_calm
           | apply beginTransaction_calm | apply commit_calm ];
     calm_solve ];
  cbn [fst snd select db txn connection faults].

(** ** Primary keys *)

Lemma key_injective {A : Type} (key : A -> Z) (t : list A) (x y : A) :
  NoDup (map key t) -> In x t -> In y t -> key x = key y -> x = y.
Proof.
  intros Hnd Hx Hy E.
  pose proof (filter_key_unique key x t Hnd Hx) as Fx.
  assert (In y (filter (fun row => key row =? key x) t)) as Hin
    by (apply filter_In; split; [exact Hy | apply Z.eqb_eq; symmetry; exact E]).
  rewrite Fx in Hin. destruct Hin as [<-|[]]. reflexivity.
Qed.

(** ** Completing a reminder *)

Section CompleteFacts.

Import ReminderService.

Lemma select_owned_reminder_In (reminderId userId : Z) (d : DB) (x : Reminder) :
  In x (select_owned_reminder reminderId userId d) <->
  In x (plant_reminders d) /\ reminder_id x = reminderId
  /\ Reference.owns_visible d userId (r_user_plant_id x) = true.
Proof.
  unfold select_owned_reminder, r_join_up, Reference.owns_visible,
    PlantService.is_visible_plant, PlantService.owned_visible.
  rewrite in_map_iff. split.
  - intros ([r up] & <- & Hj). simpl.
    apply filter_In in Hj as [Hj Hc]. simpl in Hc.
    apply in_flat_map in Hj as (r0 & Hr0 & Hj).
    apply in_map_iff in Hj as (up0 & E & Hup). inversion E; subst r0 up0.
    apply filter_In in Hup as [Hup Hm].
    apply andb_true_iff in Hc as [Hid Hov].
    apply Z.eqb_eq in Hid, Hm.
    repeat split; [exact Hr0 | exact Hid |].
    apply existsb_exists. exists up. split; [exact Hup|].
    rewrite <- Hm, Z.eqb_refl. exact Hov.
  - intros (Hx & Hid & Hex).
    apply existsb_exists in Hex as (up & Hup & Hc).
    apply andb_true_iff in Hc as [Hc Hdel].
    apply andb_true_iff in Hc as [Hm Hu].
    exists (x, up). split; [reflexivity|].
    apply filter_In. simpl. split.
    + apply in_flat_map. exists x. split; [exact Hx|].
      apply in_map. apply filter_In. split; [exact Hup|].
      rewrite Z.eqb_sym. exact Hm.
    + rewrite Hu, Hdel. apply Z.eqb_eq in Hid. rewrite Hid. reflexivity.
Qed.

(** Under the primary key the ownership query finds the reminder itself. *)
Lemma select_owned_reminder_head (userId : Z) (d : DB) (r : Reminder) :
  Inv.reminder_keys d = true ->
  In r (plant_reminders d) ->
  Reference.owns_visible d userId (r_user_plant_id r) = true ->
  exists rest, select_owned_reminder (reminder_id r) userId d = r :: rest.
Proof.
  intros Hk Hr Hov. apply distinct_NoDup in Hk.
  destruct (select_owned_reminder (reminder_id r) userId d) as [|x rest] eqn:E.
  - assert (In r (select_owned_reminder (reminder_id r) userId d)) as Hin
      by (apply select_owned_reminder_In; auto).
    rewrite E in Hin. contradiction.
  - exists rest. f_equal.
    assert (In x (select_owned_reminder (reminder_id r) userId d)) as Hin
      by (rewrite E; left; reflexivity).
    apply select_owned_reminder_In in Hin as (Hx & Hid & _).
    apply (key_injective reminder_id (plant_reminders d)); assumption.
Qed.

Lemma select_reminder_update (d : DB) (r : Reminder) (set : Reminder -> Reminder)
    (n : Z) :
  Inv.reminder_keys d = true ->
  In r (plant_reminders d) ->
  (forall x, reminder_id (set x) = reminder_id x) ->
  select_reminder (reminder_id r)
    (set_plant_reminders
       (Sql.update (fun x => reminder_id x =? reminder_id r) set (plant_reminders d))
       n d)
  = [set r].
Proof.
  intros Hk Hr Hset. apply distinct_NoDup in Hk.
  unfold select_reminder. cbn [plant_reminders set_plant_reminders].
  rewrite filter_update by (intros x; rewrite Hset; reflexivity).
  rewrite (filter_key_unique reminder_id r _ Hk Hr).
  unfold Sql.update. simpl. rewrite Z.eqb_refl. reflexivity.
Qed.

(** What a calm run of [completeReminder] on an authorised reminder does,
    when the new due date is a valid date. *)
Lemma completeReminder_run (tz : JsDate.Zone) (now : JsDate.Clock)
    (userId next : Z) (w : World) (r : Reminder) :
  Inv.calm w = true ->
  Inv.reminder_keys (db w) = true ->
  In r (plant_reminders (db w)) ->
  Reference.owns_visible (db w) userId (r_user_plant_id r) = true ->
  JsDate.toISODate
    (JsDate.addLocalDays tz (JsDate.current (now 1%nat)) (interval_days r))
  = Some next ->
  let today := JsDate.Day (now 0%nat) in
  let set := complete today next in
  completeReminder tz now (reminder_id r) userId w =
  (Returned (Some (format (set r))),
   mkWorld
     (set_plant_reminders
        (Sql.update (fun x => reminder_id x =? reminder_id r) set
                    (plant_reminders (db w)))
        (ai_plant_reminders (db w)) (db w))
     (txn w) (connection w) (tl (tl (tl (faults w))))).
Proof.
  intros Hc Hk Hr Hov Hnext today set.
  destruct (select_owned_reminder_head userId (db w) r Hk Hr Hov) as [rest E].
  unfold completeReminder. calm_step. rewrite E.
  rewrite (bind_returned _ _ _ _ _
             (toISODateString_some (JsDate.current (now 0%nat)) today _ eq_refl)).
  rewrite (bind_returned _ _ _ _ _ (toISODateString_some _ next _ Hnext)).
  fold set. calm_step. calm_step.
  rewrite select_reminder_update by (auto; intros x; reflexivity).
  reflexivity.
Qed.

(** An Invalid Date as new due date: the call throws after its first query
    and writes nothing. *)
Lemma completeReminder_invalid (tz : JsDate.Zone) (now : JsDate.Clock)
    (userId : Z) (w : World) (r : Reminder) :
  Inv.calm w = true ->
  Inv.reminder_keys (db w) = true ->
  In r (plant_reminders (db w)) ->
  Reference.owns_visible (db w) userId (r_user_plant_id r) = true ->
  JsDate.toISODate
    (JsDate.addLocalDays tz (JsDate.current (now 1%nat)) (interval_days r))
  = None ->
  completeReminder tz now (reminder_id r) userId w
  = (Thrown, mkWorld (db w) (txn w) (connection w) (tl (faults w))).
Proof.
  intros Hc Hk Hr Hov Hnext.
  destruct (select_owned_reminder_head userId (db w) r Hk Hr Hov) as [rest E].
  unfold completeReminder. calm_step. rewrite E.
  rewrite (bind_returned _ _ _ _ _
             (toISODateString_some (JsDate.current (now 0%nat)) _ _ eq_refl)).
  unfold bind. rewrite (toISODateString_none _ _ Hnext). reflexivity.
Qed.

End CompleteFacts.

(** C2. On a server in a zone with clock changes the new due date is not
    always [intervalDays] after today: at 2025-03-29T00:30Z, a day before
    the clocks of Europe/Tallinn go forward, completing a reminder with
    interval 3 stamps [lastCompleted] with day 20176, 2025-03-29, and sets
    [nextReminder] to day 20178, 2025-03-31, which is today + 2. *)
Theorem completeReminder_short_before_clock_change :
  exists (v : ReminderService.ReminderView) (w' : World),
    ReminderService.completeReminder Sample.tallinn Sample.half_past_midnight
      1 7 Sample.overdue_world
    = (Returned (Some v), w')
    /\ ReminderService.intervalDays v = 3
    /\ ReminderService.lastCompleted v = Some 20176
    /\ ReminderService.nextReminder v = 20178
    /\ ReminderService.nextReminder v <> 20176 + ReminderService.intervalDays v.
Proof.
  eexists. eexists. split; [vm_compute; reflexivity|].
  cbn. repeat split. lia.
Qed.

(** X28. Completing a reminder of an owned, visible plant, when the new
    due date is a valid date of the years 0000 to 9999, stamps
    [lastCompleted] with the UTC day of the first reading of the clock and
    sets [nextReminder] to the UTC day of the date that lies
    [interval_days] local days after the second reading; the previous
    [nextReminder], however long overdue, plays no part.  When both
    readings fall on the same UTC day and the zone has the same offset at
    both ends, that is today plus [interval_days]. *)
Theorem completeReminder_reschedules_from_today
    (tz : JsDate.Zone) (now : JsDate.Clock) (userId next : Z) (w : World)
    (r : Reminder) :
  Inv.calm w = true ->
  Inv.reminder_keys (db w) = true ->
  In r (plant_reminders (db w)) ->
  Reference.owns_visible (db w) userId (r_user_plant_id r) = true ->
  JsDate.toISODate
    (JsDate.addLocalDays tz (JsDate.current (now 1%nat)) (interval_days r))
  = Some next ->
  JsDate.fourDigitYear next = true ->
  exists (r' : Reminder) (w' : World),
    ReminderService.completeReminder tz now (reminder_id r) userId w
      = (Returned (Some (ReminderService.format r')), w')
    /\ ReminderService.select_reminder (reminder_id r) (db w') = [r']
    /\ last_completed r' = Some (JsDate.Day (now 0%nat))
    /\ next_reminder r' = next
    /\ interval_days r' = interval_days r
    /\ (JsDate.Day (now 1%nat) = JsDate.Day (now 0%nat) ->
        tz (JsDate.LocalTime tz (now 1%nat)
            + interval_days r * JsDate.msPerDay) false
        = tz (now 1%nat) true ->
        next = JsDate.Day (now 0%nat) + interval_days r).
Proof.
  intros Hc Hk Hr Hov Hnext _.
  eexists. eexists. split.
  - apply (completeReminder_run tz now userId next); assumption.
  - cbn [db]. split; [|repeat split].
    + apply select_reminder_update; [assumption | assumption | reflexivity].
    + intros Eday Etz. rewrite <- Eday.
      exact (toISODate_same_offset tz _ _ _ Etz Hnext).
Qed.

Lemma completeReminder_reschedules_from_today_witness :
  exists (r' : Reminder) (w' : World),
    ReminderService.completeReminder (JsDate.fixed 7200000)
      (JsDate.still (20160 * 86400000 + 3600000)) 1 7 Sample.overdue_world
      = (Returned (Some (ReminderService.format r')), w')
    /\ ReminderService.select_reminder 1 (db w') = [r']
    /\ last_completed r' = Some 20160
    /\ next_reminder r' = 20163
    /\ interval_days r' = 3.
Proof.
  destruct (completeReminder_reschedules_from_today (JsDate.fixed 7200000)
              (JsDate.still (20160 * 86400000 + 3600000)) 7 20163
              Sample.overdue_world Sample.overdue
              eq_refl eq_refl (or_introl eq_refl) eq_refl eq_refl eq_refl)
    as (r' & w' & E & Es & Hl & Hn & Hi & _).
  exists r', w'. auto.
Defined.

(** C10. Completion does not look at [is_active]: a soft-deleted reminder
    of an owned, visible plant is completed like any other, its dates move
    (the new due date being a valid date of the years 0000 to 9999), and
    it stays inactive, in the table and in the answer. *)
Theorem completeReminder_ignores_is_active
    (tz : JsDate.Zone) (now : JsDate.Clock) (userId next : Z) (w : World)
    (r : Reminder) :
  Inv.calm w = true ->
  Inv.reminder_keys (db w) = true ->
  In r (plant_reminders (db w)) ->
  Reference.owns_visible (db w) userId (r_user_plant_id r) = true ->
  is_active r = false ->
  JsDate.toISODate
    (JsDate.addLocalDays tz (JsDate.current (now 1%nat)) (interval_days r))
  = Some next ->
  JsDate.fourDigitYear next = true ->
  exists (v : ReminderService.ReminderView) (r' : Reminder) (w' : World),
    ReminderService.completeReminder tz now (reminder_id r) userId w
      = (Returned (Some v), w')
    /\ ReminderService.isActive v = false
    /\ ReminderService.lastCompleted v = Some (JsDate.Day (now 0%nat))
    /\ ReminderService.nextReminder v = next
    /\ ReminderService.select_reminder (reminder_id r) (db w') = [r']
    /\ is_active r' = false
    /\ last_completed r' = Some (JsDate.Day (now 0%nat))
    /\ next_reminder r' = next.
Proof.
  intros Hc Hk Hr Hov Hina Hnext _.
  eexists. eexists. eexists. split.
  - apply (completeReminder_run tz now userId next); assumption.
  - cbn [db ReminderService.format ReminderService.complete
         ReminderService.isActive ReminderService.lastCompleted
         ReminderService.nextReminder is_active].
    split; [exact Hina|]. split; [reflexivity|]. split; [reflexivity|].
    split; [apply select_reminder_update; [assumption | assumption | reflexivity]|].
    cbn. auto.
Qed.

Lemma completeReminder_ignores_is_active_witness :
  exists (v : ReminderService.ReminderView) (r' : Reminder) (w' : World),
    ReminderService.completeReminder (JsDate.fixed 0)
      (JsDate.still (20160 * 86400000)) 1 7 Sample.inactive_world
      = (Returned (Some v), w')
    /\ ReminderService.isActive v = false
    /\ ReminderService.lastCompleted v = Some (JsDate.Day (20160 * 86400000))
    /\ ReminderService.nextReminder v = 20163
    /\ ReminderService.select_reminder 1 (db w') = [r']
    /\ is_active r' = false
    /\ last_completed r' = Some (JsDate.Day (20160 * 86400000))
    /\ next_reminder r' = 20163.
Proof.
  apply (completeReminder_ignores_is_active (JsDate.fixed 0)
           (JsDate.still (20160 * 86400000)) 7 20163 Sample.inactive_world
           Sample.inactive).
  - reflexivity.
  - reflexivity.
  - simpl. left. reflexivity.
  - reflexivity.
  - reflexivity.
  - reflexivity.
  - reflexivity.
Defined.

(** ** Saving a reminder *)

Section SaveFacts.

Import ReminderService.

Lemma ReminderType_eqb_eq (a b : ReminderType) :
  ReminderType_eqb a b = true <-> a = b.
Proof. destruct a, b; simpl; split; congruence. Qed.

Lemma select_plant_owned (d : DB) (userId plantId : Z) :
  Reference.owns_visible d userId plantId = true ->
  exists up rest, select_plant plantId userId d = up :: rest.
Proof.
  unfold Reference.owns_visible, select_plant. intros H.
  apply existsb_exists in H as (up & Hup & Hc).
  destruct (filter (PlantService.is_visible_plant plantId userId) (user_plants d))
    as [|x rest] eqn:E.
  - apply filter_none with (row := up) in E; [congruence | exact Hup].
  - eauto.
Qed.

Lemma select_plant_foreign (d : DB) (userId plantId : Z) :
  Reference.owns_visible d userId plantId = false ->
  select_plant plantId userId d = [].
Proof.
  unfold Reference.owns_visible, select_plant. intros H.
  apply filter_none. intros row Hrow.
  destruct (PlantService.is_visible_plant plantId userId row) eqn:E; [|reflexivity].
  assert (existsb (PlantService.is_visible_plant plantId userId) (user_plants d) = true)
    by (apply existsb_exists; eauto).
  congruence.
Qed.




(** A save keeps the invariant of the table. *)
Lemma saved_one_active (plantId : Z) (ty : ReminderType) (n d next fresh : Z)
    (notes' : option string) (t t' : list Reminder) :
  Reference.saved plantId ty n d next notes' fresh t t' ->
  Inv.one_active t -> Inv.one_active t'.
Proof.
  unfold Reference.saved. intros Hs Hinv plantId' ty'.
  destruct (filter (active_of plantId ty) t) as [|existing others] eqn:Ea.
  - subst t'. rewrite filter_app, length_app. simpl.
    unfold active_of at 2. simpl.
    destruct (Z.eqb_spec plantId plantId') as [<-|Np]; simpl.
    + destruct (ReminderType_eqb ty ty') eqn:Et; simpl.
      * apply ReminderType_eqb_eq in Et. subst ty'. rewrite Ea. simpl. lia.
      * specialize (Hinv plantId ty'). lia.
    + specialize (Hinv plantId' ty'). lia.
  - subst t'. rewrite filter_update by reflexivity.
    rewrite update_length. apply Hinv.
Qed.

End SaveFacts.


(** ** Rules for runs under any fault schedule *)

Section WpFacts.

Import Hoare.

Context {A : Type}.

Lemma wp_ret (a : A) (Q : Outcome A -> World -> Prop) (w : World) :
  Q (Returned a) w -> wp (ret a) Q w.
Proof. exact (fun H => H). Qed.

Lemma wp_bind {B : Type} (m : M B) (k : B -> M A)
    (Q : Outcome A -> World -> Prop) (w : World) :
  wp m (fun o w1 =>
          match o with
          | Returned b => wp (k b) Q w1
          | Thrown => Q Thrown w1
          end) w ->
  wp (bind m k) Q w.
Proof.
  unfold wp, bind. destruct (m w) as [[b|] w1]; simpl; exact (fun H => H).
Qed.

Lemma wp_toISODateString (date : JsDate.Date)
    (Q : Outcome Z -> World -> Prop) (w : World) :
  match JsDate.toISODate date with
  | Some day => Q (Returned day) w
  | None => Q Thrown w
  end ->
  wp (toISODateString date) Q w.
Proof.
  unfold wp, toISODateString.
  destruct (JsDate.toISODate date); exact (fun H => H).
Qed.

Lemma wp_query (stmt : DB -> A * DB) (Q : Outcome A -> World -> Prop) (w : World) :
  Q Thrown (spend_fault w) ->
  Q (Returned (fst (stmt (db w))))
    (mkWorld (snd (stmt (db w))) (txn w) (connection w) (tl (faults w))) ->
  wp (query stmt) Q w.
Proof.
  unfold wp, query. intros Ht Hr.
  destruct (next_fault w); [exact Ht|].
  destruct (stmt (db w)); exact Hr.
Qed.

Lemma wp_try (body : M A) (handler final : M unit)
    (Q : Outcome A -> World -> Prop) (w : World) :
  wp body (fun o w1 =>
             match o with
             | Returned a =>
                 wp final (fun o2 w2 =>
                             match o2 with
                             | Returned _ => Q (Returned a) w2
                             | Thrown => Q Thrown w2
                             end) w1
             | Thrown =>
                 wp handler (fun _ w2 => Q Thrown (snd (final w2))) w1
             end) w ->
  wp (tryCatchFinally body handler final) Q w.
Proof.
  unfold wp, tryCatchFinally. destruct (body w) as [[a|] w1]; simpl.
  - destruct (final w1) as [[u|] w2]; exact (fun H => H).
  - destruct (handler w1) as [o w2]; exact (fun H => H).
Qed.

End WpFacts.

Section WpConnection.

Import Hoare.

Variable Q : Outcome unit -> World -> Prop.

Lemma wp_letConnection (w : World) :
  Q (Returned tt) (mkWorld (db w) (txn w) false (faults w)) ->
  wp letConnection Q w.
Proof. exact (fun H => H). Qed.

Lemma wp_getConnection (w : World) :
  Q Thrown (spend_fault w) ->
  Q (Returned tt) (mkWorld (db w) None true (tl (faults w))) ->
  wp getConnection Q w.
Proof.
  unfold wp, getConnection. intros Ht Hr. destruct (next_fault w); assumption.
Qed.

Lemma wp_beginTransaction (w : World) :
  Q Thrown (spend_fault w) ->
  Q (Returned tt) (mkWorld (db w) (Some (db w)) (connection w) (tl (faults w))) ->
  wp beginTransaction Q w.
Proof.
  unfold wp, beginTransaction. intros Ht Hr. destruct (next_fault w); assumption.
Qed.

Lemma wp_commit (w : World) :
  Q Thrown (spend_fault w) ->
  Q (Returned tt) (mkWorld (db w) None (connection w) (tl (faults w))) ->
  wp commit Q w.
Proof.
  unfold wp, commit. intros Ht Hr. destruct (next_fault w); assumption.
Qed.

Lemma wp_rollback (w : World) :
  Q (Returned tt)
    (match txn w with
     | Some snapshot =>
         mkWorld (restore_rows snapshot (db w)) None (connection w) (faults w)
     | None => w
     end) ->
  wp rollback Q w.
Proof. unfold wp, rollback. destruct (txn w); exact (fun H => H). Qed.

Lemma wp_release (w : World) :
  Q (Returned tt) (mkWorld (db w) (txn w) false (faults w)) ->
  wp release Q w.
Proof. exact (fun H => H). Qed.

Lemma wp_ifConnection (k : M unit) (w : World) :
  (if connection w then wp k Q w else Q (Returned tt) w) ->
  wp (ifConnection k) Q w.
Proof. unfold wp, ifConnection. destruct (connection w); exact (fun H => H). Qed.

End WpConnection.

(** Symbolic execution of a service, one construct at a time. *)
Ltac wp_step :=
  lazymatch goal with
  | |- Hoare.wp (bind _ _) _ _ => apply wp_bind
  | |- Hoare.wp (ret _) _ _ => apply wp_ret
  | |- Hoare.wp (query _) _ _ => apply wp_query
  | |- Hoare.wp (toISODateString _) _ _ => apply wp_toISODateString
  | |- Hoare.wp (tryCatchFinally _ _ _) _ _ => apply wp_try
  | |- Hoare.wp letConnection _ _ => apply wp_letConnection
  | |- Hoare.wp getConnection _ _ => apply wp_getConnection
  | |- Hoare.wp beginTransaction _ _ => apply wp_beginTransaction
  | |- Hoare.wp commit _ _ => apply wp_commit
  | |- Hoare.wp rollback _ _ => apply wp_rollback
  | |- Hoare.wp release _ _ => apply wp_release
  | |- Hoare.wp (ifConnection _) _ _ => apply wp_ifConnection
  end;
  cbn [db txn connection faults spend_fault fst snd select].

(** ** The reminder table keeps its invariant *)

Section ReminderInvariant.

Import ReminderService.

(** The invariant holds of the store and of the snapshot a rollback
    would bring back. *)
Let inv (w : World) : Prop :=
  Inv.one_active (plant_reminders (db w))
  /\ match txn w with
     | Some snapshot => Inv.one_active (plant_reminders snapshot)
     | None => True
     end.

Let keeps {A : Type} (m : M A) : Prop :=
  forall w, inv w -> Hoare.wp m (fun _ w' => inv w') w.

Lemma one_active_update (cond : Reminder -> bool) (set : Reminder -> Reminder)
    (t : list Reminder) :
  (forall plantId ty r, active_of plantId ty (set r) = true ->
                        active_of plantId ty r = true) ->
  Inv.one_active t -> Inv.one_active (Sql.update cond set t).
Proof.
  intros Hset Hinv plantId ty. specialize (Hinv plantId ty).
  eapply Nat.le_trans; [|exact Hinv].
  clear Hinv. unfold Sql.update.
  induction t as [|r t IH]; simpl; [lia|].
  destruct (cond r).
  - destruct (active_of plantId ty (set r)) eqn:E.
    + rewrite (Hset _ _ _ E). simpl. lia.
    + destruct (active_of plantId ty r); simpl; lia.
  - destruct (active_of plantId ty r); simpl; lia.
Qed.

Lemma keeps_saveReminder tz plantId data userId :
  keeps (saveReminder tz plantId data userId).
Proof.
  intros w [Hd Ht]. unfold saveReminder.
  wp_step. wp_step; [split; assumption|].
  destruct (select_plant plantId userId (db w)); [wp_step; split; assumption|].
  wp_step. wp_step.
  destruct (JsDate.toISODate _) as [next|]; [|split; assumption].
  wp_step. wp_step; [split; assumption|].
  destruct (filter (active_of plantId (rd_type data)) (plant_reminders (db w)))
    as [|existing others] eqn:Ea.
  - wp_step. wp_step. wp_step; [split; assumption|].
    cbn [insert_reminder fst snd].
    match goal with
    | |- context [plant_reminders (db w) ++ [?new]] =>
        assert (Inv.one_active (plant_reminders (db w) ++ [new])) as Hnew
    end.
    { eapply saved_one_active; [|exact Hd].
      unfold Reference.saved. rewrite Ea. reflexivity. }
    wp_step; [split; assumption|].
    wp_step. split; assumption.
  - wp_step. wp_step. wp_step; [split; assumption|].
    cbn [update_reminder fst snd].
    match goal with
    | |- context [Sql.update ?c ?s (plant_reminders (db w))] =>
        assert (Inv.one_active (Sql.update c s (plant_reminders (db w)))) as Hnew
          by (apply one_active_update; [intros ? ? ? H; exact H | exact Hd])
    end.
    wp_step; [split; assumption|].
    wp_step. split; assumption.
Qed.

Lemma keeps_completeReminder tz now reminderId userId :
  keeps (completeReminder tz now reminderId userId).
Proof.
  intros w [Hd Ht]. unfold completeReminder.
  wp_step. wp_step; [split; assumption|].
  destruct (select_owned_reminder reminderId userId (db w));
    [wp_step; split; assumption|].
  wp_step. wp_step.
  destruct (JsDate.toISODate _) as [today|]; [|split; assumption].
  wp_step. wp_step.
  destruct (JsDate.toISODate _) as [next|]; [|split; assumption].
  wp_step. wp_step; [split; assumption|].
  cbn [plant_reminders set_plant_reminders].
  match goal with
  | |- context [Sql.update ?c ?s ?t] =>
      assert (Inv.one_active (Sql.update c s t)) as Hnew
        by (apply one_active_update; [intros ? ? ? H; exact H | exact Hd])
  end.
  wp_step. wp_step; [split; assumption|].
  wp_step. split; assumption.
Qed.

Lemma keeps_deleteReminder reminderId userId :
  keeps (deleteReminder reminderId userId).
Proof.
  intros w [Hd Ht]. unfold deleteReminder.
  wp_step. wp_step; [split; assumption|].
  destruct (select_owned_reminder reminderId userId (db w));
    [wp_step; split; assumption|].
  wp_step. wp_step; [split; assumption|].
  cbn [plant_reminders set_plant_reminders].
  match goal with
  | |- context [Sql.update ?c ?s ?t] =>
      assert (Inv.one_active (Sql.update c s t)) as Hnew
  end.
  { apply one_active_update; [|exact Hd].
    intros p0 ty0 r0. unfold active_of. simpl.
    rewrite andb_false_r. discriminate. }
  wp_step. split; assumption.
Qed.

(** Every other service leaves the reminder table alone. *)
Ltac frame_call :=
  intros w [Hd Ht];
  repeat first
    [ wp_step
    | lazymatch goal with
      | |- Hoare.wp (match ?x with _ => _ end) _ _ => destruct x
      | |- match JsDate.toISODate ?date with _ => _ end =>
          destruct (JsDate.toISODate date)
      | |- inv _ => split; cbn; assumption || exact I
      end ].

Lemma keeps_getPlantReminders plantId userId :
  keeps (getPlantReminders plantId userId).
Proof. unfold getPlantReminders. frame_call. Qed.

Lemma keeps_getUpcomingReminders tz now userId daysAhead :
  keeps (getUpcomingReminders tz now userId daysAhead).
Proof. unfold getUpcomingReminders. frame_call. Qed.

Lemma keeps_getUserPlants userId : keeps (PlantService.getUserPlants userId).
Proof. unfold PlantService.getUserPlants. frame_call. Qed.

Lemma keeps_getPlantById plantId userId :
  keeps (PlantService.getPlantById plantId userId).
Proof. unfold PlantService.getPlantById. frame_call. Qed.

Lemma keeps_deletePlant plantId userId :
  keeps (PlantService.deletePlant plantId userId).
Proof. unfold PlantService.deletePlant. frame_call. Qed.

Lemma keeps_addPlant plantData userId :
  keeps (PlantService.addPlant plantData userId).
Proof.
  unfold PlantService.addPlant, PlantService.findOrCreatePlantType. frame_call.
Qed.

Lemma keeps_updatePlant plantId plantData userId :
  keeps (PlantService.updatePlant plantId plantData userId).
Proof.
  unfold PlantService.updatePlant, PlantService.findOrCreatePlantType. frame_call.
Qed.

Lemma keeps_getPlantHealthRemarks plantId userId :
  keeps (HealthService.getPlantHealthRemarks plantId userId).
Proof. unfold HealthService.getPlantHealthRemarks. frame_call. Qed.

Lemma keeps_addHealthRemark now plantId text userId :
  keeps (HealthService.addHealthRemark now plantId text userId).
Proof. unfold HealthService.addHealthRemark. frame_call. Qed.

Lemma keeps_updateHealthRemark remarkId text userId :
  keeps (HealthService.updateHealthRemark remarkId text userId).
Proof. unfold HealthService.updateHealthRemark. frame_call. Qed.

Lemma keeps_deleteHealthRemark remarkId userId :
  keeps (HealthService.deleteHealthRemark remarkId userId).
Proof. unfold HealthService.deleteHealthRemark. frame_call. Qed.

Lemma keeps_getLatestHealthRemark plantId userId :
  keeps (HealthService.getLatestHealthRemark plantId userId).
Proof. unfold HealthService.getLatestHealthRemark. frame_call. Qed.

(** In every store the services reach, a plant has at most one active
    reminder of each type. *)
Lemma reachable_one_active (d : DB) :
  Machine.reachable d -> Inv.one_active (plant_reminders d).
Proof.
  induction 1 as [d E|d c schedule _ IH].
  - rewrite E. intros plantId ty. simpl. lia.
  - assert (inv (Machine.request d schedule)) as Hw by (split; [exact IH | exact I]).
    assert (inv (Machine.run c (Machine.request d schedule))) as [Hd _];
      [|exact Hd].
    destruct c; cbn [Machine.run].
    + exact (keeps_getUserPlants _ _ Hw).
    + exact (keeps_getPlantById _ _ _ Hw).
    + exact (keeps_addPlant _ _ _ Hw).
    + exact (keeps_updatePlant _ _ _ _ Hw).
    + exact (keeps_deletePlant _ _ _ Hw).
    + exact (keeps_getPlantReminders _ _ _ Hw).
    + exact (keeps_saveReminder _ _ _ _ _ Hw).
    + exact (keeps_completeReminder _ _ _ _ _ Hw).
    + exact (keeps_deleteReminder _ _ _ Hw).
    + exact (keeps_getUpcomingReminders _ _ _ _ _ Hw).
    + exact (keeps_getPlantHealthRemarks _ _ _ Hw).
    + exact (keeps_addHealthRemark _ _ _ _ _ Hw).
    + exact (keeps_updateHealthRemark _ _ _ _ Hw).
    + exact (keeps_deleteHealthRemark _ _ _ Hw).
    + exact (keeps_getLatestHealthRemark _ _ _ Hw).
Qed.

End ReminderInvariant.

(** C1. On a server in a zone with clock changes the due date is not
    always start date plus interval: in the zone of Europe/Tallinn a save
    with start date 2025-03-29, day 20176, and interval 3 stores and
    answers [nextReminder] 2025-03-31, day 20178, which is start date
    plus 2. *)
Theorem saveReminder_short_across_clock_change :
  exists (v : ReminderService.ReminderView) (w' : World) (row : Reminder),
    ReminderService.saveReminder Sample.tallinn 1
      (ReminderService.mkReminderData watering 3 (JsDate.Dashed 20176) None) 7
      Sample.fresh_world
    = (Returned (Some v), w')
    /\ filter (ReminderService.active_of 1 watering) (plant_reminders (db w')) = [row]
    /\ start_date row = 20176
    /\ interval_days row = 3
    /\ next_reminder row = 20178
    /\ ReminderService.nextReminder v = 20178
    /\ next_reminder row <> start_date row + interval_days row.
Proof.
  eexists. eexists. eexists. split; [vm_compute; reflexivity|].
  split; [vm_compute; reflexivity|]. cbn. repeat split. lia.
Qed.



(** ** Upcoming reminders *)

Section UpcomingFacts.

Import ReminderService.

Lemma sorted_weaken {A : Type} (R R' : A -> A -> Prop) (l : list A) :
  (forall a b, R a b -> R' a b) -> Sorted R l -> Sorted R' l.
Proof.
  intros HR. induction 1 as [|x l Hl IH Hhd]; constructor; [exact IH|].
  destruct Hhd; constructor. apply HR. assumption.
Qed.

(** Under a primary key, selecting by a key value yields the row that
    carries it, if any. *)
Lemma filter_by_key {A : Type} (key : A -> Z) (k : Z) (t : list A) :
  NoDup (map key t) ->
  (filter (fun row => k =? key row) t = []
   /\ forall row, In row t -> key row <> k)
  \/ exists row, In row t /\ key row = k
                 /\ filter (fun row => k =? key row) t = [row].
Proof.
  intros Hnd.
  assert (forall l : list A,
            filter (fun row => k =? key row) l
            = filter (fun row => key row =? k) l) as Esym
    by (intros l; apply filter_ext; intros a; apply Z.eqb_sym).
  rewrite Esym.
  destruct (filter (fun row => key row =? k) t) as [|x rest] eqn:E.
  - left. split; [reflexivity|]. intros row Hrow Hk.
    apply filter_none with (row := row) in E; [|exact Hrow].
    apply Z.eqb_neq in E. contradiction.
  - right. exists x.
    assert (In x (filter (fun row => key row =? k) t)) as Hx
      by (rewrite E; left; reflexivity).
    apply filter_In in Hx as [Hx Hk]. apply Z.eqb_eq in Hk.
    repeat split; [exact Hx | exact Hk |].
    rewrite <- E, <- Hk. apply filter_key_unique; assumption.
Qed.

Variable d : DB.
Hypothesis user_plant_keys : Inv.user_plant_keys d = true.
Hypothesis plant_type_keys : Inv.plant_type_keys d = true.
Hypothesis plant_types_exist : Inv.plant_types_exist d = true.

(** The rows the triple join contributes for one reminder. *)
Let rows_of (r : Reminder) : list (Reminder * UserPlant * PlantType) :=
  flat_map
    (fun j => map (fun ap => (j, ap))
                  (filter (fun ap => up_plant_id (snd j) =? plant_id ap)
                          (all_plants d)))
    (map (fun up => (r, up))
         (filter (fun up => r_user_plant_id r =? user_plant_id up)
                 (user_plants d))).

Lemma join_by_reminder (t : list Reminder) :
  flat_map
    (fun j => map (fun ap => (j, ap))
                  (filter (fun ap => up_plant_id (snd j) =? plant_id ap)
                          (all_plants d)))
    (flat_map
       (fun r => map (fun up => (r, up))
                     (filter (fun up => r_user_plant_id r =? user_plant_id up)
                             (user_plants d)))
       t)
  = flat_map rows_of t.
Proof.
  induction t as [|r t IH]; simpl; [reflexivity|].
  rewrite flat_map_app, IH. reflexivity.
Qed.

(** With the keys in place a reminder joins with its plant and the
    plant's type, once, or with nothing when the plant row is gone. *)
Lemma rows_of_shape (r : Reminder) :
  (rows_of r = []
   /\ forall up, In up (user_plants d) -> user_plant_id up <> r_user_plant_id r)
  \/ exists up ap,
       In up (user_plants d) /\ user_plant_id up = r_user_plant_id r
       /\ In ap (all_plants d) /\ plant_id ap = up_plant_id up
       /\ rows_of r = [(r, up, ap)].
Proof.
  unfold rows_of.
  apply distinct_NoDup in user_plant_keys, plant_type_keys.
  destruct (filter_by_key user_plant_id (r_user_plant_id r) (user_plants d)
              user_plant_keys) as [[E Hnone]|(up & Hup & Hk & E)].
  - left. rewrite E. split; [reflexivity | exact Hnone].
  - right. rewrite E. simpl. rewrite app_nil_r.
    destruct (filter_by_key plant_id (up_plant_id up) (all_plants d)
                plant_type_keys) as [[_ Hnone]|(ap & Hap & Hka & Ea)].
    + exfalso. unfold Inv.plant_types_exist in plant_types_exist.
      rewrite forallb_forall in plant_types_exist.
      specialize (plant_types_exist up Hup).
      apply existsb_exists in plant_types_exist as (ap & Hap & Hm).
      apply Z.eqb_eq in Hm. apply (Hnone ap Hap). symmetry. exact Hm.
    + exists up, ap. rewrite Ea. simpl. auto.
Qed.

Lemma owns_visible_by_key (userId : Z) (up : UserPlant) :
  In up (user_plants d) ->
  Reference.owns_visible d userId (user_plant_id up)
  = PlantService.owned_visible userId up.
Proof.
  intros Hup. apply distinct_NoDup in user_plant_keys.
  unfold Reference.owns_visible, PlantService.is_visible_plant,
    PlantService.owned_visible.
  destruct ((user_id up =? userId) && negb (up_is_deleted up)) eqn:E.
  - apply existsb_exists. exists up. split; [exact Hup|].
    rewrite Z.eqb_refl. rewrite <- andb_assoc. exact E.
  - destruct (existsb _ (user_plants d)) eqn:Ex; [|reflexivity].
    apply existsb_exists in Ex as (x & Hx & Hc).
    rewrite <- andb_assoc in Hc. apply andb_true_iff in Hc as [Hid Hc].
    apply Z.eqb_eq in Hid.
    rewrite (key_injective user_plant_id _ x up user_plant_keys Hx Hup Hid) in Hc.
    congruence.
Qed.

Lemma upcoming_ids (userId today windowDays : Z) (t : list Reminder) :
  map (fun j => reminder_id (fst (fst j)))
      (filter (upcoming_where userId today (today + windowDays))
              (flat_map rows_of t))
  = map reminder_id
        (filter (Reference.is_upcoming d userId today windowDays) t).
Proof.
  induction t as [|r t IH]; simpl; [reflexivity|].
  rewrite filter_app, map_app, IH. clear IH.
  destruct (rows_of_shape r) as [[E Hnone]|(up & ap & Hup & Hk & Hap & Hka & E)];
    rewrite E; simpl.
  - assert (Reference.is_upcoming d userId today windowDays r = false) as ->;
      [|reflexivity].
    unfold Reference.is_upcoming, Reference.due_between.
    assert (Reference.owns_visible d userId (r_user_plant_id r) = false) as ->.
    { unfold Reference.owns_visible.
      destruct (existsb _ (user_plants d)) eqn:Ex; [|reflexivity].
      apply existsb_exists in Ex as (x & Hx & Hc).
      unfold PlantService.is_visible_plant in Hc.
      rewrite <- andb_assoc in Hc. apply andb_true_iff in Hc as [Hid _].
      apply Z.eqb_eq in Hid. exfalso. exact (Hnone x Hx Hid). }
    rewrite andb_false_r. reflexivity.
  - assert (Reference.is_upcoming d userId today windowDays r
            = (user_id up =? userId) && negb (up_is_deleted up) && is_active r
              && ((today <=? next_reminder r)
                  && (next_reminder r <=? today + windowDays))) as ->.
    { unfold Reference.is_upcoming, Reference.due_between. rewrite <- Hk.
      rewrite (owns_visible_by_key userId up Hup).
      unfold PlantService.owned_visible.
      destruct (user_id up =? userId), (up_is_deleted up), (is_active r),
        (today <=? next_reminder r), (next_reminder r <=? today + windowDays);
        reflexivity. }
    destruct (_ && _); reflexivity.
Qed.

Lemma select_upcoming_sorted (userId today futureDate : Z) :
  Sorted (Sql.ascending u_nextReminder)
         (select_upcoming userId today futureDate d).
Proof.
  unfold select_upcoming. apply sorted_map.
  eapply sorted_weaken; [|apply order_by_asc_sorted].
  intros [[r up] ap] [[r' up'] ap']. exact (fun H => H).
Qed.

Lemma select_upcoming_ids (userId today windowDays : Z) :
  Permutation
    (map u_id (select_upcoming userId today (today + windowDays) d))
    (map reminder_id
         (filter (Reference.is_upcoming d userId today windowDays)
                 (plant_reminders d))).
Proof.
  unfold select_upcoming. rewrite map_map.
  rewrite <- upcoming_ids, <- join_by_reminder.
  erewrite map_ext; [apply Permutation_map, order_by_asc_perm|].
  intros [[r up] ap]. reflexivity.
Qed.

(** Every row answered shows a reminder that is upcoming. *)
Lemma select_upcoming_sound (userId today windowDays : Z) (u : UpcomingView) :
  In u (select_upcoming userId today (today + windowDays) d) ->
  exists r,
    In r (plant_reminders d)
    /\ Reference.is_upcoming d userId today windowDays r = true
    /\ u_id u = reminder_id r /\ u_type u = reminder_type r
    /\ u_nextReminder u = next_reminder r
    /\ u_intervalDays u = interval_days r
    /\ u_plantId u = r_user_plant_id r.
Proof.
  unfold select_upcoming. intros Hu.
  apply in_map_iff in Hu as ([[r up] ap] & <- & Hj).
  apply (Permutation_in _ (order_by_asc_perm _ _)) in Hj.
  apply filter_In in Hj as [Hj Hc].
  unfold r_join_up_join_ap, r_join_up in Hj.
  apply in_flat_map in Hj as ([r0 up0] & Hj & Hap).
  apply in_map_iff in Hap as (ap0 & Eq & Hap). inversion Eq; subst r0 up0 ap0.
  apply in_flat_map in Hj as (r0 & Hr & Hj).
  apply in_map_iff in Hj as (up0 & Eq' & Hup). inversion Eq'; subst r0 up0.
  apply filter_In in Hup as [Hup Hm]. apply Z.eqb_eq in Hm.
  exists r. simpl. repeat split; auto.
  unfold upcoming_where in Hc. unfold Reference.is_upcoming, Reference.due_between.
  rewrite Hm, (owns_visible_by_key userId up Hup).
  unfold PlantService.owned_visible.
  destruct (user_id up =? userId), (up_is_deleted up), (is_active r),
    (today <=? next_reminder r), (next_reminder r <=? today + windowDays);
    simpl in *; congruence.
Qed.

End UpcomingFacts.

(** C3. On a server in a zone with clock changes the window does not
    always reach to today plus [windowDays]: at 2025-03-29T00:30Z in the
    zone of Europe/Tallinn, with a window of 3 days, an active reminder of
    the user's plant due on 2025-04-01, day 20179, which is today + 3, is
    not listed. *)
Theorem getUpcomingReminders_window_short_before_clock_change :
  exists (w' : World) (r : Reminder),
    ReminderService.getUpcomingReminders Sample.tallinn Sample.half_past_midnight
      7 (Some 3) Sample.april_world
    = (Returned [], w')
    /\ In r (plant_reminders (db Sample.april_world))
    /\ is_active r = true
    /\ Reference.owns_visible (db Sample.april_world) 7 (r_user_plant_id r) = true
    /\ next_reminder r = JsDate.Day (Sample.half_past_midnight 0%nat) + 3
    /\ Reference.is_upcoming (db Sample.april_world) 7
         (JsDate.Day (Sample.half_past_midnight 0%nat)) 3 r = true.
Proof.
  eexists. eexists. split; [vm_compute; reflexivity|].
  split; [left; reflexivity|]. repeat split.
Qed.

(** X29. The upcoming-reminders query, when the last day of its window is
    a valid date of the years 0000 to 9999, answers with exactly the active
    reminders of the user's visible plants that fall due from today, the
    UTC day of the first reading of the clock, up to and including the last
    day of the window, soonest first: one due on the last day is listed,
    one due the day after is not.  The last day is the UTC day of the date
    that lies [windowDays] local days after the second reading; when both
    readings fall on the same UTC day and the zone has the same offset at
    both ends, it is today plus [windowDays]. *)
Theorem getUpcomingReminders_closed_window
    (tz : JsDate.Zone) (now : JsDate.Clock) (userId windowDays last : Z)
    (w : World) :
  Inv.calm w = true ->
  Inv.user_plant_keys (db w) = true ->
  Inv.plant_type_keys (db w) = true ->
  Inv.plant_types_exist (db w) = true ->
  Inv.reminder_keys (db w) = true ->
  JsDate.toISODate
    (JsDate.addLocalDays tz (JsDate.current (now 1%nat)) windowDays)
  = Some last ->
  JsDate.fourDigitYear last = true ->
  exists rows w',
    ReminderService.getUpcomingReminders tz now userId (Some windowDays) w
      = (Returned rows, w')
    /\ db w' = db w
    /\ Sorted (Sql.ascending ReminderService.u_nextReminder) rows
    /\ Permutation
         (map ReminderService.u_id rows)
         (map reminder_id
              (filter (Reference.due_between (db w) userId
                         (JsDate.Day (now 0%nat)) last)
                      (plant_reminders (db w))))
    /\ (forall u, In u rows ->
          exists r,
            In r (plant_reminders (db w))
            /\ Reference.due_between (db w) userId
                 (JsDate.Day (now 0%nat)) last r = true
            /\ ReminderService.u_id u = reminder_id r
            /\ ReminderService.u_type u = reminder_type r
            /\ ReminderService.u_nextReminder u = next_reminder r
            /\ ReminderService.u_intervalDays u = interval_days r
            /\ ReminderService.u_plantId u = r_user_plant_id r)
    /\ (forall r,
          In r (plant_reminders (db w)) ->
          is_active r = true ->
          Reference.owns_visible (db w) userId (r_user_plant_id r) = true ->
          (JsDate.Day (now 0%nat) <= last ->
           next_reminder r = last ->
           In (reminder_id r) (map ReminderService.u_id rows))
          /\ (next_reminder r = last + 1 ->
              ~ In (reminder_id r) (map ReminderService.u_id rows)))
    /\ (JsDate.Day (now 1%nat) = JsDate.Day (now 0%nat) ->
        tz (JsDate.LocalTime tz (now 1%nat) + windowDays * JsDate.msPerDay) false
        = tz (now 1%nat) true ->
        last = JsDate.Day (now 0%nat) + windowDays).
Proof.
  intros Hc Hup Hap Hfk Hrk Hlast _.
  unfold ReminderService.getUpcomingReminders.
  rewrite (bind_returned _ _ _ _ _
             (toISODateString_some (JsDate.current (now 0%nat)) _ _ eq_refl)).
  rewrite (bind_returned _ _ _ _ _ (toISODateString_some _ last _ Hlast)).
  rewrite query_calm by exact Hc. cbn [select fst snd].
  set (today := JsDate.Day (now 0%nat)).
  pose proof (select_upcoming_ids (db w) Hup Hap Hfk userId today (last - today))
    as Hperm.
  pose proof (select_upcoming_sound (db w) Hup userId today (last - today))
    as Hsound.
  unfold Reference.is_upcoming in Hperm, Hsound.
  replace (today + (last - today)) with last in Hperm, Hsound by lia.
  eexists. eexists. split; [reflexivity|]. cbn [db].
  split; [reflexivity|].
  split; [apply select_upcoming_sorted|].
  split; [exact Hperm|].
  split; [exact Hsound|].
  split.
  - intros r Hr Hact Hov. split.
    + intros Hwin Hnext.
      apply (Permutation_in _ (Permutation_sym Hperm)).
      apply in_map. apply filter_In. split; [exact Hr|].
      unfold Reference.due_between. rewrite Hact, Hov, Hnext. simpl.
      apply andb_true_iff. split; apply Z.leb_le; lia.
    + intros Hnext Hin.
      apply (Permutation_in _ Hperm) in Hin.
      apply in_map_iff in Hin as (r' & Hid & Hr').
      apply filter_In in Hr' as [Hr' Hc'].
      apply distinct_NoDup in Hrk.
      rewrite (key_injective reminder_id _ r' r Hrk Hr' Hr Hid) in Hc'.
      unfold Reference.due_between in Hc'. rewrite Hnext in Hc'.
      apply andb_true_iff in Hc' as [_ Hhi]. apply Z.leb_le in Hhi. lia.
  - intros Eday Etz. subst today. rewrite <- Eday.
    exact (toISODate_same_offset tz _ _ _ Etz Hlast).
Qed.

Lemma getUpcomingReminders_closed_window_witness :
  exists rows w',
    ReminderService.getUpcomingReminders (JsDate.fixed 7200000)
      (JsDate.still (20160 * 86400000 + 3600000)) 7 (Some 7) Sample.week_world
      = (Returned rows, w')
    /\ map ReminderService.u_id rows = [3; 1].
Proof.
  destruct (getUpcomingReminders_closed_window (JsDate.fixed 7200000)
              (JsDate.still (20160 * 86400000 + 3600000)) 7 7 20167
              Sample.week_world
              eq_refl eq_refl eq_refl eq_refl eq_refl eq_refl eq_refl)
    as (rows & w' & E & _).
  exists rows, w'. split; [exact E|].
  vm_compute in E. inversion E. reflexivity.
Defined.

(** ** Ownership of plants *)

Section OwnershipFacts.

Import PlantService.

Lemma same_rows_refl (d : DB) : same_rows d d.
Proof. repeat split. Qed.

Lemma quiet_firstn (n : nat) (schedule : list bool) :
  Inv.quiet schedule = true -> Inv.quiet (firstn n schedule) = true.
Proof.
  unfold Inv.quiet. revert schedule.
  induction n as [|n IH]; intros [|f fs]; simpl; try reflexivity.
  rewrite !andb_true_iff. intros [Hf Hfs]. split; [exact Hf | apply IH; exact Hfs].
Qed.

Lemma refused_of_outcome {A : Type} (deny : A) (m : M A) (k : nat)
    (plantId : Z) (w : World) :
  fst (m w) = Reference.outcome_of deny k w ->
  fst (m (Reference.forget_plant plantId w))
    = Reference.outcome_of deny k (Reference.forget_plant plantId w) ->
  same_rows (db (snd (m w))) (db w) ->
  Reference.refused deny m plantId w.
Proof.
  intros E E' Hrows. unfold Reference.refused. rewrite E, E'.
  unfold Reference.outcome_of. cbn [Reference.forget_plant faults].
  repeat split; try apply Hrows.
  - destruct (Inv.quiet (firstn k (faults w))); auto.
  - intros Hc. unfold Inv.calm in Hc. rewrite (quiet_firstn k _ Hc). reflexivity.
Qed.

(** The rows of the join a condition on the plant selects. *)
Lemma filter_join_none (d : DB) (f : UserPlant -> bool) :
  filter f (user_plants d) = [] ->
  filter (fun j => f (fst j)) (up_join_ap d) = [].
Proof.
  intros E. apply filter_none. intros [up ap] Hj. simpl.
  unfold up_join_ap in Hj. apply in_flat_map in Hj as (up0 & Hup & Hj).
  apply in_map_iff in Hj as (ap0 & Eq & _). inversion Eq; subst up0 ap0.
  apply (proj2 (filter_none f (user_plants d)) E up Hup).
Qed.

Variables (plantId userId : Z).

(** What the three calls do when the user has no visible plant, or no
    plant at all, of that id. *)
Lemma getPlantById_nothing (w : World) :
  filter (is_visible_plant plantId userId) (user_plants (db w)) = [] ->
  fst (getPlantById plantId userId w) = Reference.outcome_of None 1 w
  /\ same_rows (db (snd (getPlantById plantId userId w))) (db w).
Proof.
  intros E. apply filter_join_none in E.
  unfold getPlantById, bind, query, select, Reference.outcome_of, next_fault, Inv.quiet.
  rewrite E.
  destruct (faults w) as [|[] fs]; simpl; split;
    reflexivity || apply same_rows_refl.
Qed.

Lemma updatePlant_nothing (plantData : PlantData) (w : World) :
  filter (is_visible_plant plantId userId) (user_plants (db w)) = [] ->
  fst (updatePlant plantId plantData userId w) = Reference.outcome_of None 3 w
  /\ same_rows (db (snd (updatePlant plantId plantData userId w))) (db w).
Proof.
  intros E.
  unfold updatePlant, tryCatchFinally, bind, letConnection, getConnection,
    beginTransaction, query, select, ifConnection, rollback, release,
    Reference.outcome_of, next_fault, Inv.quiet.
  destruct w as [d t c fs]. cbn [db txn connection faults] in *.
  destruct fs as [|[] [|[] [|[] fs]]]; cbn; rewrite ?E; cbn; split;
    reflexivity || (unfold same_rows; cbn; repeat split).
Qed.

Lemma deletePlant_nothing (w : World) :
  filter (fun up => (user_plant_id up =? plantId) && (user_id up =? userId))
         (user_plants (db w)) = [] ->
  fst (deletePlant plantId userId w) = Reference.outcome_of false 1 w
  /\ same_rows (db (snd (deletePlant plantId userId w))) (db w).
Proof.
  intros E.
  unfold deletePlant, bind, query, Reference.outcome_of, next_fault, Inv.quiet,
    Sql.affectedRows.
  rewrite E.
  rewrite update_untouched by (apply filter_none; exact E).
  destruct (faults w) as [|[] fs]; simpl; split;
    reflexivity || (repeat split).
Qed.

(** Another user's plant, and a plant that is not there, select nothing. *)
Lemma foreign_plant_selects_nothing (d : DB) (p : UserPlant) (f : UserPlant -> bool) :
  Inv.user_plant_keys d = true ->
  In p (user_plants d) ->
  user_plant_id p = plantId ->
  user_id p <> userId ->
  (forall up, f up = true -> user_plant_id up = plantId /\ user_id up = userId) ->
  filter f (user_plants d) = [].
Proof.
  intros Hk Hp Hid Hother Hf. apply distinct_NoDup in Hk.
  apply filter_none. intros up Hup.
  destruct (f up) eqn:E; [|reflexivity].
  destruct (Hf up E) as [Hid' Hu].
  assert (up = p)
    by (apply (key_injective user_plant_id (user_plants d)); congruence).
  subst up. contradiction.
Qed.

Lemma forgotten_plant_selects_nothing (w : World) (f : UserPlant -> bool) :
  (forall up, f up = true -> user_plant_id up = plantId /\ user_id up = userId) ->
  filter f (user_plants (db (Reference.forget_plant plantId w))) = [].
Proof.
  intros Hf. cbn [Reference.forget_plant db user_plants set_user_plants].
  apply filter_none. intros up Hup.
  apply filter_In in Hup as [_ Hne].
  destruct (f up) eqn:E; [|reflexivity].
  destruct (Hf up E) as [Hid _]. rewrite Hid, Z.eqb_refl in Hne. discriminate.
Qed.

Lemma is_visible_plant_ids (up : UserPlant) :
  is_visible_plant plantId userId up = true ->
  user_plant_id up = plantId /\ user_id up = userId.
Proof.
  unfold is_visible_plant. rewrite !andb_true_iff, !Z.eqb_eq. tauto.
Qed.

Lemma delete_cond_ids (up : UserPlant) :
  (user_plant_id up =? plantId) && (user_id up =? userId) = true ->
  user_plant_id up = plantId /\ user_id up = userId.
Proof. rewrite andb_true_iff, !Z.eqb_eq. tauto. Qed.

End OwnershipFacts.

(** C4. A plant owned by user A is out of reach of any other user B: as B,
    [getPlantById] and [updatePlant] answer null and [deletePlant] answers
    false (or the call throws on an infrastructure fault), no row changes,
    and each answer is the one B would get if the plant did not exist. *)
Theorem ownership_isolation
    (a b plantId : Z) (p : UserPlant) (plantData : PlantService.PlantData)
    (w : World) :
  Inv.user_plant_keys (db w) = true ->
  In p (user_plants (db w)) ->
  user_plant_id p = plantId ->
  user_id p = a ->
  a <> b ->
  Reference.refused None (PlantService.getPlantById plantId b) plantId w
  /\ Reference.refused None (PlantService.updatePlant plantId plantData b) plantId w
  /\ Reference.refused false (PlantService.deletePlant plantId b) plantId w.
Proof.
  intros Hk Hp Hid Ha Hab.
  assert (user_id p <> b) as Hother by congruence.
  pose proof (foreign_plant_selects_nothing plantId b (db w) p _ Hk Hp Hid Hother
                (is_visible_plant_ids plantId b)) as Ev.
  pose proof (foreign_plant_selects_nothing plantId b (db w) p _ Hk Hp Hid Hother
                (delete_cond_ids plantId b)) as Ed.
  pose proof (forgotten_plant_selects_nothing plantId b w _
                (is_visible_plant_ids plantId b)) as Ev'.
  pose proof (forgotten_plant_selects_nothing plantId b w _
                (delete_cond_ids plantId b)) as Ed'.
  split; [|split].
  - apply refused_of_outcome with (k := 1%nat);
      [apply getPlantById_nothing, Ev | apply getPlantById_nothing, Ev'
      | apply getPlantById_nothing, Ev].
  - apply refused_of_outcome with (k := 3%nat);
      [apply updatePlant_nothing, Ev | apply updatePlant_nothing, Ev'
      | apply updatePlant_nothing, Ev].
  - apply refused_of_outcome with (k := 1%nat);
      [apply deletePlant_nothing, Ed | apply deletePlant_nothing, Ed'
      | apply deletePlant_nothing, Ed].
Qed.

Lemma ownership_isolation_witness :
  Reference.refused None (PlantService.getPlantById 1 8) 1 Sample.fresh_world
  /\ Reference.refused None
       (PlantService.updatePlant 1
          (PlantService.mkPlantData "Roma" "Tomato" 20150 None None) 8)
       1 Sample.fresh_world
  /\ Reference.refused false (PlantService.deletePlant 1 8) 1 Sample.fresh_world.
Proof.
  apply (ownership_isolation 7 8 1 Sample.tomato
           (PlantService.mkPlantData "Roma" "Tomato" 20150 None None)
           Sample.fresh_world).
  - reflexivity.
  - simpl. left. reflexivity.
  - reflexivity.
  - reflexivity.
  - lia.
Defined.

(** ** Soft deletion of plants *)

Section SoftDeleteFacts.

Import PlantService.

Variables (plantId userId : Z).

Let cond (up : UserPlant) : bool :=
  (user_plant_id up =? plantId) && (user_id up =? userId).

Lemma soft_deleted_invisible (t : list UserPlant) :
  filter (is_visible_plant plantId userId) (Sql.update cond soft_delete t) = [].
Proof.
  apply filter_none. intros up' Hup'.
  unfold Sql.update in Hup'. apply in_map_iff in Hup' as (x & <- & _).
  destruct (cond x) eqn:Ec.
  - unfold is_visible_plant, soft_delete. simpl. apply andb_false_r.
  - unfold is_visible_plant. unfold cond in Ec. rewrite Ec. reflexivity.
Qed.

Lemma soft_delete_keeps_ids (t : list UserPlant) :
  map user_plant_id (Sql.update cond soft_delete t) = map user_plant_id t.
Proof.
  unfold Sql.update. rewrite map_map. apply map_ext.
  intros up. destruct (cond up); reflexivity.
Qed.

Lemma deletePlant_calm (w : World) (p : UserPlant) :
  Inv.calm w = true ->
  In p (user_plants (db w)) ->
  user_plant_id p = plantId ->
  user_id p = userId ->
  deletePlant plantId userId w =
  (Returned true,
   mkWorld (set_user_plants (Sql.update cond soft_delete (user_plants (db w)))
                            (ai_user_plants (db w)) (db w))
           (txn w) (connection w) (tl (faults w))).
Proof.
  intros Hc Hp Hid Hu. unfold deletePlant. calm_step.
  unfold ret. f_equal. f_equal. apply Z.ltb_lt.
  unfold Sql.affectedRows.
  destruct (filter _ (user_plants (db w))) as [|x rest] eqn:E; [|simpl; lia].
  apply filter_none with (row := p) in E; [|exact Hp].
  rewrite Hid, Hu, !Z.eqb_refl in E. discriminate.
Qed.

(** Nothing the list shows carries the id of a plant the user cannot see. *)
Lemma getUserPlants_hides (w : World) (l : list PlantView) (w' : World) :
  filter (is_visible_plant plantId userId) (user_plants (db w)) = [] ->
  getUserPlants userId w = (Returned l, w') ->
  ~ In plantId (map id l).
Proof.
  intros E Hrun Hin.
  unfold getUserPlants, query, select in Hrun.
  destruct (next_fault w); [discriminate|]. inversion Hrun; subst l; clear Hrun.
  apply in_map_iff in Hin as (v & Hv & Hin).
  apply in_map_iff in Hin as ([up ap] & <- & Hj). simpl in Hv.
  apply (Permutation_in _ (order_by_asc_perm _ _)) in Hj.
  apply filter_In in Hj as [Hj Hov]. simpl in Hov.
  assert (In (up, ap) (filter (fun j => is_visible_plant plantId userId (fst j))
                              (up_join_ap (db w)))) as Hvis.
  { apply filter_In. split; [exact Hj|]. simpl.
    unfold is_visible_plant. unfold owned_visible in Hov.
    rewrite Hv, Z.eqb_refl. exact Hov. }
  rewrite (filter_join_none (db w) _ E) in Hvis. contradiction.
Qed.

End SoftDeleteFacts.

(** C5. Soft-deleting an owned plant succeeds and hides it: the list of
    the user's plants no longer shows its id and fetching it answers null,
    while the table still holds every row it held, the plant's among them
    with [is_deleted] set. *)
Theorem deletePlant_hides_but_keeps_row
    (plantId userId : Z) (p : UserPlant) (w : World) :
  Inv.calm w = true ->
  In p (user_plants (db w)) ->
  user_plant_id p = plantId ->
  user_id p = userId ->
  exists w1,
    PlantService.deletePlant plantId userId w = (Returned true, w1)
    /\ In (PlantService.soft_delete p) (user_plants (db w1))
    /\ up_is_deleted (PlantService.soft_delete p) = true
    /\ user_plant_id (PlantService.soft_delete p) = plantId
    /\ map user_plant_id (user_plants (db w1)) = map user_plant_id (user_plants (db w))
    /\ forall w2,
         db w2 = db w1 ->
         Inv.calm w2 = true ->
         (exists l w3,
            PlantService.getUserPlants userId w2 = (Returned l, w3)
            /\ ~ In plantId (map PlantService.id l))
         /\ fst (PlantService.getPlantById plantId userId w2) = Returned None.
Proof.
  intros Hc Hp Hid Hu.
  eexists. split; [apply (deletePlant_calm plantId userId w p); assumption|].
  cbn [db user_plants set_user_plants].
  split.
  { apply update_In; [exact Hp|]. rewrite Hid, Hu, !Z.eqb_refl. reflexivity. }
  split; [reflexivity|]. split; [exact Hid|].
  split; [apply soft_delete_keeps_ids|].
  intros w2 Hdb Hc2.
  assert (filter (PlantService.is_visible_plant plantId userId) (user_plants (db w2)) = [])
    as Ev by (rewrite Hdb; apply soft_deleted_invisible).
  split.
  - destruct (PlantService.getUserPlants userId w2) as [[l|] w3] eqn:Erun.
    + exists l, w3. split; [reflexivity|].
      eapply getUserPlants_hides; eassumption.
    + unfold PlantService.getUserPlants in Erun.
      rewrite query_calm in Erun by exact Hc2. discriminate.
  - destruct (getPlantById_nothing plantId userId w2 Ev) as [-> _].
    unfold Reference.outcome_of. unfold Inv.calm in Hc2.
    rewrite (quiet_firstn 1 _ Hc2). reflexivity.
Qed.

Lemma deletePlant_hides_but_keeps_row_witness :
  exists w1,
    PlantService.deletePlant 1 7 Sample.fresh_world = (Returned true, w1)
    /\ In (PlantService.soft_delete Sample.tomato) (user_plants (db w1))
    /\ up_is_deleted (PlantService.soft_delete Sample.tomato) = true
    /\ user_plant_id (PlantService.soft_delete Sample.tomato) = 1
    /\ map user_plant_id (user_plants (db w1))
       = map user_plant_id (user_plants (db Sample.fresh_world))
    /\ forall w2,
         db w2 = db w1 ->
         Inv.calm w2 = true ->
         (exists l w3,
            PlantService.getUserPlants 7 w2 = (Returned l, w3)
            /\ ~ In 1 (map PlantService.id l))
         /\ fst (PlantService.getPlantById 1 7 w2) = Returned None.
Proof.
  apply (deletePlant_hides_but_keeps_row 1 7 Sample.tomato Sample.fresh_world).
  - reflexivity.
  - simpl. left. reflexivity.
  - reflexivity.
  - reflexivity.
Defined.

(** ** The latest health remark *)

Section LatestFacts.

Import HealthService.

Lemma getLatestHealthRemark_calm (plantId userId : Z) (w : World) :
  Inv.calm w = true ->
  fst (getLatestHealthRemark plantId userId w) =
  Returned
    (match ReminderService.select_plant plantId userId (db w) with
     | [] => None
     | _ :: _ =>
         match Sql.order_by_desc created_at
                 (filter (fun h => h_user_plant_id h =? plantId)
                         (plant_health (db w))) with
         | [] => None
         | latest :: _ => Some (view latest)
         end
     end).
Proof.
  intros Hc. unfold getLatestHealthRemark. calm_step.
  destruct (ReminderService.select_plant plantId userId (db w)); [reflexivity|].
  calm_step. unfold select_remarks, Sql.limit1.
  destruct (Sql.order_by_desc _ _); reflexivity.
Qed.

End LatestFacts.

(** C6, as the code has it. The answer has two cases, not three: null when
    the plant is missing, unowned or soft-deleted and also when it is
    visible but has no remark, and the most recent remark otherwise; the
    route turns both nulls into the same 404. *)
Theorem getLatestHealthRemark_two_way (plantId userId : Z) (w : World) :
  Inv.calm w = true ->
  (Reference.owns_visible (db w) userId plantId = false
   \/ filter (fun h => h_user_plant_id h =? plantId) (plant_health (db w)) = [] ->
   fst (HealthService.getLatestHealthRemark plantId userId w) = Returned None
   /\ fst (App.getHealthLatest userId plantId w)
      = App.NotFound404 "No health remarks found for this plant")
  /\ (Reference.owns_visible (db w) userId plantId = true ->
      filter (fun h => h_user_plant_id h =? plantId) (plant_health (db w)) <> [] ->
      exists latest,
        In latest (plant_health (db w))
        /\ h_user_plant_id latest = plantId
        /\ (forall h, In h (plant_health (db w)) -> h_user_plant_id h = plantId ->
                      created_at h <= created_at latest)
        /\ fst (HealthService.getLatestHealthRemark plantId userId w)
           = Returned (Some (HealthService.view latest))
        /\ fst (App.getHealthLatest userId plantId w)
           = App.Json200 (HealthService.view latest)).
Proof.
  intros Hc.
  pose proof (getLatestHealthRemark_calm plantId userId w Hc) as E.
  assert (forall o, fst (HealthService.getLatestHealthRemark plantId userId w)
                    = Returned o ->
                    fst (App.getHealthLatest userId plantId w)
                    = match o with
                      | None => App.NotFound404 "No health remarks found for this plant"
                      | Some v => App.Json200 v
                      end) as Happ.
  { intros o Ho. unfold App.getHealthLatest.
    destruct (HealthService.getLatestHealthRemark plantId userId w) as [[[v|]|] w'];
      simpl in Ho; inversion Ho; reflexivity. }
  split.
  - intros Hnone.
    assert (fst (HealthService.getLatestHealthRemark plantId userId w) = Returned None)
      as En.
    { rewrite E. f_equal. destruct Hnone as [Hov|Hno].
      - rewrite (select_plant_foreign _ _ _ Hov). reflexivity.
      - rewrite Hno. simpl.
        destruct (ReminderService.select_plant plantId userId (db w)); reflexivity. }
    split; [exact En | exact (Happ None En)].
  - intros Hov Hsome.
    destruct (select_plant_owned _ _ _ Hov) as (up & rest & Ep).
    rewrite Ep in E.
    destruct (Sql.order_by_desc created_at
                (filter (fun h => h_user_plant_id h =? plantId) (plant_health (db w))))
      as [|latest others] eqn:Es.
    + exfalso. apply Hsome.
      pose proof (order_by_asc_perm (fun h => - created_at h)
                    (filter (fun h => h_user_plant_id h =? plantId)
                            (plant_health (db w)))) as P.
      unfold Sql.order_by_desc in Es. rewrite Es in P.
      apply Permutation_nil in P. exact P.
    + unfold Sql.order_by_desc in Es.
      apply order_by_asc_head in Es as [Hin Hmax].
      apply filter_In in Hin as [Hin Hpl]. apply Z.eqb_eq in Hpl.
      exists latest. split; [exact Hin|]. split; [exact Hpl|].
      split; [|split; [exact E | exact (Happ _ E)]].
      intros h Hh Hhp.
      assert (- created_at latest <= - created_at h); [|lia].
      apply Hmax. apply filter_In. split; [exact Hh | apply Z.eqb_eq; exact Hhp].
Qed.

Lemma getLatestHealthRemark_two_way_witness :
  exists latest,
    In latest (plant_health (db Sample.remarks_world))
    /\ h_user_plant_id latest = 1
    /\ (forall h, In h (plant_health (db Sample.remarks_world)) ->
                  h_user_plant_id h = 1 -> created_at h <= created_at latest)
    /\ fst (HealthService.getLatestHealthRemark 1 7 Sample.remarks_world)
       = Returned (Some (HealthService.view latest))
    /\ fst (App.getHealthLatest 7 1 Sample.remarks_world)
       = App.Json200 (HealthService.view latest).
Proof.
  apply (getLatestHealthRemark_two_way 1 7 Sample.remarks_world).
  - reflexivity.
  - reflexivity.
  - simpl. discriminate.
Defined.

(** C6, as the claim has it, fails: the owner of a plant without remarks
    and a stranger asking for the same plant get the same answer, null, and
    the same response from the route. *)
Lemma getLatestHealthRemark_not_three_way :
  Reference.owns_visible (db Sample.fresh_world) 7 1 = true
  /\ Reference.owns_visible (db Sample.fresh_world) 8 1 = false
  /\ plant_health (db Sample.fresh_world) = []
  /\ fst (HealthService.getLatestHealthRemark 1 7 Sample.fresh_world) = Returned None
  /\ fst (HealthService.getLatestHealthRemark 1 8 Sample.fresh_world) = Returned None
  /\ fst (App.getHealthLatest 7 1 Sample.fresh_world)
     = fst (App.getHealthLatest 8 1 Sample.fresh_world).
Proof. repeat split. Qed.

(** ** The catalog of plant types *)

Section CatalogFacts.

Import PlantService.

Lemma matches_plant_type_exact (cultivar species : string) (ap : PlantType) :
  matches_plant_type cultivar species ap = true <->
  plant_cultivar ap = cultivar /\ plant_species ap = species
  /\ ap_is_deleted ap = false.
Proof.
  unfold matches_plant_type.
  rewrite !andb_true_iff, !String.eqb_eq, negb_true_iff. tauto.
Qed.

(** A calm resolution answers with a type id and touches the catalog only. *)
Lemma findOrCreatePlantType_calm (cultivar species : string) (w : World) :
  Inv.calm w = true ->
  exists typeId w1,
    findOrCreatePlantType cultivar species w = (Returned typeId, w1)
    /\ Inv.calm w1 = true
    /\ txn w1 = txn w /\ connection w1 = connection w
    /\ Reference.same_but_catalog (db w1) (db w)
    /\ Reference.resolved cultivar species (ai_all_plants (db w))
                          (all_plants (db w)) typeId (all_plants (db w1)).
Proof.
  intros Hc. unfold findOrCreatePlantType, Reference.resolved. calm_step.
  destruct (filter (matches_plant_type cultivar species) (all_plants (db w)))
    as [|ap rest].
  - rewrite query_calm by calm_solve.
    eexists. eexists. split; [reflexivity|].
    split; [calm_solve|]. cbn. repeat split.
  - eexists. eexists. split; [reflexivity|].
    split; [calm_solve|]. cbn. repeat split.
Qed.

(** The type a resolution answers with is in the catalog afterwards,
    active and with exactly the cultivar and species asked for. *)
Lemma resolved_in_catalog (cultivar species : string) (fresh typeId : Z)
    (t t' : list PlantType) :
  Reference.resolved cultivar species fresh t typeId t' ->
  exists ap, In ap t' /\ plant_id ap = typeId
             /\ matches_plant_type cultivar species ap = true.
Proof.
  unfold Reference.resolved.
  destruct (filter (matches_plant_type cultivar species) t) as [|ap rest] eqn:E.
  - intros [-> ->]. eexists. split; [apply in_or_app; right; left; reflexivity|].
    split; [reflexivity|]. unfold matches_plant_type. simpl.
    rewrite !String.eqb_refl. reflexivity.
  - intros [-> ->]. exists ap.
    assert (In ap (filter (matches_plant_type cultivar species) t)) as Hin
      by (rewrite E; left; reflexivity).
    apply filter_In in Hin. tauto.
Qed.

(** Resolving the same cultivar and species again finds the same type
    and adds nothing. *)
Lemma resolved_again (cultivar species : string) (fresh fresh' typeId typeId' : Z)
    (t t' t'' : list PlantType) :
  Reference.resolved cultivar species fresh t typeId t' ->
  Reference.resolved cultivar species fresh' t' typeId' t'' ->
  typeId' = typeId /\ t'' = t'.
Proof.
  unfold Reference.resolved.
  destruct (filter (matches_plant_type cultivar species) t) as [|ap rest] eqn:E.
  - intros [-> ->]. rewrite filter_app, E. simpl.
    unfold matches_plant_type at 1. simpl. rewrite !String.eqb_refl. simpl.
    intros [-> ->]. split; reflexivity.
  - intros [-> ->]. rewrite E. intros [-> ->]. split; reflexivity.
Qed.

(** The joined row of a plant, under the primary key of [user_plants]. *)
Lemma select_plant_view (d : DB) (up : UserPlant) (ap : PlantType) :
  Inv.user_plant_keys d = true ->
  In up (user_plants d) ->
  In ap (all_plants d) ->
  plant_id ap = up_plant_id up ->
  exists ap',
    In ap' (all_plants d) /\ plant_id ap' = up_plant_id up
    /\ hd_error (select_plant (user_plant_id up) d) = Some (view (up, ap')).
Proof.
  intros Hk Hup Hap Hm. apply distinct_NoDup in Hk. unfold select_plant.
  destruct (filter (fun j => user_plant_id (fst j) =? user_plant_id up) (up_join_ap d))
    as [|[up' ap'] rest] eqn:E.
  - apply filter_none with (row := (up, ap)) in E.
    + simpl in E. rewrite Z.eqb_refl in E. discriminate.
    + unfold up_join_ap. apply in_flat_map. exists up. split; [exact Hup|].
      apply in_map. apply filter_In. split; [exact Hap|].
      apply Z.eqb_eq. symmetry. exact Hm.
  - assert (In (up', ap') (filter (fun j => user_plant_id (fst j) =? user_plant_id up)
                                  (up_join_ap d))) as Hin
      by (rewrite E; left; reflexivity).
    apply filter_In in Hin as [Hj Hid]. simpl in Hid. apply Z.eqb_eq in Hid.
    unfold up_join_ap in Hj. apply in_flat_map in Hj as (up0 & Hup0 & Hj).
    apply in_map_iff in Hj as (ap0 & Eq & Hap0). inversion Eq; subst up0 ap0.
    apply filter_In in Hap0 as [Hap' Hm']. apply Z.eqb_eq in Hm'.
    assert (up' = up)
      by (apply (key_injective user_plant_id (user_plants d)); assumption).
    subst up'. exists ap'. simpl. auto.
Qed.

End CatalogFacts.

(** ** Updating a plant *)

Section UpdateFacts.

Import PlantService.

Variables (plantId userId : Z) (plantData : PlantData).

Let cond (up : UserPlant) : bool :=
  (user_plant_id up =? plantId) && (user_id up =? userId).

(** What a calm update of an owned, visible plant does to the store. *)
Lemma updatePlant_calm (w : World) (p : UserPlant) :
  Inv.calm w = true ->
  In p (user_plants (db w)) ->
  is_visible_plant plantId userId p = true ->
  exists typeId w' v,
    updatePlant plantId plantData userId w = (Returned v, w')
    /\ v = hd_error (select_plant plantId (db w'))
    /\ Reference.resolved (pd_cultivar plantData) (pd_species plantData)
                          (ai_all_plants (db w)) (all_plants (db w))
                          typeId (all_plants (db w'))
    /\ user_plants (db w')
       = Sql.update cond
           (apply_updateData typeId (pd_plantingTime plantData)
                             (pd_estCropping plantData) (pd_photoUrl plantData))
           (user_plants (db w)).
Proof.
  intros Hc Hp Hvis.
  assert (exists x rest,
            filter (is_visible_plant plantId userId) (user_plants (db w)) = x :: rest)
    as (x & rest & Ex).
  { destruct (filter _ (user_plants (db w))) as [|x rest] eqn:E; [|eauto].
    apply filter_none with (row := p) in E; [congruence | exact Hp]. }
  unfold updatePlant.
  erewrite bind_returned by reflexivity.
  assert (Inv.calm (mkWorld (db w) (Some (db w)) true (tl (tl (tl (faults w))))) = true)
    as Hc3 by calm_solve.
  destruct (findOrCreatePlantType_calm (pd_cultivar plantData) (pd_species plantData)
              _ Hc3) as (typeId & w1 & E1 & Hc1 & Ht1 & Hcn1 & Hsame & Hres).
  cbn [db txn connection] in Ht1, Hcn1, Hsame, Hres.
  destruct Hsame as (Hups & _ & _ & Hai).
  eexists typeId, _, _. split; [|split; [|split]].
  - eapply tryCatchFinally_returned.
    + calm_step. calm_step. calm_step. rewrite Ex.
      erewrite bind_returned by exact E1.
      calm_step. calm_step. calm_step.
      unfold ret. reflexivity.
    + unfold ifConnection, release. cbn [connection]. rewrite Hcn1. reflexivity.
  - reflexivity.
  - cbn. exact Hres.
  - cbn. rewrite Hups. reflexivity.
Qed.

Lemma apply_updateData_keeps_ids (typeId : Z) (t : list UserPlant) :
  map user_plant_id
      (Sql.update cond
         (apply_updateData typeId (pd_plantingTime plantData)
                           (pd_estCropping plantData) (pd_photoUrl plantData)) t)
  = map user_plant_id t.
Proof.
  unfold Sql.update. rewrite map_map. apply map_ext.
  intros up. destruct (cond up); reflexivity.
Qed.

End UpdateFacts.

(** C7. Updating an owned, visible plant replaces its plant type (the one
    the cultivar and species resolve to), planting time and estimated
    cropping; its photo is replaced when a non-empty photo URL is supplied
    and left as it was when the URL is null or empty. *)
Theorem updatePlant_partial_photo
    (plantId userId : Z) (plantData : PlantService.PlantData)
    (w : World) (p : UserPlant) :
  Inv.calm w = true ->
  Inv.user_plant_keys (db w) = true ->
  In p (user_plants (db w)) ->
  PlantService.is_visible_plant plantId userId p = true ->
  exists v w' p',
    PlantService.updatePlant plantId plantData userId w = (Returned (Some v), w')
    /\ filter (fun up => user_plant_id up =? plantId) (user_plants (db w')) = [p']
    /\ user_id p' = userId /\ up_is_deleted p' = false
    /\ planting_time p' = PlantService.pd_plantingTime plantData
    /\ est_cropping p' = Js.numOrNull (PlantService.pd_estCropping plantData)
    /\ (exists ap,
          In ap (all_plants (db w')) /\ plant_id ap = up_plant_id p'
          /\ plant_cultivar ap = PlantService.pd_cultivar plantData
          /\ plant_species ap = PlantService.pd_species plantData
          /\ ap_is_deleted ap = false)
    /\ (Js.truthyStr (PlantService.pd_photoUrl plantData) = false ->
        photo_url p' = photo_url p)
    /\ (Js.truthyStr (PlantService.pd_photoUrl plantData) = true ->
        photo_url p' = PlantService.pd_photoUrl plantData)
    /\ PlantService.id v = plantId
    /\ PlantService.photoUrl v = photo_url p'
    /\ PlantService.plantingTime v = planting_time p'
    /\ PlantService.estCropping v = est_cropping p'.
Proof.
  intros Hc Hk Hp Hvis.
  destruct (updatePlant_calm plantId userId plantData w p Hc Hp Hvis)
    as (typeId & w' & v0 & Erun & -> & Hres & Hups).
  destruct (resolved_in_catalog _ _ _ _ _ _ Hres) as (ap & Hap & Hapid & Hmatch).
  apply matches_plant_type_exact in Hmatch as (Hcul & Hspe & Hdel).
  pose proof Hvis as Hvis'. unfold PlantService.is_visible_plant in Hvis'.
  apply andb_true_iff in Hvis' as [Hvis' Hnd].
  apply andb_true_iff in Hvis' as [Hid Hu].
  apply Z.eqb_eq in Hid, Hu. apply negb_true_iff in Hnd.
  set (set' := PlantService.apply_updateData typeId
                 (PlantService.pd_plantingTime plantData)
                 (PlantService.pd_estCropping plantData)
                 (PlantService.pd_photoUrl plantData)) in *.
  assert (In (set' p) (user_plants (db w'))) as Hp'.
  { rewrite Hups. apply update_In; [exact Hp|]. rewrite Hid, Hu, !Z.eqb_refl. reflexivity. }
  assert (Inv.user_plant_keys (db w') = true) as Hk'.
  { unfold Inv.user_plant_keys in *. rewrite Hups.
    unfold set'. rewrite apply_updateData_keeps_ids. exact Hk. }
  destruct (select_plant_view (db w') (set' p) ap Hk' Hp' Hap Hapid)
    as (ap' & _ & _ & Ehd).
  cbn [user_plant_id set' PlantService.apply_updateData] in Ehd.
  rewrite Hid in Ehd. rewrite Ehd in Erun.
  exists (PlantService.view (set' p, ap')), w', (set' p).
  split; [exact Erun|].
  split.
  { rewrite <- Hid. apply distinct_NoDup in Hk'.
    apply (filter_key_unique user_plant_id (set' p) _ Hk' Hp'). }
  cbn [set' PlantService.apply_updateData PlantService.view user_id up_is_deleted
       planting_time est_cropping photo_url up_plant_id PlantService.id
       PlantService.photoUrl PlantService.plantingTime PlantService.estCropping
       user_plant_id].
  repeat split; try assumption.
  - exists ap. auto.
  - intros ->. reflexivity.
  - intros ->. reflexivity.
Qed.

Lemma updatePlant_partial_photo_witness :
  exists v w' p',
    PlantService.updatePlant 1
      (PlantService.mkPlantData "San Marzano" "Tomato" 20150 (Some 75) (Some EmptyString))
      7 Sample.photo_world
    = (Returned (Some v), w')
    /\ filter (fun up => user_plant_id up =? 1) (user_plants (db w')) = [p']
    /\ up_plant_id p' = 2
    /\ planting_time p' = 20150
    /\ est_cropping p' = Some 75
    /\ photo_url p' = Some "/uploads/roma.jpg"%string.
Proof.
  destruct (updatePlant_partial_photo 1 7
              (PlantService.mkPlantData "San Marzano" "Tomato" 20150 (Some 75) (Some EmptyString))
              Sample.photo_world Sample.pictured
              eq_refl eq_refl (or_introl eq_refl) eq_refl)
    as (v & w' & p' & Erun & Ef & _).
  exists v, w', p'. split; [exact Erun|].
  vm_compute in Erun. inversion Erun; subst w'; clear Erun.
  vm_compute in Ef. inversion Ef; subst p'. repeat split.
Defined.

(** ** Adding a plant *)

Section AddFacts.

Import PlantService.

Variables (plantData : PlantData) (userId : Z).

(** The row [addPlant] inserts for a resolved plant type. *)
Let new_plant (d : DB) (typeId : Z) : UserPlant :=
  mkUserPlant (ai_user_plants d) userId typeId (pd_plantingTime plantData)
              (Js.numOrNull (pd_estCropping plantData)) (pd_photoUrl plantData)
              false.

(** What a calm [addPlant] does to the store. *)
Lemma addPlant_calm (w : World) :
  Inv.calm w = true ->
  exists typeId v w',
    addPlant plantData userId w = (Returned v, w')
    /\ Inv.calm w' = true
    /\ Reference.resolved (pd_cultivar plantData) (pd_species plantData)
                          (ai_all_plants (db w)) (all_plants (db w))
                          typeId (all_plants (db w'))
    /\ user_plants (db w') = user_plants (db w) ++ [new_plant (db w) typeId]
    /\ ai_user_plants (db w') = ai_user_plants (db w) + 1.
Proof.
  intros Hc. unfold addPlant.
  erewrite bind_returned by reflexivity.
  assert (Inv.calm (mkWorld (db w) (Some (db w)) true (tl (tl (faults w)))) = true)
    as Hc2 by calm_solve.
  destruct (findOrCreatePlantType_calm (pd_cultivar plantData) (pd_species plantData)
              _ Hc2) as (typeId & w1 & E1 & Hc1 & Ht1 & Hcn1 & Hsame & Hres).
  cbn [db txn connection] in Ht1, Hcn1, Hsame, Hres.
  destruct Hsame as (Hups & _ & _ & Hai).
  eexists typeId, _, _. split; [|split; [|split; [|split]]].
  - eapply tryCatchFinally_returned.
    + calm_step. calm_step.
      erewrite bind_returned by exact E1.
      calm_step. calm_step. calm_step.
      unfold ret. reflexivity.
    + unfold ifConnection, release. cbn [connection]. rewrite Hcn1. reflexivity.
  - calm_solve.
  - cbn. exact Hres.
  - cbn. rewrite Hups, Hai. reflexivity.
  - cbn. rewrite Hai. reflexivity.
Qed.

End AddFacts.

(** C9. Whatever round trip fails, [addPlant] leaves the rows of the store
    in one of two states: exactly as they were (and the call has thrown),
    or with the new plant appended and the plant type it refers to in the
    catalog, found there or appended by this call. A catalog row without
    its plant, or a plant without its catalog row, is never left behind. *)
Theorem addPlant_atomic
    (plantData : PlantService.PlantData) (userId : Z) (w : World) :
  Hoare.wp (PlantService.addPlant plantData userId)
    (fun o w' =>
       (o = Thrown /\ same_rows (db w') (db w))
       \/ exists typeId,
            Reference.resolved (PlantService.pd_cultivar plantData)
                               (PlantService.pd_species plantData)
                               (ai_all_plants (db w)) (all_plants (db w))
                               typeId (all_plants (db w'))
            /\ user_plants (db w')
               = user_plants (db w)
                 ++ [mkUserPlant (ai_user_plants (db w)) userId typeId
                                 (PlantService.pd_plantingTime plantData)
                                 (Js.numOrNull (PlantService.pd_estCropping plantData))
                                 (PlantService.pd_photoUrl plantData) false]
            /\ plant_reminders (db w') = plant_reminders (db w)
            /\ plant_health (db w') = plant_health (db w))
    w.
Proof.
  match goal with |- Hoare.wp _ ?post _ => set (Q := post) end.
  unfold PlantService.addPlant, PlantService.findOrCreatePlantType.
  repeat first
    [ wp_step
    | lazymatch goal with
      | |- Hoare.wp (match ?x with _ => _ end) _ _ => destruct x eqn:?
      end ].
  all: unfold ifConnection, release; cbn [connection snd db txn faults fst].
  all: subst Q; cbv beta.
  all: try solve [left; split; [reflexivity | unfold same_rows; cbn; repeat split]].
  all: right; eexists; unfold Reference.resolved;
    match goal with H : filter _ _ = _ |- _ => rewrite H end;
    cbn; repeat split.
Qed.

(** C8. Resolving a cultivar and species answers with the id of the first
    active catalog row that carries exactly that cultivar and species, or,
    when there is none, appends such a row and answers with its new id.
    Hence two plants added one after the other with the same cultivar and
    species, by whichever users, refer to the same plant type, and the
    second addition leaves the catalog as the first left it. *)
Theorem catalog_reuse
    (cultivar species : string)
    (time1 : Z) (est1 : option Z) (photo1 : option string) (user1 : Z)
    (time2 : Z) (est2 : option Z) (photo2 : option string) (user2 : Z)
    (w : World) :
  Inv.calm w = true ->
  (forall ap,
     PlantService.matches_plant_type cultivar species ap = true <->
     plant_cultivar ap = cultivar /\ plant_species ap = species
     /\ ap_is_deleted ap = false)
  /\ (exists typeId0 w0,
        PlantService.findOrCreatePlantType cultivar species w = (Returned typeId0, w0)
        /\ Reference.resolved cultivar species (ai_all_plants (db w))
                              (all_plants (db w)) typeId0 (all_plants (db w0)))
  /\ exists typeId v1 w1 v2 w2,
       PlantService.addPlant
         (PlantService.mkPlantData cultivar species time1 est1 photo1) user1 w
         = (Returned v1, w1)
       /\ PlantService.addPlant
            (PlantService.mkPlantData cultivar species time2 est2 photo2) user2 w1
            = (Returned v2, w2)
       /\ Reference.resolved cultivar species (ai_all_plants (db w))
                             (all_plants (db w)) typeId (all_plants (db w1))
       /\ all_plants (db w2) = all_plants (db w1)
       /\ user_plants (db w2)
          = user_plants (db w)
            ++ [mkUserPlant (ai_user_plants (db w)) user1 typeId time1
                            (Js.numOrNull est1) photo1 false;
                mkUserPlant (ai_user_plants (db w) + 1) user2 typeId time2
                            (Js.numOrNull est2) photo2 false].
Proof.
  intros Hc. split; [apply matches_plant_type_exact|]. split.
  - destruct (findOrCreatePlantType_calm cultivar species w Hc)
      as (typeId0 & w0 & E0 & _ & _ & _ & _ & Hres0).
    exists typeId0, w0. split; assumption.
  - destruct (addPlant_calm
                (PlantService.mkPlantData cultivar species time1 est1 photo1) user1 w Hc)
      as (typeId & v1 & w1 & E1 & Hc1 & Hres1 & Hups1 & Hai1).
    destruct (addPlant_calm
                (PlantService.mkPlantData cultivar species time2 est2 photo2) user2 w1 Hc1)
      as (typeId' & v2 & w2 & E2 & _ & Hres2 & Hups2 & _).
    cbn [PlantService.pd_cultivar PlantService.pd_species
         PlantService.pd_plantingTime PlantService.pd_estCropping
         PlantService.pd_photoUrl] in *.
    destruct (resolved_again _ _ _ _ _ _ _ _ _ Hres1 Hres2) as [-> Hcat].
    exists typeId, v1, w1, v2, w2.
    split; [exact E1|]. split; [exact E2|]. split; [exact Hres1|].
    split; [exact Hcat|].
    rewrite Hups2, Hups1, Hai1, <- app_assoc. reflexivity.
Qed.

Lemma catalog_reuse_witness :
  exists typeId v1 w1 v2 w2,
    PlantService.addPlant
      (PlantService.mkPlantData "Roma" "Tomato" 20150 (Some 60) None) 7
      Sample.fresh_world
      = (Returned v1, w1)
    /\ PlantService.addPlant
         (PlantService.mkPlantData "Roma" "Tomato" 20155 None None) 8 w1
         = (Returned v2, w2)
    /\ Reference.resolved "Roma" "Tomato" (ai_all_plants (db Sample.fresh_world))
                          (all_plants (db Sample.fresh_world)) typeId
                          (all_plants (db w1))
    /\ all_plants (db w2) = all_plants (db w1)
    /\ user_plants (db w2)
       = user_plants (db Sample.fresh_world)
         ++ [mkUserPlant (ai_user_plants (db Sample.fresh_world)) 7 typeId 20150
                         (Js.numOrNull (Some 60)) None false;
             mkUserPlant (ai_user_plants (db Sample.fresh_world) + 1) 8 typeId 20155
                         (Js.numOrNull None) None false].
Proof.
  apply (catalog_reuse "Roma" "Tomato" 20150 (Some 60) None 7 20155 None None 8
           Sample.fresh_world).
  reflexivity.
Defined.

(** ** Runs of the model *)

(** The scenario of the specification: a Roma tomato planted on 2025-03-01
    (day 20148), a watering reminder every 3 days from that day, completed
    three days later, at 10:00 UTC on a server that stays two hours east of
    UTC. *)
Example tomato_scenario :
  let added :=
    PlantService.addPlant
      (PlantService.mkPlantData "Roma" "Tomato" 20148 (Some 60) None) 7
      Sample.empty_world in
  let saved :=
    ReminderService.saveReminder (JsDate.fixed 7200000) 1
      (ReminderService.mkReminderData watering 3 (JsDate.Dashed 20148) None) 7
      (snd added) in
  let completed :=
    ReminderService.completeReminder (JsDate.fixed 7200000)
      (JsDate.still (20151 * 86400000 + 36000000)) 1 7 (snd saved) in
  fst added
  = Returned (Some (PlantService.mkPlantView 1 "Roma" "Tomato" 20148 (Some 60) None))
  /\ fst saved
     = Returned (Some (ReminderService.mkReminderView
                         1 watering 20148 3 20151 None None true))
  /\ fst completed
     = Returned (Some (ReminderService.mkReminderView
                         1 watering 20148 3 20154 (Some 20151) None true)).
Proof. vm_compute. repeat split. Qed.

(** A start date written with slashes is local midnight: two hours east of
    UTC that is 22:00 UTC of the day before, and the due date of
    [2025/03/01] with interval 1 is 2025-03-01 itself. *)
Example saveReminder_slashed_start_date :
  fst (ReminderService.saveReminder (JsDate.fixed 7200000) 1
         (ReminderService.mkReminderData watering 1 (JsDate.Slashed 20148) None) 7
         Sample.fresh_world)
  = Returned (Some (ReminderService.mkReminderView
                      10 watering 20148 1 20148 None None true)).
Proof. vm_compute. reflexivity. Qed.

(** An interval of 100000000 days takes the due date past the last time
    value of a [Date]: [toISOString] throws after the ownership query and
    before any write. *)
Example saveReminder_invalid_due_date :
  ReminderService.saveReminder (JsDate.fixed 0) 1
    (ReminderService.mkReminderData watering 100000000 (JsDate.Dashed 20176) None)
    7 Sample.fresh_world
  = (Thrown, Sample.fresh_world).
Proof. vm_compute. reflexivity. Qed.

(** So does a window of 100000000 days, before the query is sent. *)
Example getUpcomingReminders_invalid_window :
  ReminderService.getUpcomingReminders (JsDate.fixed 0)
    (JsDate.still (20176 * 86400000)) 7 (Some 100000000) Sample.week_world
  = (Thrown, Sample.week_world).
Proof. vm_compute. reflexivity. Qed.

(** When midnight UTC passes between the two readings of the clock,
    completion stamps the old day and counts from the new one. *)
Example completeReminder_across_midnight :
  fst (ReminderService.completeReminder (JsDate.fixed 0)
         (fun k => match k with
                   | O => 20177 * 86400000 - 1
                   | _ => 20177 * 86400000
                   end)
         1 7 Sample.overdue_world)
  = Returned (Some (ReminderService.mkReminderView
                      1 watering 20148 3 20180 (Some 20176) None true)).
Proof. vm_compute. reflexivity. Qed.

(** Outside the reachable stores a save does not restore the invariant: of
    two active reminders of the type it overwrites the first and leaves the
    second as it was. *)
Example saveReminder_overwrites_first_only :
  map (fun r => (reminder_id r, interval_days r, next_reminder r, is_active r))
      (plant_reminders
         (db (snd (ReminderService.saveReminder (JsDate.fixed 0) 1
                     (ReminderService.mkReminderData watering 5
                        (JsDate.Dashed 20151) None) 7
                     Sample.duplicate_world))))
  = [ (1, 5, 20156, true); (2, 3, 20151, true) ].
Proof. vm_compute. reflexivity. Qed.

(** A fault between the two inserts of [addPlant] leaves no catalog row
    behind; only the AUTO_INCREMENT value is spent. *)
Example addPlant_fault_after_catalog_insert :
  let w := mkWorld (db Sample.empty_world) None false
                   [false; false; false; false; true] in
  PlantService.addPlant
    (PlantService.mkPlantData "Roma" "Tomato" 20148 (Some 60) None) 7 w
  = (Thrown, mkWorld (mkDB [] [] [] [] 2 1 1 1) None false []).
Proof. vm_compute. reflexivity. Qed.

(** * Further properties of the services *)

(** ** Listing the reminders of a plant *)

Section ListFacts.

Import ReminderService.

(** X1. For an owned, visible plant [getPlantReminders] leaves the store
    alone and answers with the active reminders of that plant, each once,
    soonest first. *)
Theorem getPlantReminders_active_sorted (plantId userId : Z) (w : World) :
  Inv.calm w = true ->
  Reference.owns_visible (db w) userId plantId = true ->
  exists l w',
    getPlantReminders plantId userId w = (Returned (Some l), w')
    /\ db w' = db w
    /\ Sorted (Sql.ascending nextReminder) l
    /\ Permutation l
         (map format
              (filter (Schedule.active_of_plant plantId) (plant_reminders (db w))))
    /\ Forall (fun v => isActive v = true) l.
Proof.
  intros Hc Hov.
  destruct (select_plant_owned _ _ _ Hov) as (up & rest & Ep).
  unfold getPlantReminders. calm_step. rewrite Ep. calm_step.
  eexists. eexists. split; [reflexivity|]. cbn [db].
  split; [reflexivity|].
  split.
  { apply sorted_map.
    eapply sorted_weaken; [|apply order_by_asc_sorted].
    intros a b H. exact H. }
  assert (Permutation
            (map format
               (Sql.order_by_asc next_reminder
                  (filter (fun r => (r_user_plant_id r =? plantId) && is_active r)
                          (plant_reminders (db w)))))
            (map format
               (filter (Schedule.active_of_plant plantId) (plant_reminders (db w)))))
    as P by (apply Permutation_map, order_by_asc_perm).
  split; [exact P|].
  apply Forall_forall. intros v Hv.
  apply (Permutation_in _ P) in Hv.
  apply in_map_iff in Hv as (r & <- & Hr).
  apply filter_In in Hr as [_ Hr]. unfold Schedule.active_of_plant in Hr.
  apply andb_true_iff in Hr as [_ Hr]. exact Hr.
Qed.

Lemma getPlantReminders_active_sorted_witness :
  exists l w',
    getPlantReminders 1 7 Sample.week_world = (Returned (Some l), w')
    /\ map id l = [3; 1; 2].
Proof.
  destruct (getPlantReminders_active_sorted 1 7 Sample.week_world eq_refl eq_refl)
    as (l & w' & E & _).
  exists l, w'. split; [exact E|].
  vm_compute in E. inversion E. reflexivity.
Defined.

End ListFacts.

(** ** Calls on plants the user cannot see *)

Section GuardFacts.

Variables (plantId userId : Z).

Lemma owns_visible_forgotten (w : World) :
  Reference.owns_visible (db (Reference.forget_plant plantId w)) userId plantId = false.
Proof.
  unfold Reference.owns_visible.
  destruct (existsb _ _) eqn:E; [|reflexivity].
  apply existsb_exists in E as (up & Hup & Hc).
  pose proof (forgotten_plant_selects_nothing plantId userId w _
                (is_visible_plant_ids plantId userId)) as En.
  apply filter_none with (row := up) in En; [congruence | exact Hup].
Qed.

(** A service that first looks the plant up and gives up when it is not
    there. *)
Lemma guarded_by_plant {A : Type} (k : list UserPlant -> M (option A)) (w : World) :
  Reference.owns_visible (db w) userId plantId = false ->
  k [] = ret None ->
  fst (bind (query (select (ReminderService.select_plant plantId userId))) k w)
  = Reference.outcome_of None 1 w
  /\ same_rows
       (db (snd (bind (query (select (ReminderService.select_plant plantId userId))) k w)))
       (db w).
Proof.
  intros Hov Hk. apply select_plant_foreign in Hov.
  unfold bind, query, select, Reference.outcome_of, next_fault, Inv.quiet.
  destruct (faults w) as [|[] fs]; simpl; rewrite ?Hov, ?Hk; simpl; split;
    reflexivity || apply same_rows_refl.
Qed.

Lemma refused_by_plant {A : Type} (k : list UserPlant -> M (option A)) (w : World) :
  Reference.owns_visible (db w) userId plantId = false ->
  k [] = ret None ->
  Reference.refused None
    (bind (query (select (ReminderService.select_plant plantId userId))) k)
    plantId w.
Proof.
  intros Hov Hk.
  apply refused_of_outcome with (k := 1%nat).
  - apply guarded_by_plant; assumption.
  - apply guarded_by_plant; [apply owns_visible_forgotten | exact Hk].
  - apply guarded_by_plant; assumption.
Qed.

End GuardFacts.

(** X2. Every reminder and health call that names a plant is refused when
    the user has no visible plant of that id, be it another user's, a
    soft-deleted one or none at all: the answer is null (or the call throws
    on a fault), no row changes, and the answer is the one given when the
    plant row does not exist. *)
Theorem plant_scoped_calls_refused
    (tz : JsDate.Zone) (now plantId userId : Z)
    (reminderData : ReminderService.ReminderData)
    (text : string) (w : World) :
  Reference.owns_visible (db w) userId plantId = false ->
  Reference.refused None (ReminderService.getPlantReminders plantId userId) plantId w
  /\ Reference.refused None
       (ReminderService.saveReminder tz plantId reminderData userId) plantId w
  /\ Reference.refused None
       (HealthService.getPlantHealthRemarks plantId userId) plantId w
  /\ Reference.refused None
       (HealthService.addHealthRemark now plantId text userId) plantId w
  /\ Reference.refused None
       (HealthService.getLatestHealthRemark plantId userId) plantId w.
Proof.
  intros Hov.
  repeat split; try (apply refused_by_plant; [exact Hov | reflexivity]).
Qed.

Lemma plant_scoped_calls_refused_witness :
  Reference.refused None (ReminderService.getPlantReminders 1 8) 1 Sample.week_world
  /\ Reference.refused None
       (ReminderService.saveReminder (JsDate.fixed 0) 1
          (ReminderService.mkReminderData watering 2 (JsDate.Dashed 20160) None) 8)
       1 Sample.week_world
  /\ Reference.refused None (HealthService.getPlantHealthRemarks 1 8) 1 Sample.week_world
  /\ Reference.refused None
       (HealthService.addHealthRemark 0 1 "aphids" 8) 1 Sample.week_world
  /\ Reference.refused None (HealthService.getLatestHealthRemark 1 8) 1 Sample.week_world.
Proof.
  apply (plant_scoped_calls_refused (JsDate.fixed 0) 0 1 8
           (ReminderService.mkReminderData watering 2 (JsDate.Dashed 20160) None) "aphids"
           Sample.week_world).
  reflexivity.
Defined.

(** ** Calls on reminders and remarks of plants the user cannot see *)

Section IdGuardFacts.

Lemma select_owned_remark_In (remarkId userId : Z) (d : DB) (x : HealthRemark) :
  In x (HealthService.select_owned_remark remarkId userId d) <->
  In x (plant_health d) /\ health_id x = remarkId
  /\ Reference.owns_visible d userId (h_user_plant_id x) = true.
Proof.
  unfold HealthService.select_owned_remark, Reference.owns_visible,
    PlantService.is_visible_plant, PlantService.owned_visible.
  rewrite in_map_iff. split.
  - intros ([h up] & <- & Hj). simpl.
    apply filter_In in Hj as [Hj Hc]. simpl in Hc.
    apply in_flat_map in Hj as (h0 & Hh0 & Hj).
    apply in_map_iff in Hj as (up0 & E & Hup). inversion E; subst h0 up0.
    apply filter_In in Hup as [Hup Hm].
    apply andb_true_iff in Hc as [Hid Hov].
    apply Z.eqb_eq in Hid, Hm.
    repeat split; [exact Hh0 | exact Hid |].
    apply existsb_exists. exists up. split; [exact Hup|].
    rewrite <- Hm, Z.eqb_refl. exact Hov.
  - intros (Hx & Hid & Hex).
    apply existsb_exists in Hex as (up & Hup & Hc).
    apply andb_true_iff in Hc as [Hc Hdel].
    apply andb_true_iff in Hc as [Hm Hu].
    exists (x, up). split; [reflexivity|].
    apply filter_In. simpl. split.
    + apply in_flat_map. exists x. split; [exact Hx|].
      apply in_map. apply filter_In. split; [exact Hup|].
      rewrite Z.eqb_sym. exact Hm.
    + rewrite Hu, Hdel. apply Z.eqb_eq in Hid. rewrite Hid. reflexivity.
Qed.

(** A service that first runs an ownership query and gives up when it
    finds nothing. *)
Lemma guarded_by_query {A B : Type} (rows : DB -> list A) (deny : B)
    (k : list A -> M B) (w : World) :
  rows (db w) = [] ->
  k [] = ret deny ->
  fst (bind (query (select rows)) k w) = Reference.outcome_of deny 1 w
  /\ same_rows (db (snd (bind (query (select rows)) k w))) (db w).
Proof.
  intros Hrows Hk.
  unfold bind, query, select, Reference.outcome_of, next_fault, Inv.quiet.
  destruct (faults w) as [|[] fs]; simpl; rewrite ?Hrows, ?Hk; simpl; split;
    reflexivity || apply same_rows_refl.
Qed.

Lemma nothing_selected {A : Type} (l : list A) :
  (forall x, ~ In x l) -> l = [].
Proof.
  destruct l as [|x l]; [reflexivity|]. intros H.
  exfalso. apply (H x). left. reflexivity.
Qed.

End IdGuardFacts.

(** X3. Completing or deleting a reminder is refused when no reminder of
    that id belongs to a plant the user can see (another user's plant, a
    soft-deleted plant, an unknown id): the answer is null, respectively
    false, unless the one round trip throws, and no row changes. *)
Theorem foreign_reminder_calls_refused
    (tz : JsDate.Zone) (now : JsDate.Clock) (reminderId userId : Z) (w : World) :
  (forall r, In r (plant_reminders (db w)) -> reminder_id r = reminderId ->
             Reference.owns_visible (db w) userId (r_user_plant_id r) = false) ->
  fst (ReminderService.completeReminder tz now reminderId userId w)
  = Reference.outcome_of None 1 w
  /\ same_rows
       (db (snd (ReminderService.completeReminder tz now reminderId userId w))) (db w)
  /\ fst (ReminderService.deleteReminder reminderId userId w)
     = Reference.outcome_of false 1 w
  /\ same_rows (db (snd (ReminderService.deleteReminder reminderId userId w))) (db w).
Proof.
  intros Hno.
  assert (ReminderService.select_owned_reminder reminderId userId (db w) = []) as E.
  { apply nothing_selected. intros x Hx.
    apply select_owned_reminder_In in Hx as (Hx & Hid & Hov).
    rewrite (Hno x Hx Hid) in Hov. discriminate. }
  destruct (guarded_by_query
              (ReminderService.select_owned_reminder reminderId userId) None
              _ w E eq_refl
            : _ /\ same_rows
                     (db (snd (ReminderService.completeReminder tz now reminderId
                                 userId w))) (db w)) as [Hc1 Hc2].
  destruct (guarded_by_query
              (ReminderService.select_owned_reminder reminderId userId) false
              _ w E eq_refl
            : _ /\ same_rows
                     (db (snd (ReminderService.deleteReminder reminderId userId w)))
                     (db w)) as [Hd1 Hd2].
  exact (conj Hc1 (conj Hc2 (conj Hd1 Hd2))).
Qed.

Lemma foreign_reminder_calls_refused_witness :
  fst (ReminderService.completeReminder (JsDate.fixed 0) (JsDate.still 0) 1 8
         Sample.week_world)
  = Reference.outcome_of None 1 Sample.week_world
  /\ same_rows
       (db (snd (ReminderService.completeReminder (JsDate.fixed 0)
                   (JsDate.still 0) 1 8 Sample.week_world)))
       (db Sample.week_world)
  /\ fst (ReminderService.deleteReminder 1 8 Sample.week_world)
     = Reference.outcome_of false 1 Sample.week_world
  /\ same_rows (db (snd (ReminderService.deleteReminder 1 8 Sample.week_world)))
               (db Sample.week_world).
Proof.
  apply (foreign_reminder_calls_refused (JsDate.fixed 0) (JsDate.still 0) 1 8
           Sample.week_world).
  intros r Hr _. simpl in Hr.
  destruct Hr as [<-|[<-|[<-|[]]]]; reflexivity.
Defined.

(** X4. Editing or deleting a health remark is refused in the same way
    when no remark of that id belongs to a plant the user can see. *)
Theorem foreign_remark_calls_refused
    (remarkId userId : Z) (text : string) (w : World) :
  (forall h, In h (plant_health (db w)) -> health_id h = remarkId ->
             Reference.owns_visible (db w) userId (h_user_plant_id h) = false) ->
  fst (HealthService.updateHealthRemark remarkId text userId w)
  = Reference.outcome_of None 1 w
  /\ same_rows
       (db (snd (HealthService.updateHealthRemark remarkId text userId w))) (db w)
  /\ fst (HealthService.deleteHealthRemark remarkId userId w)
     = Reference.outcome_of false 1 w
  /\ same_rows (db (snd (HealthService.deleteHealthRemark remarkId userId w))) (db w).
Proof.
  intros Hno.
  assert (HealthService.select_owned_remark remarkId userId (db w) = []) as E.
  { apply nothing_selected. intros x Hx.
    apply select_owned_remark_In in Hx as (Hx & Hid & Hov).
    rewrite (Hno x Hx Hid) in Hov. discriminate. }
  destruct (guarded_by_query
              (HealthService.select_owned_remark remarkId userId) None
              _ w E eq_refl
            : _ /\ same_rows
                     (db (snd (HealthService.updateHealthRemark remarkId text
                                 userId w))) (db w)) as [Hu1 Hu2].
  destruct (guarded_by_query
              (HealthService.select_owned_remark remarkId userId) false
              _ w E eq_refl
            : _ /\ same_rows
                     (db (snd (HealthService.deleteHealthRemark remarkId userId w)))
                     (db w)) as [Hd1 Hd2].
  exact (conj Hu1 (conj Hu2 (conj Hd1 Hd2))).
Qed.

Lemma foreign_remark_calls_refused_witness :
  fst (HealthService.updateHealthRemark 1 "fine" 8 Sample.remarks_world)
  = Reference.outcome_of None 1 Sample.remarks_world
  /\ same_rows
       (db (snd (HealthService.updateHealthRemark 1 "fine" 8 Sample.remarks_world)))
       (db Sample.remarks_world)
  /\ fst (HealthService.deleteHealthRemark 1 8 Sample.remarks_world)
     = Reference.outcome_of false 1 Sample.remarks_world
  /\ same_rows (db (snd (HealthService.deleteHealthRemark 1 8 Sample.remarks_world)))
               (db Sample.remarks_world).
Proof.
  apply (foreign_remark_calls_refused 1 8 "fine" Sample.remarks_world).
  intros h Hh _. simpl in Hh.
  destruct Hh as [<-|[<-|[]]]; reflexivity.
Defined.

(** ** Deleting a reminder *)

Section DeleteReminderFacts.

Import ReminderService.

Lemma update_keeps_others {A : Type} (cond : A -> bool) (set : A -> A)
    (t : list A) (x : A) :
  In x t -> cond x = false -> In x (Sql.update cond set t).
Proof.
  intros Hx Hc. unfold Sql.update. apply in_map_iff.
  exists x. rewrite Hc. split; [reflexivity | exact Hx].
Qed.

Lemma update_origin {A : Type} (cond : A -> bool) (set : A -> A)
    (t : list A) (y : A) :
  In y (Sql.update cond set t) ->
  exists x, In x t /\ y = if cond x then set x else x.
Proof.
  unfold Sql.update. intros Hy. apply in_map_iff in Hy as (x & <- & Hx).
  exists x. split; [exact Hx | reflexivity].
Qed.

(** What a calm deletion of an authorised reminder does. *)
Lemma deleteReminder_run (userId : Z) (w : World) (r : Reminder) :
  Inv.calm w = true ->
  In r (plant_reminders (db w)) ->
  Reference.owns_visible (db w) userId (r_user_plant_id r) = true ->
  deleteReminder (reminder_id r) userId w =
  (Returned true,
   mkWorld
     (set_plant_reminders
        (Sql.update (fun x => reminder_id x =? reminder_id r) deactivate
                    (plant_reminders (db w)))
        (ai_plant_reminders (db w)) (db w))
     (txn w) (connection w) (tl (tl (faults w)))).
Proof.
  intros Hc Hr Hov.
  assert (In r (select_owned_reminder (reminder_id r) userId (db w))) as Hin
    by (apply select_owned_reminder_In; auto).
  unfold deleteReminder. calm_step.
  destruct (select_owned_reminder (reminder_id r) userId (db w)) as [|x rest];
    [contradiction|].
  calm_step. unfold ret. f_equal. f_equal. apply Z.ltb_lt.
  unfold Sql.affectedRows.
  destruct (filter _ (plant_reminders (db w))) as [|y ys] eqn:E; [|simpl; lia].
  apply filter_none with (row := r) in E; [|exact Hr].
  rewrite Z.eqb_refl in E. discriminate.
Qed.

(** A deletion that answered true has switched off every row of that id. *)
Lemma deleteReminder_true (reminderId userId : Z) (w w1 : World) :
  deleteReminder reminderId userId w = (Returned true, w1) ->
  plant_reminders (db w1)
  = Sql.update (fun x => reminder_id x =? reminderId) deactivate
               (plant_reminders (db w))
  /\ user_plants (db w1) = user_plants (db w)
  /\ all_plants (db w1) = all_plants (db w).
Proof.
  unfold deleteReminder, bind, query, select, ret.
  destruct (next_fault w); [discriminate|]. cbn [fst snd].
  destruct (select_owned_reminder reminderId userId (db w)); [discriminate|].
  destruct (next_fault _); [discriminate|].
  intros E. inversion E. cbn. auto.
Qed.

End DeleteReminderFacts.

(** X5. Deleting a reminder of an owned, visible plant answers true and
    only switches the row off: it stays in the table with its dates,
    interval, notes and completion history, and every other reminder is
    left as it was. *)
Theorem deleteReminder_soft_delete (userId : Z) (w : World) (r : Reminder) :
  Inv.calm w = true ->
  Inv.reminder_keys (db w) = true ->
  In r (plant_reminders (db w)) ->
  Reference.owns_visible (db w) userId (r_user_plant_id r) = true ->
  exists w' r',
    ReminderService.deleteReminder (reminder_id r) userId w = (Returned true, w')
    /\ ReminderService.select_reminder (reminder_id r) (db w') = [r']
    /\ is_active r' = false
    /\ next_reminder r' = next_reminder r
    /\ last_completed r' = last_completed r
    /\ start_date r' = start_date r
    /\ interval_days r' = interval_days r
    /\ notes r' = notes r
    /\ reminder_type r' = reminder_type r
    /\ r_user_plant_id r' = r_user_plant_id r
    /\ List.length (plant_reminders (db w')) = List.length (plant_reminders (db w))
    /\ (forall x, In x (plant_reminders (db w)) -> reminder_id x <> reminder_id r ->
                  In x (plant_reminders (db w'))).
Proof.
  intros Hc Hk Hr Hov.
  eexists. exists (ReminderService.deactivate r).
  split; [apply deleteReminder_run; assumption|]. cbn [db].
  split; [apply select_reminder_update; [assumption | assumption | reflexivity]|].
  cbn [ReminderService.deactivate is_active next_reminder last_completed start_date
       interval_days notes reminder_type r_user_plant_id plant_reminders
       set_plant_reminders].
  do 8 (split; [reflexivity|]).
  split; [apply update_length|].
  intros x Hx Hne. apply update_keeps_others; [exact Hx|].
  apply Z.eqb_neq. exact Hne.
Qed.

Lemma deleteReminder_soft_delete_witness :
  exists w' r',
    ReminderService.deleteReminder 1 7 Sample.overdue_world = (Returned true, w')
    /\ ReminderService.select_reminder 1 (db w') = [r']
    /\ is_active r' = false
    /\ next_reminder r' = 20151.
Proof.
  destruct (deleteReminder_soft_delete 7 Sample.overdue_world Sample.overdue
              eq_refl eq_refl (or_introl eq_refl) eq_refl)
    as (w' & r' & E & Es & Ha & En & _).
  exists w', r'. auto.
Defined.

(** ** A deleted reminder in the listings *)

Section DeletedListingFacts.

Import ReminderService.

(** Every row of the upcoming list shows an active reminder. *)
Lemma select_upcoming_active (userId today futureDate : Z) (d : DB)
    (u : UpcomingView) :
  In u (select_upcoming userId today futureDate d) ->
  exists r, In r (plant_reminders d) /\ is_active r = true
            /\ u_id u = reminder_id r.
Proof.
  unfold select_upcoming. intros Hu.
  apply in_map_iff in Hu as ([[r up] ap] & <- & Hj).
  apply (Permutation_in _ (order_by_asc_perm _ _)) in Hj.
  apply filter_In in Hj as [Hj Hc].
  unfold r_join_up_join_ap, r_join_up in Hj.
  apply in_flat_map in Hj as ([r0 up0] & Hj & Hap).
  apply in_map_iff in Hap as (ap0 & Eq & _). inversion Eq; subst r0 up0 ap0.
  apply in_flat_map in Hj as (r0 & Hr & Hj).
  apply in_map_iff in Hj as (up0 & Eq' & _). inversion Eq'; subst r0 up0.
  exists r. split; [exact Hr|]. split; [|reflexivity].
  unfold upcoming_where in Hc.
  apply andb_true_iff in Hc as [Hc _]. apply andb_true_iff in Hc as [_ Hc].
  exact Hc.
Qed.

(** An answer of [getUpcomingReminders] is the answer of its one query. *)
Lemma getUpcomingReminders_returned (tz : JsDate.Zone) (now : JsDate.Clock)
    (userId : Z) (days : option Z) (w w' : World) (rows : list UpcomingView) :
  getUpcomingReminders tz now userId days w = (Returned rows, w') ->
  exists today futureDate,
    rows = select_upcoming userId today futureDate (db w).
Proof.
  unfold getUpcomingReminders, bind, toISODateString, ret, throw, query, select.
  cbn [JsDate.toISODate JsDate.current].
  destruct (JsDate.toISODate _) as [futureDate|]; [|discriminate].
  destruct (next_fault w); [discriminate|].
  intros E. inversion E. eauto.
Qed.

Lemma deactivated_rows_inactive (reminderId : Z) (t : list Reminder) (y : Reminder) :
  In y (Sql.update (fun x => reminder_id x =? reminderId) deactivate t) ->
  reminder_id y = reminderId ->
  is_active y = false.
Proof.
  intros Hy Hid. apply update_origin in Hy as (x & _ & ->).
  destruct (Z.eqb_spec (reminder_id x) reminderId) as [_|Hne].
  - reflexivity.
  - contradiction.
Qed.

End DeletedListingFacts.

(** X6. Once a deletion has answered true, no listing shows the reminder
    any more: neither the reminders of any plant nor the upcoming reminders
    of any user and window contain its id. *)
Theorem deleted_reminder_not_listed
    (reminderId userId : Z) (w w1 : World) :
  ReminderService.deleteReminder reminderId userId w = (Returned true, w1) ->
  forall w2, db w2 = db w1 ->
    (forall plantId anyUser l w3,
       ReminderService.getPlantReminders plantId anyUser w2 = (Returned (Some l), w3) ->
       ~ In reminderId (map ReminderService.id l))
    /\ (forall tz now anyUser days rows w3,
          ReminderService.getUpcomingReminders tz now anyUser days w2
          = (Returned rows, w3) ->
          ~ In reminderId (map ReminderService.u_id rows)).
Proof.
  intros Hdel w2 Hdb.
  apply deleteReminder_true in Hdel as (Ht & _ & _).
  split.
  - intros plantId anyUser l w3 Hrun Hin.
    unfold ReminderService.getPlantReminders, bind, query, select, ret in Hrun.
    destruct (next_fault w2); [discriminate|]. cbn [fst snd] in Hrun.
    destruct (ReminderService.select_plant plantId anyUser (db w2)); [discriminate|].
    destruct (next_fault _); [discriminate|].
    inversion Hrun; subst l; clear Hrun.
    apply in_map_iff in Hin as (v & Hv & Hin).
    apply in_map_iff in Hin as (y & <- & Hy). simpl in Hv.
    apply (Permutation_in _ (order_by_asc_perm _ _)) in Hy.
    apply filter_In in Hy as [Hy Hact].
    apply andb_true_iff in Hact as [_ Hact].
    rewrite Hdb, Ht in Hy.
    rewrite (deactivated_rows_inactive reminderId _ y Hy Hv) in Hact. discriminate.
  - intros tz now anyUser days rows w3 Hrun Hin.
    apply getUpcomingReminders_returned in Hrun as (today & futureDate & ->).
    apply in_map_iff in Hin as (u & Hu & Hin).
    apply select_upcoming_active in Hin as (y & Hy & Hact & Hid).
    rewrite Hdb, Ht in Hy.
    rewrite (deactivated_rows_inactive reminderId _ y Hy) in Hact; congruence.
Qed.

Lemma deleted_reminder_not_listed_witness :
  exists l w3,
    ReminderService.getPlantReminders 1 7
      (snd (ReminderService.deleteReminder 1 7 Sample.week_world))
    = (Returned (Some l), w3)
    /\ ~ In 1 (map ReminderService.id l).
Proof.
  eexists. eexists. split; [reflexivity|].
  destruct (deleted_reminder_not_listed 1 7 Sample.week_world
              (snd (ReminderService.deleteReminder 1 7 Sample.week_world))
              eq_refl
              (snd (ReminderService.deleteReminder 1 7 Sample.week_world))
              eq_refl) as [Hlist _].
  exact (Hlist 1 7 _ _ eq_refl).
Defined.

(** ** Saving again, and saving after a deletion *)

Section ResaveFacts.

Import ReminderService.



End ResaveFacts.





(** X9. Completing a reminder, when the new due date is a valid date of
    the years 0000 to 9999, changes its two dates and nothing else: the row
    keeps its id, start date, interval, notes, type, plant and active flag,
    and every other reminder and every other table is left as it was. *)
Theorem completeReminder_touches_one_row
    (tz : JsDate.Zone) (now : JsDate.Clock) (userId next : Z) (w : World)
    (r : Reminder) :
  Inv.calm w = true ->
  Inv.reminder_keys (db w) = true ->
  In r (plant_reminders (db w)) ->
  Reference.owns_visible (db w) userId (r_user_plant_id r) = true ->
  JsDate.toISODate
    (JsDate.addLocalDays tz (JsDate.current (now 1%nat)) (interval_days r))
  = Some next ->
  JsDate.fourDigitYear next = true ->
  exists r' w',
    ReminderService.completeReminder tz now (reminder_id r) userId w
    = (Returned (Some (ReminderService.format r')), w')
    /\ ReminderService.select_reminder (reminder_id r) (db w') = [r']
    /\ last_completed r' = Some (JsDate.Day (now 0%nat))
    /\ next_reminder r' = next
    /\ reminder_id r' = reminder_id r
    /\ start_date r' = start_date r
    /\ interval_days r' = interval_days r
    /\ notes r' = notes r
    /\ reminder_type r' = reminder_type r
    /\ r_user_plant_id r' = r_user_plant_id r
    /\ is_active r' = is_active r
    /\ List.length (plant_reminders (db w')) = List.length (plant_reminders (db w))
    /\ (forall x, In x (plant_reminders (db w)) -> reminder_id x <> reminder_id r ->
                  In x (plant_reminders (db w')))
    /\ all_plants (db w') = all_plants (db w)
    /\ user_plants (db w') = user_plants (db w)
    /\ plant_health (db w') = plant_health (db w).
Proof.
  intros Hc Hk Hr Hov Hnext _.
  eexists. eexists.
  split; [apply (completeReminder_run tz now userId next); assumption|]. cbn [db].
  split; [apply select_reminder_update; [assumption | assumption | reflexivity]|].
  cbn [ReminderService.complete reminder_id last_completed next_reminder
       start_date interval_days notes reminder_type r_user_plant_id
       is_active plant_reminders set_plant_reminders all_plants user_plants
       plant_health].
  do 9 (split; [reflexivity|]).
  split; [apply update_length|].
  split; [|repeat split].
  intros x Hx Hne. apply update_keeps_others; [exact Hx|].
  apply Z.eqb_neq. exact Hne.
Qed.

Lemma completeReminder_touches_one_row_witness :
  exists r' w',
    ReminderService.completeReminder (JsDate.fixed 0)
      (JsDate.still (20170 * 86400000)) 1 7 Sample.week_world
    = (Returned (Some (ReminderService.format r')), w')
    /\ ReminderService.select_reminder 1 (db w') = [r']
    /\ start_date r' = 20160
    /\ interval_days r' = 7
    /\ next_reminder r' = 20177
    /\ List.length (plant_reminders (db w')) = 3%nat.
Proof.
  destruct (completeReminder_touches_one_row (JsDate.fixed 0)
              (JsDate.still (20170 * 86400000)) 7 20177
              Sample.week_world
              (mkReminder 1 1 watering 20160 7 20167 None None true)
              eq_refl eq_refl (or_introl eq_refl) eq_refl eq_refl eq_refl)
    as (r' & w' & E & Es & _ & Hn & _ & Hs & Hi & _ & _ & _ & _ & Hl & _).
  exists r', w'. exact (conj E (conj Es (conj Hs (conj Hi (conj Hn Hl))))).
Defined.

(** ** The reminder table in every reachable store *)

Section KeyInvariant.

Import ReminderService.

(** Unique ids below the counter. *)
Let good (t : list Reminder) (counter : Z) : Prop :=
  NoDup (map reminder_id t)
  /\ Forall (fun r => reminder_id r < counter) t.

Let settled (w : World) : Prop :=
  good (plant_reminders (db w)) (ai_plant_reminders (db w)) /\ txn w = None.

Let keeps {A : Type} (m : M A) : Prop :=
  forall w, settled w -> Hoare.wp m (fun _ w' => settled w') w.

Lemma good_update (cond : Reminder -> bool) (set : Reminder -> Reminder)
    (t : list Reminder) (counter : Z) :
  (forall x, reminder_id (set x) = reminder_id x) ->
  good t counter -> good (Sql.update cond set t) counter.
Proof.
  intros Hid (Hnd & Hlt).
  assert (map reminder_id (Sql.update cond set t) = map reminder_id t) as Eids.
  { unfold Sql.update. rewrite map_map. apply map_ext.
    intros x. destruct (cond x); [apply Hid | reflexivity]. }
  split; [rewrite Eids; exact Hnd|].
  rewrite Forall_forall in Hlt.
  apply Forall_forall; intros y Hy.
  apply update_origin in Hy as (x & Hx & ->).
  destruct (cond x) eqn:Ec; auto.
  rewrite Hid. auto.
Qed.

Lemma NoDup_snoc (l : list Z) (a : Z) :
  NoDup l -> ~ In a l -> NoDup (l ++ [a]).
Proof.
  induction l as [|x l IH]; simpl; intros Hnd Ha.
  - constructor; [intros [] | constructor].
  - inversion Hnd as [|? ? Hx Hl]; subst. constructor.
    + intros Hin. apply in_app_or in Hin as [Hin|[<-|[]]]; [contradiction|].
      apply Ha. left. reflexivity.
    + apply IH; [exact Hl|]. intros Hin. apply Ha. right. exact Hin.
Qed.

Lemma good_insert (t : list Reminder) (counter : Z) (new : Reminder) :
  reminder_id new = counter ->
  good t counter -> good (t ++ [new]) (counter + 1).
Proof.
  intros Hid (Hnd & Hlt). rewrite Forall_forall in Hlt.
  split.
  - rewrite map_app. simpl. apply NoDup_snoc; [exact Hnd|].
    intros Hin. apply in_map_iff in Hin as (x & Ex & Hx).
    specialize (Hlt x Hx). lia.
  - apply Forall_app. split.
    + apply Forall_forall. intros x Hx. specialize (Hlt x Hx). lia.
    + constructor; [lia | constructor].
Qed.

Ltac settle :=
  split; [cbn [db plant_reminders ai_plant_reminders set_plant_reminders];
          assumption
         | cbn [txn]; assumption].

Lemma settled_saveReminder tz plantId data userId :
  keeps (saveReminder tz plantId data userId).
Proof.
  intros w [Hg Ht]. unfold saveReminder.
  wp_step. wp_step; [settle|].
  destruct (select_plant plantId userId (db w)); [wp_step; settle|].
  wp_step. wp_step.
  destruct (JsDate.toISODate _) as [next|]; [|settle].
  wp_step. wp_step; [settle|].
  destruct (filter (active_of plantId (rd_type data)) (plant_reminders (db w)))
    as [|existing others].
  - wp_step. wp_step. wp_step; [settle|].
    cbn [insert_reminder fst snd].
    match goal with
    | |- context [plant_reminders (db w) ++ [?new]] =>
        assert (good (plant_reminders (db w) ++ [new])
                     (ai_plant_reminders (db w) + 1)) as Hnew
    end.
    { apply good_insert; [reflexivity | exact Hg]. }
    wp_step; [settle|]. wp_step. settle.
  - wp_step. wp_step. wp_step; [settle|].
    cbn [update_reminder fst snd].
    match goal with
    | |- context [Sql.update ?c ?s (plant_reminders (db w))] =>
        assert (good (Sql.update c s (plant_reminders (db w)))
                     (ai_plant_reminders (db w))) as Hnew
    end.
    { apply good_update; [reflexivity | exact Hg]. }
    wp_step; [settle|]. wp_step. settle.
Qed.

Lemma settled_completeReminder tz now reminderId userId :
  keeps (completeReminder tz now reminderId userId).
Proof.
  intros w [Hg Ht]. unfold completeReminder.
  wp_step. wp_step; [settle|].
  destruct (select_owned_reminder reminderId userId (db w)) as [|reminder rest];
    [wp_step; settle|].
  wp_step. wp_step.
  destruct (JsDate.toISODate _) as [today|]; [|settle].
  wp_step. wp_step.
  destruct (JsDate.toISODate _) as [next|]; [|settle].
  wp_step. wp_step; [settle|].
  cbn [plant_reminders set_plant_reminders ai_plant_reminders].
  match goal with
  | |- context [Sql.update ?c ?s (plant_reminders (db w))] =>
      assert (good (Sql.update c s (plant_reminders (db w)))
                   (ai_plant_reminders (db w))) as Hnew
  end.
  { apply good_update; [reflexivity | exact Hg]. }
  wp_step. wp_step; [settle|]. wp_step. settle.
Qed.

Lemma settled_deleteReminder reminderId userId :
  keeps (deleteReminder reminderId userId).
Proof.
  intros w [Hg Ht]. unfold deleteReminder.
  wp_step. wp_step; [settle|].
  destruct (select_owned_reminder reminderId userId (db w));
    [wp_step; settle|].
  wp_step. wp_step; [settle|].
  cbn [plant_reminders set_plant_reminders ai_plant_reminders].
  match goal with
  | |- context [Sql.update ?c ?s (plant_reminders (db w))] =>
      assert (good (Sql.update c s (plant_reminders (db w)))
                   (ai_plant_reminders (db w))) as Hnew
  end.
  { apply good_update; [reflexivity | exact Hg]. }
  wp_step. settle.
Qed.

(** The other services do not write to the reminder table. *)
Ltac settle_frame :=
  intros w [Hg Ht];
  repeat first
    [ wp_step
    | lazymatch goal with
      | |- Hoare.wp (match ?x with _ => _ end) _ _ => destruct x
      | |- match JsDate.toISODate ?date with _ => _ end =>
          destruct (JsDate.toISODate date)
      | |- settled _ => split; cbn; assumption || reflexivity
      end ].

Lemma settled_others (c : Machine.Call) (w : World) :
  match c with
  | Machine.SaveReminder _ _ _ _ => False
  | Machine.CompleteReminder _ _ _ _ => False
  | Machine.DeleteReminder _ _ => False
  | _ => True
  end ->
  settled w -> settled (Machine.run c w).
Proof.
  destruct c; cbn [Machine.run]; intros Hc; try contradiction; revert w.
  - change (keeps (PlantService.getUserPlants userId)).
    unfold PlantService.getUserPlants. settle_frame.
  - change (keeps (PlantService.getPlantById plantId userId)).
    unfold PlantService.getPlantById. settle_frame.
  - change (keeps (PlantService.addPlant plantData userId)).
    unfold PlantService.addPlant, PlantService.findOrCreatePlantType. settle_frame.
  - change (keeps (PlantService.updatePlant plantId plantData userId)).
    unfold PlantService.updatePlant, PlantService.findOrCreatePlantType. settle_frame.
  - change (keeps (PlantService.deletePlant plantId userId)).
    unfold PlantService.deletePlant. settle_frame.
  - change (keeps (getPlantReminders plantId userId)).
    unfold getPlantReminders. settle_frame.
  - change (keeps (getUpcomingReminders tz now userId daysAhead)).
    unfold getUpcomingReminders. settle_frame.
  - change (keeps (HealthService.getPlantHealthRemarks plantId userId)).
    unfold HealthService.getPlantHealthRemarks. settle_frame.
  - change (keeps (HealthService.addHealthRemark now plantId text userId)).
    unfold HealthService.addHealthRemark. settle_frame.
  - change (keeps (HealthService.updateHealthRemark remarkId text userId)).
    unfold HealthService.updateHealthRemark. settle_frame.
  - change (keeps (HealthService.deleteHealthRemark remarkId userId)).
    unfold HealthService.deleteHealthRemark. settle_frame.
  - change (keeps (HealthService.getLatestHealthRemark plantId userId)).
    unfold HealthService.getLatestHealthRemark. settle_frame.
Qed.

Lemma reachable_settled (d : DB) :
  Machine.reachable d ->
  good (plant_reminders d) (ai_plant_reminders d).
Proof.
  induction 1 as [d E|d c schedule _ IH].
  - rewrite E. repeat split; constructor.
  - assert (settled (Machine.request d schedule)) as Hw
      by (split; [exact IH | reflexivity]).
    assert (settled (Machine.run c (Machine.request d schedule))) as [Hd _];
      [|exact Hd].
    destruct c;
      try (apply settled_others; [exact I | exact Hw]); cbn [Machine.run].
    + exact (settled_saveReminder _ _ _ _ _ Hw).
    + exact (settled_completeReminder _ _ _ _ _ Hw).
    + exact (settled_deleteReminder _ _ _ Hw).
Qed.

End KeyInvariant.

(** X10. In every store the services reach from a freshly created reminder
    table, whatever faults occurred and whatever dates were computed,
    reminder ids are unique and below the AUTO_INCREMENT counter, and a
    plant has at most one active reminder of each type. *)
Theorem reachable_reminder_table (d : DB) :
  Machine.reachable d ->
  Inv.reminder_keys d = true
  /\ Schedule.ids_below_counter d = true
  /\ (forall plantId ty,
        (List.length (filter (ReminderService.active_of plantId ty)
                             (plant_reminders d)) <= 1)%nat).
Proof.
  intros Hr. destruct (reachable_settled d Hr) as (Hnd & Hlt).
  split; [apply distinct_NoDup; exact Hnd|].
  rewrite Forall_forall in Hlt.
  split; [apply forallb_forall; intros r Hin; apply Z.ltb_lt; auto|].
  exact (reachable_one_active d Hr).
Qed.

Lemma reachable_reminder_table_witness :
  Inv.reminder_keys
    (db (Machine.run
           (Machine.CompleteReminder Sample.tallinn Sample.half_past_midnight 10 7)
           (Machine.request
              (db (Machine.run
                     (Machine.SaveReminder Sample.tallinn 1
                        (ReminderService.mkReminderData watering 3
                           (JsDate.Slashed 20148) None) 7)
                     (Machine.request (db Sample.fresh_world) [])))
              [false; true]))) = true
  /\ plant_reminders
       (db (Machine.run
              (Machine.CompleteReminder Sample.tallinn Sample.half_past_midnight 10 7)
              (Machine.request
                 (db (Machine.run
                        (Machine.SaveReminder Sample.tallinn 1
                           (ReminderService.mkReminderData watering 3
                              (JsDate.Slashed 20148) None) 7)
                        (Machine.request (db Sample.fresh_world) [])))
                 [false; true])))
     = [mkReminder 10 1 watering 20148 3 20150 None None true].
Proof.
  split; [|vm_compute; reflexivity].
  apply reachable_reminder_table.
  apply Machine.reachable_call. apply Machine.reachable_call.
  apply Machine.reachable_deployed. reflexivity.
Defined.

(** ** What a soft-deleted plant leaves behind *)

(** X11. Soft-deleting a plant does not cascade: its reminders and health
    remarks stay in their tables exactly as they were, but the owner can no
    longer see the plant, and no upcoming list of the owner shows a
    reminder of it. *)
Theorem deletePlant_orphans_children
    (plantId userId : Z) (p : UserPlant) (w : World) :
  Inv.calm w = true ->
  In p (user_plants (db w)) ->
  user_plant_id p = plantId ->
  user_id p = userId ->
  exists w1,
    PlantService.deletePlant plantId userId w = (Returned true, w1)
    /\ plant_reminders (db w1) = plant_reminders (db w)
    /\ plant_health (db w1) = plant_health (db w)
    /\ all_plants (db w1) = all_plants (db w)
    /\ Reference.owns_visible (db w1) userId plantId = false
    /\ forall tz now days w2 rows w3,
         db w2 = db w1 ->
         ReminderService.getUpcomingReminders tz now userId days w2
         = (Returned rows, w3) ->
         ~ In plantId (map ReminderService.u_plantId rows).
Proof.
  intros Hc Hp Hid Hu.
  eexists. split; [apply (deletePlant_calm plantId userId w p); assumption|].
  cbn [db user_plants plant_reminders plant_health all_plants set_user_plants].
  do 3 (split; [reflexivity|]).
  assert (forall d, user_plants d
                    = Sql.update (fun up => (user_plant_id up =? plantId)
                                            && (user_id up =? userId))
                                 PlantService.soft_delete (user_plants (db w)) ->
                    Reference.owns_visible d userId plantId = false) as Hinv.
  { intros d Ed. unfold Reference.owns_visible.
    destruct (existsb _ (user_plants d)) eqn:Ex; [|reflexivity].
    apply existsb_exists in Ex as (up & Hup & Hvis).
    pose proof (soft_deleted_invisible plantId userId (user_plants (db w))) as En.
    rewrite <- Ed in En.
    apply filter_none with (row := up) in En; [congruence | exact Hup]. }
  split; [apply Hinv; reflexivity|].
  intros tz now days w2 rows w3 Hdb Hrun Hin.
  apply getUpcomingReminders_returned in Hrun as (today & futureDate & ->).
  apply in_map_iff in Hin as (u & Hu' & Hin).
  unfold ReminderService.select_upcoming in Hin.
  apply in_map_iff in Hin as ([[r up] ap] & <- & Hj).
  apply (Permutation_in _ (order_by_asc_perm _ _)) in Hj.
  apply filter_In in Hj as [Hj Hwhere].
  unfold ReminderService.r_join_up_join_ap, ReminderService.r_join_up in Hj.
  apply in_flat_map in Hj as ([r0 up0] & Hj & Hap).
  apply in_map_iff in Hap as (ap0 & Eq & _). inversion Eq; subst r0 up0 ap0.
  apply in_flat_map in Hj as (r0 & _ & Hj).
  apply in_map_iff in Hj as (up0 & Eq' & Hup). inversion Eq'; subst r0 up0.
  apply filter_In in Hup as [Hup _].
  simpl in Hu'. unfold ReminderService.upcoming_where in Hwhere.
  apply andb_true_iff in Hwhere as [Hwhere _].
  apply andb_true_iff in Hwhere as [Hwhere _].
  assert (Reference.owns_visible (db w2) userId plantId = true) as Hov.
  { unfold Reference.owns_visible. apply existsb_exists. exists up.
    split; [exact Hup|]. unfold PlantService.is_visible_plant.
    rewrite Hu', Z.eqb_refl. exact Hwhere. }
  rewrite (Hinv (db w2)) in Hov; [discriminate|].
  rewrite Hdb. reflexivity.
Qed.

Lemma deletePlant_orphans_children_witness :
  exists w1,
    PlantService.deletePlant 1 7 Sample.week_world = (Returned true, w1)
    /\ plant_reminders (db w1) = Sample.week
    /\ Reference.owns_visible (db w1) 7 1 = false.
Proof.
  destruct (deletePlant_orphans_children 1 7 Sample.tomato Sample.week_world
              eq_refl (or_introl eq_refl) eq_refl eq_refl)
    as (w1 & E & Hr & _ & _ & Hov & _).
  exists w1. auto.
Defined.

(** ** The health log *)

Section HealthFacts.

Import HealthService.

Lemma order_by_desc_sorted {A : Type} (key : A -> Z) (l : list A) :
  Sorted (fun a b => key b <= key a) (Sql.order_by_desc key l).
Proof.
  unfold Sql.order_by_desc.
  eapply sorted_weaken; [|apply order_by_asc_sorted].
  intros a b H. unfold Sql.ascending in H. lia.
Qed.

Lemma remark_id_fresh (d : DB) :
  Keys.remark_ids_below_counter d = true ->
  ~ In (ai_plant_health d) (map health_id (plant_health d)).
Proof.
  unfold Keys.remark_ids_below_counter. intros H Hin.
  rewrite forallb_forall in H.
  apply in_map_iff in Hin as (h & E & Hh).
  specialize (H h Hh). apply Z.ltb_lt in H. lia.
Qed.

End HealthFacts.

(** X12. For an owned, visible plant [getPlantHealthRemarks] leaves the
    store alone and answers with the remarks of that plant, each once,
    newest first. *)
Theorem getPlantHealthRemarks_newest_first (plantId userId : Z) (w : World) :
  Inv.calm w = true ->
  Reference.owns_visible (db w) userId plantId = true ->
  exists l w',
    HealthService.getPlantHealthRemarks plantId userId w = (Returned (Some l), w')
    /\ db w' = db w
    /\ Sorted (fun a b => HealthService.createdAt b <= HealthService.createdAt a) l
    /\ Permutation l
         (map HealthService.view
              (filter (fun h => h_user_plant_id h =? plantId) (plant_health (db w)))).
Proof.
  intros Hc Hov.
  destruct (select_plant_owned _ _ _ Hov) as (up & rest & Ep).
  unfold HealthService.getPlantHealthRemarks. calm_step. rewrite Ep. calm_step.
  eexists. eexists. split; [reflexivity|]. cbn [db].
  split; [reflexivity|]. unfold HealthService.select_remarks. split.
  - apply sorted_map. apply (order_by_desc_sorted created_at).
  - apply Permutation_map. unfold Sql.order_by_desc. apply order_by_asc_perm.
Qed.

Lemma getPlantHealthRemarks_newest_first_witness :
  exists l w',
    HealthService.getPlantHealthRemarks 1 7 Sample.remarks_world
    = (Returned (Some l), w')
    /\ map HealthService.id l = [2; 1].
Proof.
  destruct (getPlantHealthRemarks_newest_first 1 7 Sample.remarks_world
              eq_refl eq_refl) as (l & w' & E & _).
  exists l, w'. split; [exact E|].
  vm_compute in E. inversion E. reflexivity.
Defined.

(** X13. Adding a remark to an owned, visible plant appends one row with
    the next id, the given text and the server's time, and answers with
    that row; when it is strictly newer than the plant's other remarks, it
    is what [getLatestHealthRemark] answers with from then on. *)
Theorem addHealthRemark_then_latest
    (now plantId userId : Z) (text : string) (w : World) :
  Inv.calm w = true ->
  Keys.remark_ids_below_counter (db w) = true ->
  Reference.owns_visible (db w) userId plantId = true ->
  exists w',
    HealthService.addHealthRemark now plantId text userId w
    = (Returned (Some (HealthService.mkRemarkView (ai_plant_health (db w)) text
                                                  (now / 1000))), w')
    /\ plant_health (db w')
       = plant_health (db w)
         ++ [mkHealthRemark (ai_plant_health (db w)) plantId text (now / 1000)]
    /\ user_plants (db w') = user_plants (db w)
    /\ ((forall h, In h (plant_health (db w)) -> h_user_plant_id h = plantId ->
                   created_at h < now / 1000) ->
        forall w2, db w2 = db w' -> Inv.calm w2 = true ->
          fst (HealthService.getLatestHealthRemark plantId userId w2)
          = Returned (Some (HealthService.mkRemarkView (ai_plant_health (db w)) text
                                                       (now / 1000)))).
Proof.
  intros Hc Hfresh Hov.
  destruct (select_plant_owned _ _ _ Hov) as (up & rest & Ep).
  unfold HealthService.addHealthRemark. calm_step. rewrite Ep.
  calm_step. calm_step.
  cbn [HealthService.insert_remark fst snd plant_health set_plant_health].
  set (new := mkHealthRemark (ai_plant_health (db w)) plantId text (now / 1000)).
  assert (filter (fun h => health_id h =? ai_plant_health (db w))
                 (plant_health (db w) ++ [new]) = [new]) as Ef.
  { rewrite filter_app.
    rewrite (filter_key_absent health_id _ _ (remark_id_fresh (db w) Hfresh)).
    simpl. rewrite Z.eqb_refl. reflexivity. }
  rewrite Ef. eexists. split; [reflexivity|]. cbn [db plant_health user_plants].
  split; [reflexivity|]. split; [reflexivity|].
  intros Hnewer w2 Hdb Hc2.
  rewrite (getLatestHealthRemark_calm plantId userId w2 Hc2).
  rewrite Hdb. cbn [db plant_health set_plant_health user_plants].
  unfold ReminderService.select_plant in *.
  cbn [user_plants set_plant_health]. rewrite Ep.
  destruct (Sql.order_by_desc created_at
              (filter (fun h => h_user_plant_id h =? plantId)
                      (plant_health (db w) ++ [new]))) as [|latest others] eqn:Es.
  - exfalso.
    pose proof (order_by_asc_perm (fun h => - created_at h)
                  (filter (fun h => h_user_plant_id h =? plantId)
                          (plant_health (db w) ++ [new]))) as P.
    unfold Sql.order_by_desc in Es. rewrite Es in P.
    apply Permutation_nil in P.
    apply filter_none with (row := new) in P.
    + simpl in P. rewrite Z.eqb_refl in P. discriminate.
    + apply in_or_app. right. left. reflexivity.
  - unfold Sql.order_by_desc in Es.
    apply order_by_asc_head in Es as [Hin Hmax].
    assert (In new (filter (fun h => h_user_plant_id h =? plantId)
                           (plant_health (db w) ++ [new]))) as Hnew.
    { apply filter_In. split; [apply in_or_app; right; left; reflexivity|].
      simpl. apply Z.eqb_refl. }
    specialize (Hmax new Hnew). simpl in Hmax.
    apply filter_In in Hin as [Hin Hpl]. apply Z.eqb_eq in Hpl.
    apply in_app_or in Hin as [Hold|[<-|[]]].
    + specialize (Hnewer latest Hold Hpl). lia.
    + reflexivity.
Qed.

Lemma addHealthRemark_then_latest_witness :
  exists w',
    HealthService.addHealthRemark 1742000000000 1 "new shoots" 7 Sample.remarks_world
    = (Returned (Some (HealthService.mkRemarkView 10 "new shoots" 1742000000)), w')
    /\ fst (HealthService.getLatestHealthRemark 1 7 w')
       = Returned (Some (HealthService.mkRemarkView 10 "new shoots" 1742000000)).
Proof.
  destruct (addHealthRemark_then_latest 1742000000000 1 7 "new shoots"
              Sample.remarks_world eq_refl eq_refl eq_refl)
    as (w' & E & Ht & _ & Hlatest).
  exists w'. split; [exact E|].
  apply Hlatest.
  - intros h Hh _. simpl in Hh. destruct Hh as [<-|[<-|[]]]; reflexivity.
  - reflexivity.
  - vm_compute in E. inversion E. reflexivity.
Defined.

(** X14. Editing a remark of an owned, visible plant replaces its text
    only: id, plant and creation time stay, the answer shows the edited
    row, and every other remark is left as it was. *)
Theorem updateHealthRemark_edits_text
    (userId : Z) (text : string) (w : World) (h : HealthRemark) :
  Inv.calm w = true ->
  Keys.remark_keys (db w) = true ->
  In h (plant_health (db w)) ->
  Reference.owns_visible (db w) userId (h_user_plant_id h) = true ->
  exists w',
    HealthService.updateHealthRemark (health_id h) text userId w
    = (Returned (Some (HealthService.mkRemarkView (health_id h) text (created_at h))),
       w')
    /\ filter (fun x => health_id x =? health_id h) (plant_health (db w'))
       = [mkHealthRemark (health_id h) (h_user_plant_id h) text (created_at h)]
    /\ List.length (plant_health (db w')) = List.length (plant_health (db w))
    /\ (forall x, In x (plant_health (db w)) -> health_id x <> health_id h ->
                  In x (plant_health (db w'))).
Proof.
  intros Hc Hk Hh Hov. apply distinct_NoDup in Hk.
  assert (In h (HealthService.select_owned_remark (health_id h) userId (db w))) as Hin
    by (apply select_owned_remark_In; auto).
  unfold HealthService.updateHealthRemark. calm_step.
  destruct (HealthService.select_owned_remark (health_id h) userId (db w))
    as [|x rest]; [contradiction|].
  calm_step. calm_step.
  cbn [plant_health set_plant_health].
  assert (filter (fun x => health_id x =? health_id h)
                 (Sql.update (fun x => health_id x =? health_id h)
                    (fun x => mkHealthRemark (health_id x) (h_user_plant_id x) text
                                             (created_at x))
                    (plant_health (db w)))
          = [mkHealthRemark (health_id h) (h_user_plant_id h) text (created_at h)])
    as Ef.
  { rewrite filter_update by reflexivity.
    rewrite (filter_key_unique health_id h _ Hk Hh).
    unfold Sql.update. simpl. rewrite Z.eqb_refl. reflexivity. }
  rewrite Ef. eexists. split; [reflexivity|].
  cbn [db plant_health set_plant_health].
  split; [exact Ef|]. split; [apply update_length|].
  intros y Hy Hne. apply update_keeps_others; [exact Hy|].
  apply Z.eqb_neq. exact Hne.
Qed.

Lemma updateHealthRemark_edits_text_witness :
  exists w',
    HealthService.updateHealthRemark 1 "yellow leaves, lower half" 7
      Sample.remarks_world
    = (Returned (Some (HealthService.mkRemarkView 1 "yellow leaves, lower half"
                                                  1741000000)), w')
    /\ List.length (plant_health (db w')) = 2%nat.
Proof.
  destruct (updateHealthRemark_edits_text 7 "yellow leaves, lower half"
              Sample.remarks_world
              (mkHealthRemark 1 1 "yellow leaves" 1741000000)
              eq_refl eq_refl (or_introl eq_refl) eq_refl)
    as (w' & E & _ & Hl & _).
  exists w'. auto.
Defined.

(** X15. Deleting a remark of an owned, visible plant answers true and
    removes that row for good: the table afterwards holds exactly the
    other remarks, one row fewer. *)
Theorem deleteHealthRemark_removes_row
    (userId : Z) (w : World) (h : HealthRemark) :
  Inv.calm w = true ->
  Keys.remark_keys (db w) = true ->
  In h (plant_health (db w)) ->
  Reference.owns_visible (db w) userId (h_user_plant_id h) = true ->
  exists w',
    HealthService.deleteHealthRemark (health_id h) userId w = (Returned true, w')
    /\ (forall x, In x (plant_health (db w')) <->
                  In x (plant_health (db w)) /\ health_id x <> health_id h)
    /\ S (List.length (plant_health (db w'))) = List.length (plant_health (db w))
    /\ user_plants (db w') = user_plants (db w)
    /\ plant_reminders (db w') = plant_reminders (db w).
Proof.
  intros Hc Hk Hh Hov. apply distinct_NoDup in Hk.
  assert (In h (HealthService.select_owned_remark (health_id h) userId (db w))) as Hin
    by (apply select_owned_remark_In; auto).
  unfold HealthService.deleteHealthRemark. calm_step.
  destruct (HealthService.select_owned_remark (health_id h) userId (db w))
    as [|x rest]; [contradiction|].
  calm_step.
  pose proof (filter_key_unique health_id h _ Hk Hh) as Eone.
  unfold Sql.affectedRows. rewrite Eone.
  eexists. split; [reflexivity|].
  cbn [db plant_health set_plant_health user_plants plant_reminders].
  split; [|split; [|split; reflexivity]].
  - intros y. rewrite filter_In, negb_true_iff, Z.eqb_neq. tauto.
  - pose proof (filter_length (fun x => health_id x =? health_id h)
                  (plant_health (db w))) as Hlen.
    rewrite Eone in Hlen. simpl in Hlen. lia.
Qed.

Lemma deleteHealthRemark_removes_row_witness :
  exists w',
    HealthService.deleteHealthRemark 1 7 Sample.remarks_world = (Returned true, w')
    /\ map health_id (plant_health (db w')) = [2].
Proof.
  destruct (deleteHealthRemark_removes_row 7 Sample.remarks_world
              (mkHealthRemark 1 1 "yellow leaves" 1741000000)
              eq_refl eq_refl (or_introl eq_refl) eq_refl)
    as (w' & E & _).
  exists w'. split; [exact E|].
  vm_compute in E. inversion E. reflexivity.
Defined.

(** ** Reading plants back *)

Section PlantReadFacts.

Import PlantService.

(** The plant types a plant joins with. *)
Let types_of (d : DB) (up : UserPlant) : list (UserPlant * PlantType) :=
  map (fun ap => (up, ap))
      (filter (fun ap => up_plant_id up =? plant_id ap) (all_plants d)).

(** A condition on the plant can be applied before the join. *)
Lemma filter_join (d : DB) (f : UserPlant -> bool) :
  filter (fun j => f (fst j)) (up_join_ap d)
  = flat_map (types_of d) (filter f (user_plants d)).
Proof.
  unfold up_join_ap. fold (types_of d).
  induction (user_plants d) as [|up t IH]; simpl; [reflexivity|].
  rewrite filter_app, IH.
  assert (filter (fun j => f (fst j)) (types_of d up)
          = if f up then types_of d up else []) as ->.
  { unfold types_of.
    induction (filter (fun ap => up_plant_id up =? plant_id ap) (all_plants d))
      as [|ap l IHl]; simpl.
    - destruct (f up); reflexivity.
    - rewrite IHl. destruct (f up); reflexivity. }
  destruct (f up); reflexivity.
Qed.

(** Under the key of [all_plants] and the foreign key into it, a plant
    joins with exactly one plant type. *)
Lemma types_of_one (d : DB) (up : UserPlant) :
  Inv.plant_type_keys d = true ->
  Inv.plant_types_exist d = true ->
  In up (user_plants d) ->
  exists ap, In ap (all_plants d) /\ plant_id ap = up_plant_id up
             /\ types_of d up = [(up, ap)].
Proof.
  intros Hk Hfk Hup. apply distinct_NoDup in Hk. unfold types_of.
  destruct (filter_by_key plant_id (up_plant_id up) (all_plants d) Hk)
    as [[_ Hnone]|(ap & Hap & Hka & Ea)].
  - exfalso. unfold Inv.plant_types_exist in Hfk.
    rewrite forallb_forall in Hfk. specialize (Hfk up Hup).
    apply existsb_exists in Hfk as (ap & Hap & Hm).
    apply Z.eqb_eq in Hm. apply (Hnone ap Hap). symmetry. exact Hm.
  - exists ap. rewrite Ea. auto.
Qed.

Lemma visible_plant_unique (d : DB) (plantId userId : Z) (p : UserPlant) :
  Inv.user_plant_keys d = true ->
  In p (user_plants d) ->
  is_visible_plant plantId userId p = true ->
  filter (is_visible_plant plantId userId) (user_plants d) = [p].
Proof.
  intros Hk Hp Hvis. apply distinct_NoDup in Hk.
  destruct (is_visible_plant_ids plantId userId p Hvis) as [Hid _].
  pose proof (filter_key_unique user_plant_id p _ Hk Hp) as Eone.
  assert (forall l,
            (forall x, In x l -> In x (user_plants d)) ->
            filter (is_visible_plant plantId userId) l
            = filter (fun x => user_plant_id x =? user_plant_id p) l) as Eq.
  { induction l as [|x l IH]; simpl; intros Hl; [reflexivity|].
    rewrite IH by (intros y Hy; apply Hl; right; exact Hy).
    destruct (Z.eqb_spec (user_plant_id x) (user_plant_id p)) as [E|Hne].
    - rewrite (key_injective user_plant_id _ x p Hk (Hl x (or_introl eq_refl)) Hp E).
      rewrite Hvis. reflexivity.
    - destruct (is_visible_plant plantId userId x) eqn:Ex; [|reflexivity].
      destruct (is_visible_plant_ids plantId userId x Ex) as [Hx _]. congruence. }
  rewrite Eq by auto. exact Eone.
Qed.

(** What a calm [getPlantById] answers for an owned, visible plant. *)
Lemma getPlantById_calm (plantId userId : Z) (w : World) (p : UserPlant) :
  Inv.calm w = true ->
  Inv.user_plant_keys (db w) = true ->
  Inv.plant_type_keys (db w) = true ->
  Inv.plant_types_exist (db w) = true ->
  In p (user_plants (db w)) ->
  is_visible_plant plantId userId p = true ->
  exists ap,
    In ap (all_plants (db w)) /\ plant_id ap = up_plant_id p
    /\ getPlantById plantId userId w
       = (Returned (Some (view (p, ap))),
          mkWorld (db w) (txn w) (connection w) (tl (faults w))).
Proof.
  intros Hc Hk Hkt Hfk Hp Hvis.
  destruct (types_of_one (db w) p Hkt Hfk Hp) as (ap & Hap & Hm & Et).
  exists ap. split; [exact Hap|]. split; [exact Hm|].
  unfold getPlantById. calm_step.
  rewrite (filter_join (db w) (is_visible_plant plantId userId)).
  rewrite (visible_plant_unique (db w) plantId userId p Hk Hp Hvis).
  simpl. rewrite Et. reflexivity.
Qed.

End PlantReadFacts.



(** X17. For an owned, visible plant [getPlantById] answers with that
    plant's own row, joined with the cultivar and species of its plant
    type, and leaves the store alone. *)
Theorem getPlantById_shows_own_plant
    (plantId userId : Z) (w : World) (p : UserPlant) :
  Inv.calm w = true ->
  Inv.user_plant_keys (db w) = true ->
  Inv.plant_type_keys (db w) = true ->
  Inv.plant_types_exist (db w) = true ->
  In p (user_plants (db w)) ->
  PlantService.is_visible_plant plantId userId p = true ->
  exists ap w',
    In ap (all_plants (db w)) /\ plant_id ap = up_plant_id p
    /\ PlantService.getPlantById plantId userId w
       = (Returned
            (Some (PlantService.mkPlantView plantId (plant_cultivar ap)
                     (plant_species ap) (planting_time p) (est_cropping p)
                     (photo_url p))),
          w')
    /\ db w' = db w.
Proof.
  intros Hc Hk Hkt Hfk Hp Hvis.
  destruct (getPlantById_calm plantId userId w p Hc Hk Hkt Hfk Hp Hvis)
    as (ap & Hap & Hm & E).
  destruct (is_visible_plant_ids plantId userId p Hvis) as [Hid _].
  exists ap. eexists. split; [exact Hap|]. split; [exact Hm|].
  split; [rewrite E; unfold PlantService.view; rewrite Hid; reflexivity
         | reflexivity].
Qed.

Lemma getPlantById_shows_own_plant_witness :
  exists ap w',
    In ap (all_plants (db Sample.photo_world)) /\ plant_id ap = 1
    /\ PlantService.getPlantById 1 7 Sample.photo_world
       = (Returned
            (Some (PlantService.mkPlantView 1 (plant_cultivar ap) (plant_species ap)
                     20148 (Some 60) (Some "/uploads/roma.jpg"%string))),
          w')
    /\ db w' = db Sample.photo_world.
Proof.
  apply (getPlantById_shows_own_plant 1 7 Sample.photo_world Sample.pictured);
    try reflexivity.
  simpl. left. reflexivity.
Defined.

(** ** Adding a plant and reading it back *)

Section AddReadFacts.

Import PlantService.

Variables (plantData : PlantData) (userId : Z).

(** [addPlant_calm], with the answer spelled out. *)
Lemma addPlant_calm_view (w : World) :
  Inv.calm w = true ->
  exists typeId v w',
    addPlant plantData userId w = (Returned v, w')
    /\ v = hd_error (select_plant (ai_user_plants (db w)) (db w'))
    /\ Inv.calm w' = true
    /\ Reference.resolved (pd_cultivar plantData) (pd_species plantData)
                          (ai_all_plants (db w)) (all_plants (db w))
                          typeId (all_plants (db w'))
    /\ user_plants (db w')
       = user_plants (db w)
         ++ [mkUserPlant (ai_user_plants (db w)) userId typeId
                         (pd_plantingTime plantData)
                         (Js.numOrNull (pd_estCropping plantData))
                         (pd_photoUrl plantData) false].
Proof.
  intros Hc. unfold addPlant.
  erewrite bind_returned by reflexivity.
  assert (Inv.calm (mkWorld (db w) (Some (db w)) true (tl (tl (faults w)))) = true)
    as Hc2 by calm_solve.
  destruct (findOrCreatePlantType_calm (pd_cultivar plantData) (pd_species plantData)
              _ Hc2) as (typeId & w1 & E1 & Hc1 & Ht1 & Hcn1 & Hsame & Hres).
  cbn [db txn connection] in Ht1, Hcn1, Hsame, Hres.
  destruct Hsame as (Hups & _ & _ & Hai).
  eexists typeId, _, _.
  split; [|split; [|split; [|split]]].
  - eapply tryCatchFinally_returned.
    + calm_step. calm_step.
      erewrite bind_returned by exact E1.
      calm_step. calm_step. calm_step.
      unfold ret. reflexivity.
    + unfold ifConnection, release. cbn [connection]. rewrite Hcn1. reflexivity.
  - cbn [insert_user_plants fst snd db]. rewrite Hai. reflexivity.
  - calm_solve.
  - cbn. exact Hres.
  - cbn. rewrite Hups, Hai. reflexivity.
Qed.

Lemma types_of_unique (d : DB) (up : UserPlant) (ap : PlantType) :
  Inv.plant_type_keys d = true ->
  In ap (all_plants d) ->
  plant_id ap = up_plant_id up ->
  map (fun ap' => (up, ap'))
      (filter (fun ap' => up_plant_id up =? plant_id ap') (all_plants d))
  = [(up, ap)].
Proof.
  intros Hk Hap Hm. apply distinct_NoDup in Hk.
  destruct (filter_by_key plant_id (up_plant_id up) (all_plants d) Hk)
    as [[_ Hnone]|(ap' & Hap' & Hka & Ea)].
  - exfalso. exact (Hnone ap Hap Hm).
  - rewrite Ea. simpl.
    rewrite (key_injective plant_id (all_plants d) ap' ap Hk Hap' Hap); congruence.
Qed.

(** A resolution keeps the key of the catalog. *)
Lemma resolved_keeps_keys (cultivar species : string) (d d' : DB) (typeId : Z) :
  Inv.plant_type_keys d = true ->
  Keys.plant_type_ids_below_counter d = true ->
  Reference.resolved cultivar species (ai_all_plants d) (all_plants d) typeId
                     (all_plants d') ->
  Inv.plant_type_keys d' = true.
Proof.
  unfold Inv.plant_type_keys, Keys.plant_type_ids_below_counter, Reference.resolved.
  intros Hk Hlt Hres.
  destruct (filter (matches_plant_type cultivar species) (all_plants d));
    destruct Hres as [_ ->]; [|exact Hk].
  apply distinct_NoDup. rewrite map_app. simpl.
  apply NoDup_snoc; [apply distinct_NoDup; exact Hk|].
  intros Hin. apply in_map_iff in Hin as (ap & E & Hap).
  rewrite forallb_forall in Hlt. specialize (Hlt ap Hap).
  apply Z.ltb_lt in Hlt. lia.
Qed.

End AddReadFacts.

(** X18. What is added can be read back: a calm [addPlant] answers with
    the new plant under the next id, showing the cultivar, species,
    planting time and photo that were supplied, and from then on
    [getPlantById] answers the owner with that same row. *)
Theorem addPlant_then_getPlantById
    (plantData : PlantService.PlantData) (userId : Z) (w : World) :
  Inv.calm w = true ->
  Inv.user_plant_keys (db w) = true ->
  Keys.user_plant_ids_below_counter (db w) = true ->
  Inv.plant_type_keys (db w) = true ->
  Keys.plant_type_ids_below_counter (db w) = true ->
  let shown :=
    PlantService.mkPlantView (ai_user_plants (db w))
      (PlantService.pd_cultivar plantData) (PlantService.pd_species plantData)
      (PlantService.pd_plantingTime plantData)
      (Js.numOrNull (PlantService.pd_estCropping plantData))
      (PlantService.pd_photoUrl plantData) in
  exists w',
    PlantService.addPlant plantData userId w = (Returned (Some shown), w')
    /\ forall w2, db w2 = db w' -> Inv.calm w2 = true ->
         fst (PlantService.getPlantById (ai_user_plants (db w)) userId w2)
         = Returned (Some shown).
Proof.
  intros Hc Hk Hlt Hkt Hltt shown.
  destruct (addPlant_calm_view plantData userId w Hc)
    as (typeId & v & w' & Erun & -> & Hc' & Hres & Hups).
  destruct (resolved_in_catalog _ _ _ _ _ _ Hres) as (ap & Hap & Hapid & Hmatch).
  apply matches_plant_type_exact in Hmatch as (Hcul & Hspe & _).
  pose proof (resolved_keeps_keys _ _ (db w) (db w') typeId Hkt Hltt Hres) as Hkt'.
  set (new := mkUserPlant (ai_user_plants (db w)) userId typeId
                (PlantService.pd_plantingTime plantData)
                (Js.numOrNull (PlantService.pd_estCropping plantData))
                (PlantService.pd_photoUrl plantData) false) in *.
  assert (~ In (ai_user_plants (db w)) (map user_plant_id (user_plants (db w))))
    as Hfresh.
  { intros Hin. apply in_map_iff in Hin as (up & E & Hup).
    unfold Keys.user_plant_ids_below_counter in Hlt.
    rewrite forallb_forall in Hlt. specialize (Hlt up Hup).
    apply Z.ltb_lt in Hlt. lia. }
  assert (Inv.user_plant_keys (db w') = true) as Hk'.
  { unfold Inv.user_plant_keys in *. rewrite Hups.
    apply distinct_NoDup. rewrite map_app. simpl.
    apply NoDup_snoc; [apply distinct_NoDup; exact Hk | exact Hfresh]. }
  assert (In new (user_plants (db w'))) as Hnew
    by (rewrite Hups; apply in_or_app; right; left; reflexivity).
  assert (forall f,
            filter f (user_plants (db w')) = [new] ->
            map PlantService.view
                (filter (fun j => f (fst j)) (PlantService.up_join_ap (db w')))
            = [shown]) as Hjoin.
  { intros f Ef. rewrite filter_join, Ef. cbn [flat_map]. rewrite app_nil_r.
    rewrite (types_of_unique (db w') new ap Hkt' Hap Hapid).
    simpl. unfold shown. rewrite Hcul, Hspe. reflexivity. }
  exists w'. split.
  - rewrite Erun. unfold PlantService.select_plant.
    rewrite (Hjoin (fun up => user_plant_id up =? ai_user_plants (db w)));
      [reflexivity|].
    apply distinct_NoDup in Hk'.
    exact (filter_key_unique user_plant_id new _ Hk' Hnew).
  - intros w2 Hdb Hc2.
    unfold PlantService.getPlantById. calm_step. rewrite Hdb.
    rewrite (Hjoin (PlantService.is_visible_plant (ai_user_plants (db w)) userId));
      [reflexivity|].
    apply visible_plant_unique; [exact Hk' | exact Hnew |].
    unfold PlantService.is_visible_plant, new. simpl.
    rewrite !Z.eqb_refl. reflexivity.
Qed.

Lemma addPlant_then_getPlantById_witness :
  exists w',
    PlantService.addPlant
      (PlantService.mkPlantData "Cayenne" "Pepper" 20180 (Some 80) None) 8
      Sample2.garden_world
    = (Returned (Some (PlantService.mkPlantView 5 "Cayenne" "Pepper" 20180
                         (Some 80) None)), w')
    /\ fst (PlantService.getPlantById 5 8 w')
       = Returned (Some (PlantService.mkPlantView 5 "Cayenne" "Pepper" 20180
                           (Some 80) None)).
Proof.
  destruct (addPlant_then_getPlantById
              (PlantService.mkPlantData "Cayenne" "Pepper" 20180 (Some 80) None) 8
              Sample2.garden_world eq_refl eq_refl eq_refl eq_refl eq_refl)
    as (w' & E & Hget).
  exists w'. split; [exact E|].
  apply Hget; [reflexivity|].
  vm_compute in E. inversion E. reflexivity.
Defined.

(** X19. Whatever round trip fails, [updatePlant] leaves the rows of the
    store in one of two states: exactly as they were (the call threw, or
    answered null because the user has no such visible plant), or with the
    plant's row updated and the plant type it now refers to in the catalog.
    A new catalog row is never left behind without the update. *)
Theorem updatePlant_atomic
    (plantId : Z) (plantData : PlantService.PlantData) (userId : Z) (w : World) :
  Hoare.wp (PlantService.updatePlant plantId plantData userId)
    (fun o w' =>
       (same_rows (db w') (db w) /\ (o = Thrown \/ o = Returned None))
       \/ exists typeId,
            Reference.resolved (PlantService.pd_cultivar plantData)
                               (PlantService.pd_species plantData)
                               (ai_all_plants (db w)) (all_plants (db w))
                               typeId (all_plants (db w'))
            /\ user_plants (db w')
               = Sql.update
                   (fun up => (user_plant_id up =? plantId) && (user_id up =? userId))
                   (PlantService.apply_updateData typeId
                      (PlantService.pd_plantingTime plantData)
                      (PlantService.pd_estCropping plantData)
                      (PlantService.pd_photoUrl plantData))
                   (user_plants (db w))
            /\ plant_reminders (db w') = plant_reminders (db w)
            /\ plant_health (db w') = plant_health (db w))
    w.
Proof.
  match goal with |- Hoare.wp _ ?post _ => set (Q := post) end.
  unfold PlantService.updatePlant, PlantService.findOrCreatePlantType.
  repeat first
    [ wp_step
    | lazymatch goal with
      | |- Hoare.wp (match ?x with _ => _ end) _ _ => destruct x eqn:?
      end ].
  all: unfold ifConnection, release; cbn [connection snd db txn faults fst].
  all: subst Q; cbv beta.
  all: try solve [left; split; [unfold same_rows; cbn; repeat split | auto]].
  all: right; eexists; unfold Reference.resolved;
    match goal with
    | H : filter (PlantService.matches_plant_type _ _) _ = _ |- _ => rewrite H
    end;
    cbn; repeat split.
Qed.

(** ** Photo uploads *)

Section UploadFacts.

Import Upload.

Lemma uint_units_safe (d : Decimal.uint) :
  forallb safe_unit (uint_units d) = true.
Proof. induction d; simpl; auto. Qed.

Lemma number_units_safe (n : Z) : forallb safe_unit (number_units n) = true.
Proof.
  unfold number_units. destruct (Z.to_int n); simpl; apply uint_units_safe.
Qed.

Lemma sanitize_safe (s : JsString) : forallb safe_unit (sanitize s) = true.
Proof.
  unfold sanitize. induction s as [|c s IH]; simpl; [reflexivity|].
  rewrite IH, andb_true_r.
  destruct (safe_unit c) eqn:E; [exact E | reflexivity].
Qed.

Lemma safe_unit_no_separator (c : Z) :
  safe_unit c = true -> c <> 47 /\ c <> 92 /\ c <> 0.
Proof.
  unfold safe_unit. intros H.
  repeat (apply orb_true_iff in H; destruct H as [H|H]);
    try (apply andb_true_iff in H as [H1 H2]; apply Z.leb_le in H1, H2);
    try apply Z.eqb_eq in H; lia.
Qed.

End UploadFacts.

(** X20. Sanitising a file name keeps its length and leaves only letters,
    digits, dot, underscore and hyphen, so no slash, backslash or NUL
    survives; a name that already has this form is returned unchanged. *)
Theorem sanitize_makes_safe (fileName : Upload.JsString) :
  List.length (Upload.sanitize fileName) = List.length fileName
  /\ forallb Upload.safe_unit (Upload.sanitize fileName) = true
  /\ (forall c, In c (Upload.sanitize fileName) -> c <> 47 /\ c <> 92 /\ c <> 0)
  /\ (forallb Upload.safe_unit fileName = true -> Upload.sanitize fileName = fileName)
  /\ Upload.sanitize (Upload.sanitize fileName) = Upload.sanitize fileName.
Proof.
  assert (forall s, forallb Upload.safe_unit s = true -> Upload.sanitize s = s) as Hfix.
  { unfold Upload.sanitize. induction s as [|c s IH]; simpl; [reflexivity|].
    rewrite andb_true_iff. intros [Hc Hs]. rewrite Hc, IH by exact Hs. reflexivity. }
  split; [apply length_map|].
  split; [apply sanitize_safe|].
  split.
  - intros c Hc. apply safe_unit_no_separator.
    pose proof (sanitize_safe fileName) as H. rewrite forallb_forall in H. auto.
  - split; [apply Hfix|]. apply Hfix, sanitize_safe.
Qed.

(** X21. A photo is stored only when its type is JPEG, PNG or GIF and its
    size is at most 5 MiB, and then the URL handed to the route is
    [/uploads/] followed by a file name made of letters, digits, dot,
    underscore and hyphen: whatever name the client sent, the URL names a
    file directly inside the uploads directory. *)
Theorem fileUploadHandler_stores_inside_uploads
    (now : Z) (photo : Upload.UploadedPhoto) (url : Upload.JsString) :
  Upload.fileUploadHandler now (Some photo) = Upload.Next (Some url) ->
  In (Upload.mimetype photo) Upload.allowedTypes
  /\ Upload.size photo <= 5242880
  /\ exists file,
       url = Upload.uploads_prefix ++ file
       /\ file <> []
       /\ forallb Upload.safe_unit file = true
       /\ (forall c, In c file -> c <> 47 /\ c <> 92 /\ c <> 0).
Proof.
  unfold Upload.fileUploadHandler.
  destruct (Upload.includes Upload.allowedTypes (Upload.mimetype photo)) eqn:Ety;
    simpl; [|discriminate].
  destruct (Z.ltb_spec Upload.MAX_FILE_SIZE (Upload.size photo)) as [|Hsize];
    [discriminate|].
  destruct (Upload.mv_throws photo); [discriminate|].
  intros E. inversion E; subst url; clear E.
  split.
  { unfold Upload.includes in Ety. apply existsb_exists in Ety as (t & Ht & Eq).
    apply String.eqb_eq in Eq. subst t. exact Ht. }
  split; [unfold Upload.MAX_FILE_SIZE in Hsize; lia|].
  exists (Upload.fileName now photo). split; [reflexivity|].
  assert (forallb Upload.safe_unit (Upload.fileName now photo) = true) as Hsafe.
  { unfold Upload.fileName. rewrite !forallb_app.
    rewrite number_units_safe, sanitize_safe. reflexivity. }
  split.
  { unfold Upload.fileName. intros Hnil.
    apply app_eq_nil in Hnil as [_ Hnil]. discriminate. }
  split; [exact Hsafe|].
  intros c Hc. apply safe_unit_no_separator.
  rewrite forallb_forall in Hsafe. auto.
Qed.

Lemma fileUploadHandler_stores_inside_uploads_witness :
  In "image/png"%string Upload.allowedTypes
  /\ 5242880 <= 5242880
  /\ exists file,
       Upload.uploads_prefix ++ Upload.fileName 1741000000000 Sample2.traversal
       = Upload.uploads_prefix ++ file
       /\ file <> []
       /\ forallb Upload.safe_unit file = true
       /\ (forall c, In c file -> c <> 47 /\ c <> 92 /\ c <> 0).
Proof.
  apply (fileUploadHandler_stores_inside_uploads 1741000000000 Sample2.traversal).
  reflexivity.
Defined.

(** ** The routes *)

Section RouteFacts.

(** The response of a guarded route depends on the service's answer only. *)
Lemma attempt_response {A : Type} (failure : string) (call : M A)
    (respond : A -> Http.Response) (w w0 : World) :
  fst (call w) = fst (call w0) ->
  fst (Http.attempt failure call respond w)
  = fst (Http.attempt failure call respond w0).
Proof.
  unfold Http.attempt. intros E.
  destruct (call w) as [[a|] w1], (call w0) as [[a0|] w2]; simpl in *;
    congruence.
Qed.

Lemma attempt_refused {A : Type} (failure : string) (call : M A) (deny : A)
    (respond : A -> Http.Response) (plantId : Z) (w : World) :
  Reference.refused deny call plantId w ->
  fst (Http.attempt failure call respond w)
  = fst (Http.attempt failure call respond (Reference.forget_plant plantId w))
  /\ same_rows (db (snd (Http.attempt failure call respond w))) (db w)
  /\ (fst (Http.attempt failure call respond w) = respond deny
      \/ fst (Http.attempt failure call respond w)
         = Http.handleError (Http.AppError failure 500)).
Proof.
  intros (Hor & _ & Hrows & Hsame).
  split; [apply attempt_response; exact Hsame|].
  unfold Http.attempt.
  destruct (call w) as [[a|] w1]; simpl in *.
  - split; [exact Hrows|]. left.
    destruct Hor as [E|E]; inversion E. reflexivity.
  - split; [exact Hrows|]. right. reflexivity.
Qed.

(** The handlers answer for a plant of another user as for no plant. *)
Lemma handle_hides_foreign_plants
    (tz : JsDate.Zone) (now : JsDate.Clock) (a b plantId : Z) (p : UserPlant)
    (req : Http.Request) (w : World) :
  Inv.user_plant_keys (db w) = true ->
  In p (user_plants (db w)) ->
  user_plant_id p = plantId ->
  user_id p = a ->
  a <> b ->
  Http.plant_of req = Some plantId ->
  fst (Http.handle tz now (Some b) req w)
  = fst (Http.handle tz now (Some b) req (Reference.forget_plant plantId w))
  /\ same_rows (db (snd (Http.handle tz now (Some b) req w))) (db w)
  /\ In (Http.status (fst (Http.handle tz now (Some b) req w))) [404; 400; 500].
Proof.
  intros Hk Hp Hid Ha Hab Hreq.
  assert (user_id p <> b) as Hother by congruence.
  pose proof (foreign_plant_selects_nothing plantId b (db w) p _ Hk Hp Hid Hother
                (is_visible_plant_ids plantId b)) as Ev.
  pose proof (foreign_plant_selects_nothing plantId b (db w) p _ Hk Hp Hid Hother
                (delete_cond_ids plantId b)) as Ed.
  pose proof (forgotten_plant_selects_nothing plantId b w _
                (is_visible_plant_ids plantId b)) as Ev'.
  pose proof (forgotten_plant_selects_nothing plantId b w _
                (delete_cond_ids plantId b)) as Ed'.
  assert (Reference.owns_visible (db w) b plantId = false) as Hov.
  { unfold Reference.owns_visible.
    destruct (existsb _ (user_plants (db w))) eqn:Ex; [|reflexivity].
    apply existsb_exists in Ex as (up & Hup & Hvis).
    apply filter_none with (row := up) in Ev; [congruence | exact Hup]. }
  assert (forall (A : Type) failure (call : M (option A)) respond,
            Reference.refused None call plantId w ->
            respond None = Http.notFound "Plant not found or unauthorized"
            \/ respond None = Http.notFound "No health remarks found for this plant" ->
            fst (Http.attempt failure call respond w)
            = fst (Http.attempt failure call respond
                     (Reference.forget_plant plantId w))
            /\ same_rows (db (snd (Http.attempt failure call respond w))) (db w)
            /\ In (Http.status (fst (Http.attempt failure call respond w)))
                  [404; 400; 500]) as Hopt.
  { intros A failure call respond Href Hresp.
    destruct (attempt_refused failure call None respond plantId w Href)
      as (E1 & E2 & [E3|E3]).
    - split; [exact E1|]. split; [exact E2|]. rewrite E3.
      destruct Hresp as [->| ->]; simpl; auto.
    - split; [exact E1|]. split; [exact E2|]. rewrite E3. simpl. auto. }
  destruct req; simpl in Hreq; inversion Hreq; subst; cbn [Http.handle Http.requireAuth].
  - apply Hopt; [|left; reflexivity].
    apply refused_of_outcome with (k := 1%nat);
      [apply getPlantById_nothing, Ev | apply getPlantById_nothing, Ev'
      | apply getPlantById_nothing, Ev].
  - destruct (attempt_refused "Error deleting plant"
                (PlantService.deletePlant (user_plant_id p) b) false
                (fun success : bool =>
                   if success then Http.json (Http.Message "Plant deleted successfully")
                   else Http.notFound "Plant not found or unauthorized")
                (user_plant_id p) w) as (E1 & E2 & [E3|E3]).
    { apply refused_of_outcome with (k := 1%nat);
        [apply deletePlant_nothing, Ed | apply deletePlant_nothing, Ed'
        | apply deletePlant_nothing, Ed]. }
    + split; [exact E1|]. split; [exact E2|]. rewrite E3. simpl. auto.
    + split; [exact E1|]. split; [exact E2|]. rewrite E3. simpl. auto.
  - apply Hopt; [|left; reflexivity].
    apply refused_by_plant; [exact Hov | reflexivity].
  - destruct (Http.validated b0) as [reminderData|].
    + apply Hopt; [|left; reflexivity].
      apply refused_by_plant; [exact Hov | reflexivity].
    + simpl. split; [reflexivity|]. split; [apply same_rows_refl | auto].
  - apply Hopt; [|left; reflexivity].
    apply refused_by_plant; [exact Hov | reflexivity].
  - apply Hopt; [|right; reflexivity].
    apply refused_by_plant; [exact Hov | reflexivity].
Qed.

End RouteFacts.

(** X22. Behind the CSRF check and the rate limit, the six routes
    [GET] and [DELETE /api/plants/:id], [GET] and
    [POST /api/plants/:id/reminders], [GET /api/plants/:id/health] and
    [GET /api/plants/:id/health/latest] show a plant of another user
    exactly like a plant that does not exist: the answer is the one given
    on the store without that row, its status is 404 (400 for an invalid
    reminder body, 500 on a fault, 403 or 429 from the middleware), and no
    row changes. *)
Theorem routes_hide_foreign_plants
    (m : Http.Middleware) (tz : JsDate.Zone) (now : JsDate.Clock)
    (a b plantId : Z) (p : UserPlant) (req : Http.Request) (w : World) :
  Inv.user_plant_keys (db w) = true ->
  In p (user_plants (db w)) ->
  user_plant_id p = plantId ->
  user_id p = a ->
  a <> b ->
  Http.plant_of req = Some plantId ->
  fst (Http.serve m tz now (Some b) req w)
  = fst (Http.serve m tz now (Some b) req (Reference.forget_plant plantId w))
  /\ same_rows (db (snd (Http.serve m tz now (Some b) req w))) (db w)
  /\ In (Http.status (fst (Http.serve m tz now (Some b) req w)))
        [404; 400; 500; 403; 429].
Proof.
  intros Hk Hp Hid Ha Hab Hreq.
  destruct (handle_hides_foreign_plants tz now a b plantId p req w
              Hk Hp Hid Ha Hab Hreq) as (E1 & E2 & E3).
  assert (In (Http.status (fst (Http.handle tz now (Some b) req w)))
             [404; 400; 500; 403; 429]) as E3'
    by (simpl in *; tauto).
  unfold Http.serve.
  destruct (Http.method req), (Http.csrfValid m), (Http.overLimit m);
    cbn [negb fst snd];
    first [ exact (conj E1 (conj E2 E3'))
          | split; [reflexivity|]; split; [apply same_rows_refl|];
            simpl; tauto ].
Qed.

Lemma routes_hide_foreign_plants_witness :
  fst (Http.serve (Http.mkMiddleware true false) (JsDate.fixed 0)
         (JsDate.still 0) (Some 8) (Http.DeletePlant 1) Sample.week_world)
  = fst (Http.serve (Http.mkMiddleware true false) (JsDate.fixed 0)
           (JsDate.still 0) (Some 8) (Http.DeletePlant 1)
           (Reference.forget_plant 1 Sample.week_world))
  /\ same_rows
       (db (snd (Http.serve (Http.mkMiddleware true false) (JsDate.fixed 0)
                   (JsDate.still 0) (Some 8) (Http.DeletePlant 1)
                   Sample.week_world)))
       (db Sample.week_world)
  /\ In (Http.status
           (fst (Http.serve (Http.mkMiddleware true false) (JsDate.fixed 0)
                   (JsDate.still 0) (Some 8) (Http.DeletePlant 1)
                   Sample.week_world)))
        [404; 400; 500; 403; 429].
Proof.
  apply (routes_hide_foreign_plants (Http.mkMiddleware true false)
           (JsDate.fixed 0) (JsDate.still 0) 7 8 1 Sample.tomato
           (Http.DeletePlant 1) Sample.week_world).
  - reflexivity.
  - simpl. left. reflexivity.
  - reflexivity.
  - reflexivity.
  - lia.
  - reflexivity.
Defined.

(** ** What the validators guarantee of the stored reminders *)

Section RouteInvariant.

Import ReminderService.

Let timed (t : list Reminder) : Prop :=
  Forall (fun r => 1 <= interval_days r) t.

Let steady (w : World) : Prop :=
  timed (plant_reminders (db w)) /\ txn w = None.

Let holds {A : Type} (m : M A) : Prop :=
  forall w, steady w -> Hoare.wp m (fun _ w' => steady w') w.

Lemma timed_update (cond : Reminder -> bool) (set : Reminder -> Reminder)
    (t : list Reminder) :
  (forall x, In x t -> cond x = true -> 1 <= interval_days (set x)) ->
  timed t -> timed (Sql.update cond set t).
Proof.
  intros Hset Ht. unfold timed in *. rewrite Forall_forall in Ht.
  apply Forall_forall. intros y Hy.
  apply update_origin in Hy as (x & Hx & ->).
  destruct (cond x) eqn:Ec; auto.
Qed.

Ltac steady_now :=
  split; [cbn [db plant_reminders ai_plant_reminders set_plant_reminders];
          assumption
         | cbn [txn]; assumption].

Lemma steady_saveReminder tz plantId data userId :
  1 <= rd_intervalDays data ->
  holds (saveReminder tz plantId data userId).
Proof.
  intros Hdata w [Hg Ht]. unfold saveReminder.
  wp_step. wp_step; [steady_now|].
  destruct (select_plant plantId userId (db w)); [wp_step; steady_now|].
  wp_step. wp_step.
  destruct (JsDate.toISODate _) as [next|]; [|steady_now].
  wp_step. wp_step; [steady_now|].
  destruct (filter (active_of plantId (rd_type data)) (plant_reminders (db w)))
    as [|existing others].
  - wp_step. wp_step. wp_step; [steady_now|].
    cbn [insert_reminder fst snd].
    match goal with
    | |- context [plant_reminders (db w) ++ [?new]] =>
        assert (timed (plant_reminders (db w) ++ [new])) as Hnew
    end.
    { apply Forall_app. split; [exact Hg|].
      constructor; [exact Hdata | constructor]. }
    wp_step; [steady_now|]. wp_step. steady_now.
  - wp_step. wp_step. wp_step; [steady_now|].
    cbn [update_reminder fst snd].
    match goal with
    | |- context [Sql.update ?c ?s (plant_reminders (db w))] =>
        assert (timed (Sql.update c s (plant_reminders (db w)))) as Hnew
    end.
    { apply timed_update; [|exact Hg]. intros x _ _. exact Hdata. }
    wp_step; [steady_now|]. wp_step. steady_now.
Qed.

Lemma steady_completeReminder tz now reminderId userId :
  holds (completeReminder tz now reminderId userId).
Proof.
  intros w [Hg Ht]. unfold completeReminder.
  wp_step. wp_step; [steady_now|].
  destruct (select_owned_reminder reminderId userId (db w)) as [|reminder rest];
    [wp_step; steady_now|].
  wp_step. wp_step.
  destruct (JsDate.toISODate _) as [today|]; [|steady_now].
  wp_step. wp_step.
  destruct (JsDate.toISODate _) as [next|]; [|steady_now].
  wp_step. wp_step; [steady_now|].
  cbn [plant_reminders set_plant_reminders ai_plant_reminders].
  match goal with
  | |- context [Sql.update ?c ?s (plant_reminders (db w))] =>
      assert (timed (Sql.update c s (plant_reminders (db w)))) as Hnew
  end.
  { apply timed_update; [|exact Hg]. intros x Hx _.
    unfold timed in Hg. rewrite Forall_forall in Hg. exact (Hg x Hx). }
  wp_step. wp_step; [steady_now|]. wp_step. steady_now.
Qed.

Lemma steady_deleteReminder reminderId userId :
  holds (deleteReminder reminderId userId).
Proof.
  intros w [Hg Ht]. unfold deleteReminder.
  wp_step. wp_step; [steady_now|].
  destruct (select_owned_reminder reminderId userId (db w));
    [wp_step; steady_now|].
  wp_step. wp_step; [steady_now|].
  cbn [plant_reminders set_plant_reminders ai_plant_reminders].
  match goal with
  | |- context [Sql.update ?c ?s (plant_reminders (db w))] =>
      assert (timed (Sql.update c s (plant_reminders (db w)))) as Hnew
  end.
  { apply timed_update; [|exact Hg]. intros x Hx _.
    unfold timed in Hg. rewrite Forall_forall in Hg. exact (Hg x Hx). }
  wp_step. steady_now.
Qed.

Ltac steady_frame :=
  intros w [Hg Ht];
  repeat first
    [ wp_step
    | lazymatch goal with
      | |- Hoare.wp (match ?x with _ => _ end) _ _ => destruct x
      | |- match JsDate.toISODate ?date with _ => _ end =>
          destruct (JsDate.toISODate date)
      | |- steady _ => split; cbn; assumption || reflexivity
      end ].

Lemma attempt_world {A : Type} (failure : string) (call : M A)
    (respond : A -> Http.Response) (w : World) :
  snd (Http.attempt failure call respond w) = snd (call w).
Proof.
  unfold Http.attempt. destruct (call w) as [[a|] w']; reflexivity.
Qed.

Lemma validated_interval (b : Http.ReminderBody) (data : ReminderData) :
  Http.validated b = Some data -> 1 <= rd_intervalDays data.
Proof.
  unfold Http.validated.
  destruct (Http.b_type b), (Http.b_intervalDays b) as [n|], (Http.b_startDate b);
    try discriminate.
  destruct (1 <=? n) eqn:E; [|discriminate].
  intros H. inversion H. simpl. apply Z.leb_le. exact E.
Qed.

Lemma steady_handle (tz : JsDate.Zone) (now : JsDate.Clock)
    (session : option Z) (req : Http.Request) (w : World) :
  steady w -> steady (snd (Http.handle tz now session req w)).
Proof.
  intros Hw. destruct session as [userId|]; [|exact Hw].
  destruct req as [|plantId|plantId|plantId|plantId b|reminderId|reminderId
                   |days|plantId|plantId];
    cbn [Http.handle Http.requireAuth];
    try rewrite attempt_world; revert w Hw.
  - change (holds (PlantService.getUserPlants userId)).
    unfold PlantService.getUserPlants. steady_frame.
  - change (holds (PlantService.getPlantById plantId userId)).
    unfold PlantService.getPlantById. steady_frame.
  - change (holds (PlantService.deletePlant plantId userId)).
    unfold PlantService.deletePlant. steady_frame.
  - change (holds (getPlantReminders plantId userId)).
    unfold getPlantReminders. steady_frame.
  - intros w Hw. destruct (Http.validated b) as [data|] eqn:Ev; [|exact Hw].
    rewrite attempt_world.
    exact (steady_saveReminder tz plantId data userId
             (validated_interval b data Ev) w Hw).
  - exact (steady_completeReminder tz now reminderId userId).
  - exact (steady_deleteReminder reminderId userId).
  - change (holds (getUpcomingReminders tz now userId (Some (Http.daysAhead days)))).
    unfold getUpcomingReminders. steady_frame.
  - change (holds (HealthService.getPlantHealthRemarks plantId userId)).
    unfold HealthService.getPlantHealthRemarks. steady_frame.
  - change (holds (HealthService.getLatestHealthRemark plantId userId)).
    unfold HealthService.getLatestHealthRemark. steady_frame.
Qed.

Lemma steady_serve (m : Http.Middleware) (tz : JsDate.Zone) (now : JsDate.Clock)
    (session : option Z) (req : Http.Request) (w : World) :
  steady w -> steady (snd (Http.serve m tz now session req w)).
Proof.
  intros Hw. unfold Http.serve.
  destruct (Http.method req), (Http.csrfValid m), (Http.overLimit m);
    cbn [negb snd]; first [exact Hw | apply steady_handle; exact Hw].
Qed.

Lemma reachable_timed (d : DB) :
  Http.reachable d -> Forall (fun r => 1 <= interval_days r) (plant_reminders d).
Proof.
  induction 1 as [d E|d m tz now session req schedule _ IH].
  - rewrite E. constructor.
  - assert (steady (Machine.request d schedule)) as Hw
      by (split; [exact IH | reflexivity]).
    destruct (steady_serve m tz now session req _ Hw) as [Hd _]. exact Hd.
Qed.

End RouteInvariant.

(** X23. In every store reached from a freshly created reminder table
    through the requests of [Http.Request], with or without a session or a
    CSRF token and whatever faults occurred, each reminder has an interval
    of at least one day: the validators of the one route that writes an
    interval let no other through, and no other route changes it. *)
Theorem routes_keep_intervals_positive (d : DB) (r : Reminder) :
  Http.reachable d ->
  In r (plant_reminders d) ->
  1 <= interval_days r.
Proof.
  intros Hr Hin.
  pose proof (reachable_timed d Hr) as Ht. rewrite Forall_forall in Ht.
  exact (Ht r Hin).
Qed.

Lemma routes_keep_intervals_positive_witness :
  exists r,
    In r (plant_reminders
            (db (snd (Http.serve (Http.mkMiddleware true false) Sample.tallinn
                        Sample.half_past_midnight (Some 7)
                        (Http.PostReminder 1
                           (Http.mkReminderBody (Some watering) (Some 3)
                              (Some (JsDate.Slashed 20148)) None))
                        (Machine.request (db Sample.fresh_world) [])))))
    /\ 1 <= interval_days r.
Proof.
  eexists. split; [vm_compute; left; reflexivity|].
  apply (routes_keep_intervals_positive
           (db (snd (Http.serve (Http.mkMiddleware true false) Sample.tallinn
                       Sample.half_past_midnight (Some 7)
                       (Http.PostReminder 1
                          (Http.mkReminderBody (Some watering) (Some 3)
                             (Some (JsDate.Slashed 20148)) None))
                       (Machine.request (db Sample.fresh_world) []))))).
  - apply Http.reachable_request. apply Http.reachable_deployed. reflexivity.
  - vm_compute. left. reflexivity.
Defined.

(** ** The window of the upcoming route *)




(** ** The reminders panel *)

Section PanelFacts.

Import ReminderService.

Lemma push_get (date : Z) (r : UpcomingView) (g : Panel.Grouped) (k : Z) :
  Panel.get k (Panel.push date r g)
  = if k =? date then Panel.get date g ++ [r] else Panel.get k g.
Proof.
  induction g as [|[k0 rs] rest IH]; simpl.
  - rewrite (Z.eqb_sym date k). destruct (k =? date); reflexivity.
  - destruct (k0 =? date) eqn:E0; simpl.
    + apply Z.eqb_eq in E0. subst k0.
      rewrite (Z.eqb_sym date k). destruct (k =? date); reflexivity.
    + rewrite IH. destruct (k =? date) eqn:Ek; [|reflexivity].
      apply Z.eqb_eq in Ek. subst k. rewrite E0. reflexivity.
Qed.

Lemma push_keys (date : Z) (r : UpcomingView) (g : Panel.Grouped) (k : Z) :
  In k (Panel.keys (Panel.push date r g)) <-> k = date \/ In k (Panel.keys g).
Proof.
  induction g as [|[k0 rs] rest IH]; simpl.
  - intuition congruence.
  - destruct (k0 =? date) eqn:E0; simpl.
    + apply Z.eqb_eq in E0. unfold Panel.keys. intuition congruence.
    + fold (Panel.keys (Panel.push date r rest)). rewrite IH.
      unfold Panel.keys. intuition congruence.
Qed.

Lemma push_keys_NoDup (date : Z) (r : UpcomingView) (g : Panel.Grouped) :
  NoDup (Panel.keys g) -> NoDup (Panel.keys (Panel.push date r g)).
Proof.
  induction g as [|[k0 rs] rest IH]; simpl; intros Hnd.
  - constructor; [intros [] | constructor].
  - inversion Hnd as [|? ? Hk0 Hrest]; subst.
    destruct (k0 =? date) eqn:E0; simpl; [constructor; assumption|].
    constructor; [|apply IH; exact Hrest].
    fold (Panel.keys (Panel.push date r rest)). rewrite push_keys.
    apply Z.eqb_neq in E0. intros [->|Hin]; [congruence | contradiction].
Qed.

Lemma group_snoc (l : list UpcomingView) (r : UpcomingView) :
  Panel.groupRemindersByDate (l ++ [r])
  = Panel.push (u_nextReminder r) r (Panel.groupRemindersByDate l).
Proof.
  unfold Panel.groupRemindersByDate. rewrite fold_left_app. reflexivity.
Qed.

Lemma group_get (l : list UpcomingView) (k : Z) :
  Panel.get k (Panel.groupRemindersByDate l)
  = filter (fun r => u_nextReminder r =? k) l.
Proof.
  induction l as [|r l IH] using rev_ind; [reflexivity|].
  rewrite group_snoc, push_get, filter_app. simpl.
  rewrite (Z.eqb_sym (u_nextReminder r) k).
  destruct (k =? u_nextReminder r) eqn:E.
  - apply Z.eqb_eq in E. subst k. rewrite IH. reflexivity.
  - rewrite IH, app_nil_r. reflexivity.
Qed.

Lemma group_keys (l : list UpcomingView) (k : Z) :
  In k (Panel.keys (Panel.groupRemindersByDate l))
  <-> exists r, In r l /\ u_nextReminder r = k.
Proof.
  induction l as [|r l IH] using rev_ind.
  - simpl. split; [contradiction | intros (r & [] & _)].
  - rewrite group_snoc, push_keys, IH. split.
    + intros [->|(x & Hx & E)].
      * exists r. split; [apply in_or_app; right; left|]; reflexivity.
      * exists x. split; [apply in_or_app; left; exact Hx | exact E].
    + intros (x & Hx & E). apply in_app_or in Hx as [Hx|[<-|[]]].
      * right. exists x. auto.
      * left. auto.
Qed.

Lemma group_keys_NoDup (l : list UpcomingView) :
  NoDup (Panel.keys (Panel.groupRemindersByDate l)).
Proof.
  induction l as [|r l IH] using rev_ind; [constructor|].
  rewrite group_snoc. apply push_keys_NoDup. exact IH.
Qed.

Lemma render_dates (l : list UpcomingView) :
  map fst (Panel.renderReminders l)
  = Sql.order_by_asc (fun date => date)
      (Panel.keys (Panel.groupRemindersByDate l)).
Proof.
  unfold Panel.renderReminders. rewrite map_map. simpl. apply map_id.
Qed.

Lemma strictly_sorted (ks : list Z) :
  NoDup ks -> Sorted Z.le ks -> StronglySorted Z.lt ks.
Proof.
  intros Hnd Hs.
  apply Sorted_StronglySorted in Hs; [|intros a b c; apply Z.le_trans].
  induction Hs as [|k ks Hks IH Hall]; [constructor|].
  inversion Hnd as [|? ? Hk Hnd']; subst.
  constructor; [apply IH; exact Hnd'|].
  rewrite Forall_forall in Hall. apply Forall_forall. intros x Hx.
  specialize (Hall x Hx).
  assert (x <> k) by (intros ->; contradiction). lia.
Qed.

Lemma render_dates_sorted (l : list UpcomingView) :
  StronglySorted Z.lt (map fst (Panel.renderReminders l)).
Proof.
  rewrite render_dates. apply strictly_sorted.
  - apply (Permutation_NoDup
             (Permutation_sym (order_by_asc_perm (fun date : Z => date) _))).
    apply group_keys_NoDup.
  - exact (order_by_asc_sorted (fun date : Z => date) _).
Qed.

Lemma render_group (l : list UpcomingView) (date : Z) (rs : list UpcomingView) :
  In (date, rs) (Panel.renderReminders l) ->
  rs = filter (fun r => u_nextReminder r =? date) l
  /\ exists r, In r l /\ u_nextReminder r = date.
Proof.
  unfold Panel.renderReminders. intros Hin.
  apply in_map_iff in Hin as (k & E & Hk). inversion E; subst.
  split; [apply group_get|].
  apply (Permutation_in _ (order_by_asc_perm (fun date : Z => date) _)) in Hk.
  apply group_keys. exact Hk.
Qed.

Lemma filter_all {A : Type} (f : A -> bool) (l : list A) :
  (forall x, In x l -> f x = true) -> filter f l = l.
Proof.
  induction l as [|x l IH]; simpl; intros H; [reflexivity|].
  rewrite (H x (or_introl eq_refl)). f_equal.
  apply IH. intros y Hy. apply H. right. exact Hy.
Qed.

(** Reminders in ascending order of their dates, cut at the dates of a
    strictly ascending list that holds them all, are the reminders. *)
Lemma sorted_cut (ks : list Z) (l : list UpcomingView) :
  StronglySorted Z.lt ks ->
  StronglySorted (Sql.ascending u_nextReminder) l ->
  (forall r, In r l -> In (u_nextReminder r) ks) ->
  List.concat (map (fun k => filter (fun r => u_nextReminder r =? k) l) ks) = l.
Proof.
  intros Hks. revert l.
  induction Hks as [|k ks Hks IH Hall]; intros l Hl Hin.
  - destruct l as [|r l]; [reflexivity|].
    destruct (Hin r (or_introl eq_refl)).
  - rewrite Forall_forall in Hall. simpl.
    assert (forall k', In k' ks ->
              filter (fun r => u_nextReminder r =? k') l
              = filter (fun r => u_nextReminder r =? k')
                       (filter (fun r => negb (u_nextReminder r =? k)) l))
      as Hrest.
    { intros k' Hk'. specialize (Hall k' Hk').
      induction l as [|x l IHl]; [reflexivity|]. simpl.
      destruct (u_nextReminder x =? k) eqn:Ex; simpl.
      - apply Z.eqb_eq in Ex.
        destruct (u_nextReminder x =? k') eqn:Ex'; [apply Z.eqb_eq in Ex'; lia|].
        apply IHl.
        + inversion Hl; assumption.
        + intros r Hr. apply Hin. right. exact Hr.
      - destruct (u_nextReminder x =? k'); [f_equal|]; apply IHl;
          try (inversion Hl; assumption);
          intros r Hr; apply Hin; right; exact Hr. }
    rewrite (map_ext_in _ _ _ Hrest).
    rewrite IH.
    + clear IH Hrest.
      induction Hl as [|x l Hl IHl Hx]; [reflexivity|]. simpl.
      destruct (u_nextReminder x =? k) eqn:Ex; simpl.
      * f_equal. apply IHl. intros r Hr. apply Hin. right. exact Hr.
      * assert (k < u_nextReminder x) as Hlt.
        { destruct (Hin x (or_introl eq_refl)) as [E|Hk].
          - apply Z.eqb_neq in Ex. congruence.
          - exact (Hall _ Hk). }
        rewrite Forall_forall in Hx.
        assert (filter (fun r => u_nextReminder r =? k) l = []) as ->.
        { apply filter_none. intros r Hr. specialize (Hx r Hr).
          unfold Sql.ascending in Hx. apply Z.eqb_neq. lia. }
        assert (filter (fun r => negb (u_nextReminder r =? k)) l = l) as ->.
        { apply filter_all. intros r Hr. specialize (Hx r Hr).
          unfold Sql.ascending in Hx. apply negb_true_iff, Z.eqb_neq. lia. }
        reflexivity.
    + clear IH Hrest Hin Hall.
      induction Hl as [|x l Hl IHl Hx]; [constructor|]. simpl.
      destruct (negb (u_nextReminder x =? k)); [|exact IHl].
      constructor; [exact IHl|].
      rewrite Forall_forall in Hx. apply Forall_forall.
      intros r Hr. apply filter_In in Hr as [Hr _]. exact (Hx r Hr).
    + intros r Hr. apply filter_In in Hr as [Hr Hne].
      destruct (Hin r Hr) as [E|Hk]; [|exact Hk].
      rewrite <- E, Z.eqb_refl in Hne. discriminate.
Qed.

Lemma render_as_filters (l : list UpcomingView) :
  map snd (Panel.renderReminders l)
  = map (fun k => filter (fun r => u_nextReminder r =? k) l)
        (map fst (Panel.renderReminders l)).
Proof.
  rewrite render_dates. unfold Panel.renderReminders.
  rewrite map_map. simpl. apply map_ext. intros k. apply group_get.
Qed.

Lemma items_of_sorted (l : list UpcomingView) :
  Sorted (Sql.ascending u_nextReminder) l -> Panel.items l = l.
Proof.
  intros Hs. unfold Panel.items. rewrite render_as_filters.
  apply sorted_cut.
  - apply render_dates_sorted.
  - apply Sorted_StronglySorted; [|exact Hs].
    intros a b c. unfold Sql.ascending. apply Z.le_trans.
  - intros r Hr. rewrite render_dates.
    apply (Permutation_in _
             (Permutation_sym (order_by_asc_perm (fun date : Z => date) _))).
    apply group_keys. exists r. auto.
Qed.

End PanelFacts.

(** X25. The panel groups the reminders by due date without losing or
    repeating any: the groups come in strictly ascending order of date,
    each group is not empty and lists exactly the reminders due that day in
    the order they were received, and every reminder received has its
    group. *)
Theorem renderReminders_groups_by_date
    (reminders : list ReminderService.UpcomingView) :
  StronglySorted Z.lt (map fst (Panel.renderReminders reminders))
  /\ (forall date rs,
        In (date, rs) (Panel.renderReminders reminders) ->
        rs <> []
        /\ rs = filter (fun r => ReminderService.u_nextReminder r =? date)
                       reminders)
  /\ (forall r,
        In r reminders ->
        In (ReminderService.u_nextReminder r, 
            filter (fun x => ReminderService.u_nextReminder x
                             =? ReminderService.u_nextReminder r) reminders)
           (Panel.renderReminders reminders)).
Proof.
  split; [apply render_dates_sorted|]. split.
  - intros date rs Hin.
    destruct (render_group reminders date rs Hin) as (E & r & Hr & Hd).
    split; [|exact E]. rewrite E. intros Hnil.
    apply filter_none with (row := r) in Hnil; [|exact Hr].
    rewrite Hd, Z.eqb_refl in Hnil. discriminate.
  - intros r Hr. unfold Panel.renderReminders.
    apply in_map_iff. exists (ReminderService.u_nextReminder r).
    split; [f_equal; apply group_get|].
    apply (Permutation_in _
             (Permutation_sym (order_by_asc_perm (fun date : Z => date) _))).
    apply group_keys. exists r. auto.
Qed.

(** X26. Whatever the upcoming-reminders service answers, the panel shows
    as it is: the reminder items of the page, read from top to bottom
    through the date groups, are the reminders of the answer in the order
    of the answer. *)
Theorem panel_shows_answer_in_order
    (tz : JsDate.Zone) (now : JsDate.Clock) (userId : Z) (days : option Z) (w w' : World)
    (rows : list ReminderService.UpcomingView) :
  ReminderService.getUpcomingReminders tz now userId days w = (Returned rows, w') ->
  Panel.items rows = rows.
Proof.
  intros Hrun.
  apply getUpcomingReminders_returned in Hrun as (today & futureDate & ->).
  apply items_of_sorted. apply select_upcoming_sorted.
Qed.

Lemma panel_shows_answer_in_order_witness :
  Panel.items
    (ReminderService.select_upcoming 7 20160 20167 (db Sample.week_world))
  = ReminderService.select_upcoming 7 20160 20167 (db Sample.week_world).
Proof.
  apply (panel_shows_answer_in_order (JsDate.fixed 0)
           (JsDate.still (20160 * 86400000)) 7 (Some 7) Sample.week_world
           (snd (ReminderService.getUpcomingReminders (JsDate.fixed 0)
                   (JsDate.still (20160 * 86400000)) 7 (Some 7)
                   Sample.week_world))).
  reflexivity.
Defined.
